(** * blaze.server: the expression-tree wire codec and the request handlers

    A shallow embedding of [blaze/server/server.py]: the codec
    [to_tree] / [from_tree], the tag resolver [expression_from_name], the
    request decorators [authorization] and [check_request], and the two
    body-carrying handlers [compserver] and [addserver].

    Python values are one inductive type [pyval]; a raised exception is the
    [Raise] case of [result].  The parts of blaze, datashape and flask that
    the module imports but that are not part of this file (the expression
    classes, [compute], [discover], the serialization formats, ...) are the
    fields of the record [Engine]. *)

From Stdlib Require Import String Ascii List ZArith Bool Lia.
Import ListNotations.
Local Open Scope string_scope.
Local Open Scope list_scope.

(** ** Exceptions and results *)

(** An instance of a subclass of [Exception]: the name of its class, the
    names of the classes it inherits from, and [str(e)].  Signals that are
    only [BaseException] (KeyboardInterrupt, SystemExit) are interpreter
    control flow and are not modelled. *)
Record exn : Type := mkExn {
  exn_name : string;
  exn_bases : list string;
  exn_str : string
}.

(** [isinstance(e, C)], with [C] given by name. *)
Definition isinstance_exn (e : exn) (C : string) : bool :=
  String.eqb (exn_name e) C || existsb (String.eqb C) (exn_bases e).

Definition TypeError (msg : string) : exn := mkExn "TypeError" [] msg.
Definition KeyError (msg : string) : exn := mkExn "KeyError" ["LookupError"] msg.
Definition IndexError (msg : string) : exn := mkExn "IndexError" ["LookupError"] msg.
Definition ValueError (msg : string) : exn := mkExn "ValueError" [] msg.
Definition AttributeError (msg : string) : exn := mkExn "AttributeError" [] msg.
Definition AssertionError : exn := mkExn "AssertionError" [] "".

Inductive result (A : Type) : Type :=
| Ok (a : A)
| Raise (e : exn).
Arguments Ok {A} a.
Arguments Raise {A} e.

Definition bind {A B : Type} (r : result A) (k : A -> result B) : result B :=
  match r with
  | Ok a => k a
  | Raise e => Raise e
  end.

Declare Scope py_scope.
Delimit Scope py_scope with py.
Notation "x <- c ;; k" := (bind c (fun x => k))
  (at level 61, c at next level, right associativity) : py_scope.
Local Open Scope py_scope.

(** A list comprehension [[f(x) for x in l]] whose body may raise: elements
    are evaluated left to right and the first exception ends the loop. *)
Definition mapM {A B : Type} (f : A -> result B) : list A -> result (list B) :=
  fix each (l : list A) : result (list B) :=
    match l with
    | [] => Ok []
    | x :: l' => y <- f x ;; ys <- each l' ;; Ok (y :: ys)
    end.

(** ** Python values *)

(** An object bound in a module namespace.  For an expression node
    [type(expr)] is such an object and [cls_name] is its [__name__]. *)
Record pyclass : Type := mkClass {
  cls_module : string;
  cls_name : string
}.

Definition pyclass_eqb (a b : pyclass) : bool :=
  String.eqb (cls_module a) (cls_module b) && String.eqb (cls_name a) (cls_name b).

(** Scalars.  [Obj n] is an opaque object of the engine (a datashape, a
    dataset handle, a computed result), named by [n] and [==] to itself
    only.  There are no floats. *)
Inductive prim : Type :=
| None_
| Bool (b : bool)
| Int (z : Z)
| Str (s : string)
| Obj (n : nat).

(** [p == q].  A [bool] is an [int]: [True == 1] and [False == 0], and
    their hashes agree, so that a dict that has the one as a key has the
    other. *)
Definition int_of_bool (b : bool) : Z := if b then 1 else 0.

Definition prim_eqb (p q : prim) : bool :=
  match p, q with
  | None_, None_ => true
  | Bool a, Bool b => Bool.eqb a b
  | Int a, Int b => Z.eqb a b
  | Bool a, Int b => Z.eqb (int_of_bool a) b
  | Int a, Bool b => Z.eqb a (int_of_bool b)
  | Str a, Str b => String.eqb a b
  | Obj a, Obj b => Nat.eqb a b
  | _, _ => false
  end.

(** - [PTuple], [PList], [PDict]: the built-in containers; a dict is the
      list of its items in insertion order, no two keys of which are [==];
    - [PySlice]: the built-in [slice];
    - [P_slice]: [blaze.expr.utils._slice], the hashable wrapper that
      expression nodes hold in place of a [slice];
    - [PInteractive name dshape data]: an [InteractiveSymbol];
    - [PExpr cls args]: any other [Expr], with [type(expr) = cls] and
      [expr._args = args]. *)
#[local] Unset Elimination Schemes.
Inductive pyval : Type :=
| Prim (p : prim)
| PTuple (l : list pyval)
| PList (l : list pyval)
| PDict (d : list (pyval * pyval))
| PySlice (start stop step : pyval)
| P_slice (start stop step : pyval)
| PInteractive (name dshape data : pyval)
| PExpr (cls : pyclass) (args : list pyval).
#[local] Set Elimination Schemes.

(** Induction over values, with the induction hypothesis for every element
    of a container. *)

Section pyval_induction.

Variable P : pyval -> Prop.
Hypothesis HPrim : forall p, P (Prim p).
Hypothesis HTuple : forall l, Forall P l -> P (PTuple l).
Hypothesis HList : forall l, Forall P l -> P (PList l).
Hypothesis HDict :
  forall d, Forall (fun kv => P (fst kv) /\ P (snd kv)) d -> P (PDict d).
Hypothesis HPySlice : forall a b c, P a -> P b -> P c -> P (PySlice a b c).
Hypothesis HP_slice : forall a b c, P a -> P b -> P c -> P (P_slice a b c).
Hypothesis HInteractive :
  forall a b c, P a -> P b -> P c -> P (PInteractive a b c).
Hypothesis HExpr : forall cls l, Forall P l -> P (PExpr cls l).

Fixpoint pyval_ind (v : pyval) : P v :=
  let all :=
    fix all (l : list pyval) : Forall P l :=
      match l with
      | [] => Forall_nil P
      | x :: l' => Forall_cons x (pyval_ind x) (all l')
      end in
  match v with
  | Prim p => HPrim p
  | PTuple l => HTuple l (all l)
  | PList l => HList l (all l)
  | PDict d =>
      HDict d
        ((fix items (d : list (pyval * pyval))
            : Forall (fun kv => P (fst kv) /\ P (snd kv)) d :=
            match d with
            | [] => Forall_nil _
            | (k, w) :: d' =>
                Forall_cons (k, w) (conj (pyval_ind k) (pyval_ind w)) (items d')
            end) d)
  | PySlice a b c => HPySlice a b c (pyval_ind a) (pyval_ind b) (pyval_ind c)
  | P_slice a b c => HP_slice a b c (pyval_ind a) (pyval_ind b) (pyval_ind c)
  | PInteractive a b c =>
      HInteractive a b c (pyval_ind a) (pyval_ind b) (pyval_ind c)
  | PExpr cls l => HExpr cls l (all l)
  end.

End pyval_induction.


Definition dict : Type := list (pyval * pyval).

Definition PStr (s : string) : pyval := Prim (Str s).
Definition PNone : pyval := Prim None_.

(** The [==] of two values: scalars by [prim_eqb], containers, slices and
    nodes component by component.  Two dicts are compared item by item in
    their order; the module compares a dict to strings only, and no key of
    a dict holds one. *)
Definition list_eqb (eqb : pyval -> pyval -> bool)
  : list pyval -> list pyval -> bool :=
  fix all2 (l m : list pyval) {struct l} : bool :=
    match l, m with
    | [], [] => true
    | a :: l', b :: m' => eqb a b && all2 l' m'
    | _, _ => false
    end.

Definition items_eqb (eqb : pyval -> pyval -> bool)
  : list (pyval * pyval) -> list (pyval * pyval) -> bool :=
  fix all2 (d d' : list (pyval * pyval)) {struct d} : bool :=
    match d, d' with
    | [], [] => true
    | (k, v) :: t, (k', v') :: t' => eqb k k' && eqb v v' && all2 t t'
    | _, _ => false
    end.

Fixpoint pyval_eqb (x y : pyval) {struct x} : bool :=
  match x, y with
  | Prim p, Prim q => prim_eqb p q
  | PTuple l, PTuple m => list_eqb pyval_eqb l m
  | PList l, PList m => list_eqb pyval_eqb l m
  | PDict d, PDict d' => items_eqb pyval_eqb d d'
  | PySlice a b c, PySlice a' b' c' =>
      pyval_eqb a a' && pyval_eqb b b' && pyval_eqb c c'
  | P_slice a b c, P_slice a' b' c' =>
      pyval_eqb a a' && pyval_eqb b b' && pyval_eqb c c'
  | PInteractive a b c, PInteractive a' b' c' =>
      pyval_eqb a a' && pyval_eqb b b' && pyval_eqb c c'
  | PExpr c l, PExpr c' m => pyclass_eqb c c' && list_eqb pyval_eqb l m
  | _, _ => false
  end.

(** The value with every [bool] written as the [int] it equals: two
    values are [==] exactly when they agree after that
    ([pyval_eqb_canon]). *)
Definition canon_prim (p : prim) : prim :=
  match p with
  | Bool b => Int (int_of_bool b)
  | _ => p
  end.

Fixpoint canon (v : pyval) {struct v} : pyval :=
  match v with
  | Prim p => Prim (canon_prim p)
  | PTuple l => PTuple (map canon l)
  | PList l => PList (map canon l)
  | PDict d =>
      PDict ((fix items (d : list (pyval * pyval)) : list (pyval * pyval) :=
                match d with
                | [] => []
                | (k, w) :: d' => (canon k, canon w) :: items d'
                end) d)
  | PySlice a b c => PySlice (canon a) (canon b) (canon c)
  | P_slice a b c => P_slice (canon a) (canon b) (canon c)
  | PInteractive a b c => PInteractive (canon a) (canon b) (canon c)
  | PExpr cls l => PExpr cls (map canon l)
  end.

(** [hash(v)] succeeds.  Lists, dicts and built-in slices have no hash; a
    tuple, a [_slice] and an expression node hash their components. *)
Fixpoint hashable (v : pyval) : bool :=
  match v with
  | Prim _ => true
  | PTuple l => forallb hashable l
  | PList _ => false
  | PDict _ => false
  | PySlice _ _ _ => false
  | P_slice a b c => hashable a && hashable b && hashable c
  | PInteractive _ _ _ => true
  | PExpr _ args => forallb hashable args
  end.

(** [bool(v)] for the values a payload carries. *)
Definition truthy (v : pyval) : bool :=
  match v with
  | Prim None_ => false
  | Prim (Bool b) => b
  | Prim (Int z) => negb (Z.eqb z 0)
  | Prim (Str s) => negb (String.eqb s "")
  | Prim (Obj _) => true
  | PTuple l => negb (Nat.eqb (length l) 0)
  | PList l => negb (Nat.eqb (length l) 0)
  | PDict d => negb (Nat.eqb (length d) 0)
  | _ => true
  end.

(** ** Dicts *)

(** [d.get(k)]. *)
Fixpoint dict_get (d : dict) (k : pyval) : option pyval :=
  match d with
  | [] => None
  | (k', v) :: d' => if pyval_eqb k' k then Some v else dict_get d' k
  end.

(** [d[k] = v]: an existing key keeps its place, a new one goes last. *)
Fixpoint dict_set (d : dict) (k v : pyval) : dict :=
  match d with
  | [] => [(k, v)]
  | (k', v') :: d' =>
      if pyval_eqb k' k then (k', v) :: d' else (k', v') :: dict_set d' k v
  end.

(** Keys of which no two are [==], as the keys of a dict are. *)
Definition distinct (keys : list pyval) : Prop :=
  ForallOrdPairs (fun k k' => pyval_eqb k k' = false) keys.

(** [d.update(other)]. *)
Definition dict_update (d other : dict) : dict :=
  fold_left (fun acc kv => dict_set acc (fst kv) (snd kv)) other d.

(** [d[k]] for a string key, raising [KeyError]. *)
Definition dict_getitem (d : dict) (k : string) : result pyval :=
  match dict_get d (PStr k) with
  | Some v => Ok v
  | None => Raise (KeyError k)
  end.

(** [m and x in m] followed by [m[x]]: the value bound to [x], if any.  A
    [None] or empty mapping is falsy, so [x] is not hashed at all; otherwise
    the membership test hashes [x] and raises [TypeError] when it cannot. *)
Definition lookup (m : dict) (x : pyval) : result (option pyval) :=
  match m with
  | [] => Ok None
  | _ :: _ =>
      if hashable x then Ok (dict_get m x)
      else Raise (TypeError "unhashable type")
  end.

(** ** Strings *)

(** [sub in s]. *)
Fixpoint str_contains (sub s : string) : bool :=
  String.prefix sub s ||
  match s with
  | EmptyString => false
  | String _ s' => str_contains sub s'
  end.

(** The characters of a string, as [for c in s] yields them. *)
Fixpoint str_chars (s : string) : list pyval :=
  match s with
  | EmptyString => []
  | String c s' => PStr (String c EmptyString) :: str_chars s'
  end.

(** ** The engine *)

(** What [server.py] imports from blaze, datashape, odo and flask.
    - [blaze_attr name], [blaze_expr_attr name]: [getattr(blaze, name)] and
      [getattr(blaze.expr, name)], [None] when [hasattr] is false;
    - [compute_up_funcs]: the keys of [compute_up.funcs], each a tuple of
      types, in iteration order;
    - [construct cls children]: the call [cls( *children)];
    - [Symbol], [symbol_token]: the class of symbols and the third
      argument [symbol(name, dshape)] gives a new one;
    - [discover], [leaves], [dshape_of], [fields_of], [pprint], [compute],
      [resource]: [discover(data)], [expr._leaves()], [expr.dshape],
      [expr.fields], [pprint(ds, width=0)], [compute(expr, {leaf: data},
      **kwargs)], [resource(uri)];
    - [all_formats]: the names of [serialization.all_formats];
    - [bytes_str]: [str] of a request body, as ['%s'] formats it, and
      [type_str v]: [str(type(v))];
    - [profile_stats], [write_profile]: [marshal.dump(Stats(p).stats, f)]
      into a buffer, and into the file [_prof_path] names. *)
Record Engine : Type := mkEngine {
  blaze_attr : string -> option pyclass;
  blaze_expr_attr : string -> option pyclass;
  compute_up_funcs : list (list pyclass);
  construct : pyclass -> list pyval -> result pyval;
  Symbol : pyclass;
  symbol_token : prim;
  discover : pyval -> result pyval;
  leaves : pyval -> result (list pyval);
  dshape_of : pyval -> result pyval;
  fields_of : pyval -> result pyval;
  pprint : pyval -> result pyval;
  compute : pyval -> pyval -> pyval -> pyval -> result pyval;
  resource : pyval -> result pyval;
  all_formats : list string;
  bytes_str : string -> string;
  type_str : pyval -> string;
  profile_stats : pyval -> result pyval;
  write_profile : pyval -> pyval -> result unit
}.

Section Codec.

Variable E : Engine.

(** Modelled from the spec: [blaze.expr.symbol] is not part of this
    module.  [symbol(name, dshape)] is the [Symbol] node that encodes as
    [args = [name, type, opaque flag]]. *)
Definition symbol (name dshape : pyval) : pyval :=
  PExpr (Symbol E) [name; dshape; Prim (symbol_token E)].

(** The wire mapping [{'op': op, 'args': args}]. *)
Definition op_tree (op : string) (args : list pyval) : pyval :=
  PDict [(PStr "op", PStr op); (PStr "args", PList args)].

(** The last branches of both codecs: a value that is no container and no
    node is replaced by what the mapping binds to it, or kept. *)
Definition substitute (m : dict) (v : pyval) : result pyval :=
  hit <- lookup m v ;;
  match hit with
  | Some bound => Ok bound
  | None => Ok v
  end.

(** What that branch makes of a scalar, which always has a hash. *)
Definition substituted (m : dict) (p : prim) : pyval :=
  match dict_get m (Prim p) with
  | Some bound => bound
  | None => Prim p
  end.

(** [to_tree(expr, names)].  The test [names and expr in names] comes
    first for every value, so it hashes [expr] before any [isinstance].  A
    [_slice] is encoded through [expr.as_slice()], a built-in [slice], and
    an [InteractiveSymbol] through [symbol(expr._name, expr.dshape)]: the
    recursive call on that new value is unfolded here (see
    [to_tree_P_slice] and [to_tree_PInteractive]).  The recursion limit
    of the interpreter is not modelled, here and in [from_tree]: what is
    said of them is said of values nested less deeply than it allows. *)
Fixpoint to_tree (names : dict) (expr : pyval) {struct expr} : result pyval :=
  hit <- lookup names expr ;;
  match hit with
  | Some alias => Ok alias
  | None =>
      match expr with
      | PTuple l =>
          args <- mapM (to_tree names) l ;;
          Ok (PList args)
      | P_slice start stop step =>
          hit' <- lookup names (PySlice start stop step) ;;
          match hit' with
          | Some alias => Ok alias
          | None =>
              a <- to_tree names start ;;
              b <- to_tree names stop ;;
              c <- to_tree names step ;;
              Ok (op_tree "slice" [a; b; c])
          end
      | PySlice start stop step =>
          a <- to_tree names start ;;
          b <- to_tree names stop ;;
          c <- to_tree names step ;;
          Ok (op_tree "slice" [a; b; c])
      | PInteractive name dshape _ =>
          hit' <- lookup names (symbol name dshape) ;;
          match hit' with
          | Some alias => Ok alias
          | None =>
              a <- to_tree names name ;;
              b <- to_tree names dshape ;;
              c <- substitute names (Prim (symbol_token E)) ;;
              Ok (op_tree (cls_name (Symbol E)) [a; b; c])
          end
      | PExpr cls args =>
          args' <- mapM (to_tree names) args ;;
          Ok (op_tree (cls_name cls) args')
      | _ => Ok expr
      end
  end.

(** [expression_from_name(name)]. *)
Fixpoint first_argument_named (name : string) (sigs : list (list pyclass))
  : result pyclass :=
  match sigs with
  | [] => Raise (ValueError (name ++ " not found in compute_up"))
  | signature :: rest =>
      match signature with
      | [] => Raise (IndexError "tuple index out of range")
      | t :: _ =>
          if String.eqb (cls_name t) name then Ok t
          else first_argument_named name rest
      end
  end.

(** A signature whose first type is not called [name]. *)
Definition first_is_not (name : string) (signature : list pyclass) : Prop :=
  exists t ts, signature = t :: ts /\ cls_name t <> name.

Definition expression_from_name (name : string) : result pyclass :=
  match blaze_attr E name with
  | Some c => Ok c
  | None =>
      match blaze_expr_attr E name with
      | Some c => Ok c
      | None => first_argument_named name (compute_up_funcs E)
      end
  end.

(** The class [from_tree] builds a node of, lines 470-473: [blaze.expr] is
    asked first, [expression_from_name] only when it has no such
    attribute.  [hasattr] wants a string. *)
Definition class_of_op (op : pyval) : result pyclass :=
  match op with
  | Prim (Str name) =>
      match blaze_expr_attr E name with
      | Some c => Ok c
      | None => expression_from_name name
      end
  | _ => Raise (TypeError "hasattr(): attribute name must be string")
  end.

(** ['Symbol' in op]. *)
Definition symbol_like (op : pyval) : result bool :=
  match op with
  | Prim (Str name) => Ok (str_contains "Symbol" name)
  | _ => Raise (TypeError "argument is not iterable")
  end.

(** [expr_utils._slice( *children)]. *)
Definition make_slice (children : list pyval) : result pyval :=
  match children with
  | [a; b; c] => Ok (P_slice a b c)
  | _ => Raise (TypeError "__init__() takes exactly 4 arguments")
  end.

(** What [for arg in args] runs over. *)
Definition iterate (args : pyval) : result (list pyval) :=
  match args with
  | PList l => Ok l
  | PTuple l => Ok l
  | PDict d => Ok (map fst d)
  | Prim (Str s) => Ok (str_chars s)
  | _ => Raise (TypeError "object is not iterable")
  end.

(** The comprehension [[from_tree(arg, ns) for arg in expr['args']]] over
    the items of the dict [expr], with [decode] for [from_tree].  It walks
    the items itself, down to the arguments, so that the recursion of
    [from_tree] stays structural; [children_eq] states it with
    [dict_getitem] and [iterate]. *)
Definition children (decode : dict -> pyval -> result pyval) (ns : dict)
  : list (pyval * pyval) -> result (list pyval) :=
  fix find (items : list (pyval * pyval)) : result (list pyval) :=
    match items with
    | [] => Raise (KeyError "args")
    | (k, args) :: rest =>
        if pyval_eqb k (PStr "args") then
          match args with
          | PList l => mapM (decode ns) l
          | PTuple l => mapM (decode ns) l
          | PDict d' =>
              (fix keys (kvs : list (pyval * pyval)) : result (list pyval) :=
                 match kvs with
                 | [] => Ok []
                 | (k', _) :: kvs' =>
                     y <- decode ns k' ;;
                     ys <- keys kvs' ;;
                     Ok (y :: ys)
                 end) d'
          | Prim (Str s) => mapM (substitute ns) (str_chars s)
          | _ => Raise (TypeError "object is not iterable")
          end
        else find rest
    end.

(** [from_tree(expr, namespace)]. *)
Fixpoint from_tree (namespace : dict) (expr : pyval) {struct expr} : result pyval :=
  match expr with
  | PDict d =>
      op <- dict_getitem d "op" ;;
      _ <- dict_getitem d "args" ;;
      if pyval_eqb (PStr "slice") op then
        args' <- children from_tree namespace d ;;
        make_slice args'
      else
        cls <- class_of_op op ;;
        sym <- symbol_like op ;;
        args' <- (if sym then children from_tree [] d
                  else children from_tree namespace d) ;;
        construct E cls args'
  | PList l =>
      l' <- mapM (from_tree namespace) l ;;
      Ok (PTuple l')
  | PTuple l =>
      l' <- mapM (from_tree namespace) l ;;
      Ok (PTuple l')
  | _ => substitute namespace expr
  end.

(** ** Round trips *)

(** The namespace that inverts a name table: every alias bound to the
    value it stands for. *)
Definition inverse (names : dict) : dict :=
  map (fun kv => (snd kv, fst kv)) names.


Definition all_of (P : pyval -> Prop) : list pyval -> Prop :=
  fix all (l : list pyval) : Prop :=
    match l with
    | [] => True
    | x :: l' => P x /\ all l'
    end.

(** A scalar that [names] has no key for. *)
Definition plain_scalar (names : dict) (v : pyval) : Prop :=
  (exists p, v = Prim p) /\ dict_get names v = None.

(** The expressions [to_tree(_, names)] encodes so that they can be
    decoded again.  A value that [names] has a key for must be that key
    itself, and not only [==] to it; below a value that [names] has no key
    for,
    - a scalar must not be [==] to an alias of [names];
    - a tuple must have such elements;
    - a [_slice] must have such bounds, and [names] must be empty (with
      names, [to_tree] hashes the built-in slice and raises);
    - a node must have a class that its name resolves to again and that
      builds the node from its arguments, and such arguments; but the
      arguments of a node whose class name contains ['Symbol'] must be
      scalars that [names] has no key for;
    - a list, a dict, a built-in slice or an [InteractiveSymbol] is never
      decoded to itself. *)
Fixpoint faithful (names : dict) (e : pyval) {struct e} : Prop :=
  match lookup names e with
  | Raise _ => False
  | Ok (Some alias) => In (e, alias) names
  | Ok None =>
      match e with
      | Prim _ => dict_get (inverse names) e = None
      | PTuple l => all_of (faithful names) l
      | P_slice a b c =>
          names = [] /\ faithful names a /\ faithful names b /\ faithful names c
      | PExpr cls args =>
          cls_name cls <> "slice" /\
          class_of_op (PStr (cls_name cls)) = Ok cls /\
          construct E cls args = Ok e /\
          if str_contains "Symbol" (cls_name cls)
          then all_of (plain_scalar names) args
          else all_of (faithful names) args
      | _ => False
      end
  end.

End Codec.

(** ** Requests, responses and the server state *)

(** A serialization format, as [check_request] and the handlers use it:
    [name], [loads], [dumps], [data_dumps] and [materialize]. *)
Record format : Type := mkFormat {
  fmt_name : string;
  loads : string -> result pyval;
  dumps : pyval -> result pyval;
  data_dumps : pyval -> result pyval;
  materialize : pyval -> pyval -> pyval -> result pyval
}.

(** What [_register_api] stores per application: the hosted data, the
    formats by name, the authorization callable, and the triple
    [(allow_profiler, profiler_output, profile_by_default)]. *)
Record server : Type := mkServer {
  data : pyval;
  formats : list (string * format);
  auth : pyval -> bool;
  allow_profiler : bool;
  default_profiler_output : pyval;
  profile_by_default : bool
}.

(** [flask.request]: the headers present (names in lower case), the raw
    body and the parsed authorization header ([None] when absent). *)
Record request : Type := mkRequest {
  headers : list (string * string);
  req_data : string;
  authorization_header : pyval
}.

(** What a view returns to flask: a body, a status and extra headers.  A
    view that returns a bare value answers with status 200. *)
Record response : Type := mkResponse {
  body : pyval;
  status : Z;
  resp_headers : list (string * string)
}.

Definition reply (text : string) (code : Z) : response :=
  mkResponse (PStr text) code [].

Definition reply_ok (v : pyval) : response := mkResponse v 200 [].

(** [request.headers[name]].  The [KeyError] of a missing header is given
    the name as asked for; werkzeug names the WSGI variable. *)
Fixpoint header (hs : list (string * string)) (name : string) : result string :=
  match hs with
  | [] => Raise (KeyError name)
  | (n, v) :: hs' => if String.eqb n name then Ok v else header hs' name
  end.

(** [_get_format(name)]. *)
Fixpoint _get_format (fs : list (string * format)) (name : string) : result format :=
  match fs with
  | [] => Raise (KeyError name)
  | (n, f) :: fs' => if String.eqb n name then Ok f else _get_format fs' name
  end.

(** [s] without the prefix [p]. *)
Fixpoint strip_prefix (p s : string) : option string :=
  match p, s with
  | EmptyString, _ => Some s
  | String a p', String b s' =>
      if Ascii.eqb a b then strip_prefix p' s' else None
  | String _ _, EmptyString => None
  end.

Definition newline : string := String (Ascii.ascii_of_nat 10) EmptyString.
Definition dquote : string := String (Ascii.ascii_of_nat 34) EmptyString.

(** The first alternative of the group that lets ['$'] match: at the end
    of the input, or before a newline that ends it. *)
Fixpoint first_alternative (alts : list string) (rest : string) : option string :=
  match alts with
  | [] => None
  | a :: alts' =>
      if String.eqb rest a || String.eqb rest (a ++ newline) then Some a
      else first_alternative alts' rest
  end.

Section Handlers.

Variable E : Engine.

(** [mimetype_regex.match(content_type)], giving [matched.groups()[0]].
    The pattern is [^application/vnd\.blaze\+(n1|n2|...)$] over the names
    of [all_formats], which are taken to be free of regular-expression
    operators; with no format at all the group is empty. *)
Definition mimetype_regex (content_type : string) : option string :=
  match strip_prefix "application/vnd.blaze+" content_type with
  | None => None
  | Some rest =>
      first_alternative
        (match all_formats E with [] => [""] | names => names end) rest
  end.

(** The answer of the decorator [authorization] to a request it rejects. *)
Definition unauthorized : response :=
  mkResponse (PStr "bad auth token") 401
    [("WWW-Authenticate",
      ("Basic realm=" ++ dquote ++ "Login Required" ++ dquote)%string)].

(** The decorator [authorization]. *)
Definition authorization (S : server) (f : request -> result response)
  (req : request) : result response :=
  if auth S (authorization_header req) then f req else Ok unauthorized.

(** The body of [check] up to the call of the view: an answer of its own,
    or the decoded payload and the format to call the view with. *)
Definition negotiate (S : server) (req : request)
  : result (response + pyval * format) :=
  content_type <- header (headers req) "content-type" ;;
  match mimetype_regex content_type with
  | None =>
      Ok (inl (reply ("Unsupported serialization format " ++ content_type) 415))
  | Some name =>
      match _get_format (formats S) name with
      | Raise e =>
          if isinstance_exn e "KeyError" then
            Ok (inl (reply ("Unsupported serialization format '" ++ name ++ "'") 415))
          else Raise e
      | Ok serial =>
          match loads serial (req_data req) with
          | Raise e =>
              if isinstance_exn e "ValueError" then
                Ok (inl (reply ("Bad data.  Got " ++ bytes_str E (req_data req) ++ " ") 400))
              else Raise e
          | Ok payload => Ok (inr (payload, serial))
          end
      end
  end.

(** The decorator [check_request]. *)
Definition check_request (S : server)
  (f : pyval -> format -> result response) (req : request) : result response :=
  checked <- negotiate S req ;;
  match checked with
  | inl answer => Ok answer
  | inr (payload, serial) => f payload serial
  end.

(** [d.get(key, default)] on the items of a dict. *)
Definition get (d : dict) (key : string) (default : pyval) : pyval :=
  match dict_get d (PStr key) with
  | Some v => v
  | None => default
  end.

(** [v or {}]. *)
Definition or_empty (v : pyval) : pyval :=
  if truthy v then v else PDict [].

(** [ns[key] = v]. *)
Definition setitem (ns : pyval) (key : string) (v : pyval) : result dict :=
  match ns with
  | PDict d => Ok (dict_set d (PStr key) v)
  | _ => Raise (TypeError "object does not support item assignment")
  end.

(** Lines 499-507: the profiler output the request asks for, and whether
    the computation runs under the profiler. *)
Definition requested_profiler_output (S : server) (p : dict) : pyval :=
  get p "profiler_output" (default_profiler_output S).

Definition profiling (S : server) (p : dict) : bool :=
  allow_profiler S &&
  (truthy (get p "profile" PNone) ||
   (profile_by_default S && truthy (requested_profiler_output S p))).

(** Lines 508-525: the two refusals, [None] when the request goes on. *)
Definition profile_setup (S : server) (p : dict) : option response :=
  if truthy (get p "profile" PNone) && negb (allow_profiler S) then
    Some (reply "profiling is disabled on this server" 403)
  else if profiling S p &&
          (pyval_eqb (default_profiler_output S) (PStr ":response") &&
           negb (pyval_eqb (requested_profiler_output S p) (PStr ":response")))
  then
    Some (reply ("local filepaths are disabled on this server, only" ++
                 " ':response' is allowed for the 'profiler_output' field") 403)
  else None.

(** Lines 537-539: the namespace with [':leaf'] bound, and the expression
    decoded in it. *)
Definition leaf_namespace (S : server) (p : dict) : result dict :=
  ds <- discover E (data S) ;;
  setitem (get p "namespace" (PDict [])) ":leaf" (symbol E (PStr "leaf") ds).

Definition decode_expr (S : server) (p : dict) : result pyval :=
  ns <- leaf_namespace S p ;;
  tree <- dict_getitem p "expr" ;;
  from_tree E ns tree.

(** Lines 544-548, the body of the [try]. *)
Definition execute (S : server) (serial : format) (p : dict)
  (expr leaf : pyval) : result pyval :=
  computed <- compute E expr leaf (data S) (or_empty (get p "compute_kwargs" PNone)) ;;
  ds <- dshape_of E expr ;;
  materialize serial computed ds (or_empty (get p "odo_kwargs" PNone)).

(** Lines 562-587: the response mapping, the profiler output, the dump. *)
Definition respond (S : server) (serial : format) (p : dict)
  (expr computed : pyval) : result response :=
  ds <- dshape_of E expr ;;
  shape <- pprint E ds ;;
  dumped <- data_dumps serial computed ;;
  names <- fields_of E expr ;;
  let resp := [(PStr "datashape", shape); (PStr "data", dumped);
               (PStr "names", names)] in
  resp' <-
    (if profiling S p then
       if pyval_eqb (requested_profiler_output S p) (PStr ":response") then
         stats <- profile_stats E expr ;;
         Ok (dict_set resp (PStr "profiler_output")
               (PDict [(PStr "__!bytes", stats)]))
       else
         _ <- write_profile E (requested_profiler_output S p) expr ;;
         Ok resp
     else Ok resp) ;;
  out <- dumps serial (PDict resp') ;;
  Ok (reply_ok out).

(** [compserver(payload, serial)]. *)
Definition compserver (S : server) (payload : pyval) (serial : format)
  : result response :=
  match payload with
  | PDict p =>
      match profile_setup S p with
      | Some refusal => Ok refusal
      | None =>
          expr <- decode_expr S p ;;
          ls <- leaves E expr ;;
          match ls with
          | [leaf] =>
              match execute S serial p expr leaf with
              | Raise e =>
                  if isinstance_exn e "NotImplementedError" then
                    Ok (reply ("Computation not supported:" ++ newline ++ exn_str e) 501)
                  else
                    Ok (reply ("Computation failed with message:" ++ newline ++
                               exn_name e ++ ": " ++ exn_str e) 500)
              | Ok computed => respond S serial p expr computed
              end
          | _ => Raise AssertionError
          end
      end
  | _ => Raise (AttributeError "object has no attribute 'get'")
  end.

(** [valmap(resource, payload)]. *)
Fixpoint valmap (f : pyval -> result pyval) (d : dict) : result dict :=
  match d with
  | [] => Ok []
  | (k, v) :: d' => v' <- f v ;; rest <- valmap f d' ;; Ok ((k, v') :: rest)
  end.

(** The server, hosting [d]. *)
Definition with_data (S : server) (d : pyval) : server :=
  mkServer d (formats S) (auth S) (allow_profiler S)
    (default_profiler_output S) (profile_by_default S).

(** [addserver(payload, serial)]: the server after the call, and the
    answer.  The hosted data is a [MutableMapping] when it is a dict. *)
Definition addserver (S : server) (payload : pyval) (serial : format)
  : server * result response :=
  match data S with
  | PDict registry =>
      match payload with
      | PDict p =>
          match valmap (resource E) p with
          | Ok resolved =>
              (with_data S (PDict (dict_update registry resolved)),
               Ok (reply_ok (PStr "OK")))
          | Raise e => (S, Raise e)
          end
      | _ =>
          (S, Ok (reply ("Cannot update blaze server with a " ++
                         type_str E payload ++ " payload, since" ++
                         " it is not a mutable mapping (dictionary like).") 422))
      end
  | _ =>
      (S, Ok (reply ("Cannot update blaze server data since its current data" ++
                     " is a " ++ type_str E (data S) ++
                     " and not a mutable mapping (dictionary like).") 422))
  end.

(** The two routes, decorated as in the module.  [/add] carries the
    server along, since its view changes the hosted data.  [cross_origin]
    adds headers to an answer and answers an [OPTIONS] request itself: the
    routes are those of the requests that reach the view. *)
Definition compute_route (S : server) (req : request) : result response :=
  authorization S (check_request S (compserver S)) req.

Definition add_route (S : server) (req : request) : server * result response :=
  if auth S (authorization_header req) then
    match negotiate S req with
    | Raise e => (S, Raise e)
    | Ok (inl answer) => (S, Ok answer)
    | Ok (inr (payload, serial)) => addserver S payload serial
    end
  else (S, Ok unauthorized).

End Handlers.

(** ** A small engine to run the definitions on *)

Module Example.

Definition Symbol_cls : pyclass := mkClass "blaze.expr.expressions" "Symbol".
Definition Field_cls : pyclass := mkClass "blaze.expr.expressions" "Field".
Definition sum_cls : pyclass := mkClass "blaze.expr.reductions" "sum".
Definition Add_cls : pyclass := mkClass "blaze.expr.arithmetic" "Add".
Definition DataFrame_cls : pyclass := mkClass "pandas.core.frame" "DataFrame".

(** The submodules [blaze.utils] and [blaze.expr.utils]: one name, bound
    to two objects. *)
Definition blaze_utils : pyclass := mkClass "blaze" "utils".
Definition blaze_expr_utils : pyclass := mkClass "blaze.expr" "utils".

Definition expr_namespace (name : string) : option pyclass :=
  if String.eqb name "Symbol" then Some Symbol_cls
  else if String.eqb name "Field" then Some Field_cls
  else if String.eqb name "sum" then Some sum_cls
  else if String.eqb name "Add" then Some Add_cls
  else if String.eqb name "utils" then Some blaze_expr_utils
  else None.

Definition top_namespace (name : string) : option pyclass :=
  if String.eqb name "utils" then Some blaze_utils
  else expr_namespace name.

(** The distinct symbols of an expression, in order of first occurrence. *)
Definition add_new (acc : list pyval) (v : pyval) : list pyval :=
  if existsb (pyval_eqb v) acc then acc else acc ++ [v].

Fixpoint symbols_of (acc : list pyval) (e : pyval) {struct e} : list pyval :=
  match e with
  | PExpr cls args =>
      if pyclass_eqb cls Symbol_cls then add_new acc e
      else fold_left symbols_of args acc
  | _ => acc
  end.

Definition leaves_of (e : pyval) : result (list pyval) :=
  match e with
  | PExpr _ _ => Ok (symbols_of [] e)
  | _ => Raise (AttributeError "object has no attribute '_leaves'")
  end.

(** A class builds the node of its arguments; a module is not callable. *)
Definition call (cls : pyclass) (args : list pyval) : result pyval :=
  if pyclass_eqb cls blaze_utils || pyclass_eqb cls blaze_expr_utils
  then Raise (TypeError "'module' object is not callable")
  else Ok (PExpr cls args).

(** An engine whose computation answers [42] with shape [Obj 1] for
    everything. *)
Definition engine : Engine := {|
  blaze_attr := top_namespace;
  blaze_expr_attr := expr_namespace;
  compute_up_funcs := [[Field_cls; DataFrame_cls]; [DataFrame_cls]];
  construct := call;
  Symbol := Symbol_cls;
  symbol_token := None_;
  discover := fun _ => Ok (Prim (Obj 0));
  leaves := leaves_of;
  dshape_of := fun _ => Ok (Prim (Obj 1));
  fields_of := fun _ => Ok (PList []);
  pprint := fun _ => Ok (PStr "int64");
  compute := fun _ _ _ _ => Ok (Prim (Int 42));
  resource := fun v =>
    match v with
    | Prim (Str uri) => Ok (Prim (Obj (String.length uri)))
    | _ => Raise (mkExn "NotImplementedError" ["RuntimeError"]
                    "Unable to parse uri to data resource")
    end;
  all_formats := ["json"; "pickle"];
  bytes_str := fun s => s;
  type_str := fun _ => "<class 'object'>";
  profile_stats := fun _ => Ok (PStr "stats");
  write_profile := fun _ _ => Ok tt
|}.

(** The same engine, with a computation that fails with [e]. *)
Definition failing_engine (e : exn) : Engine := {|
  blaze_attr := top_namespace;
  blaze_expr_attr := expr_namespace;
  compute_up_funcs := compute_up_funcs engine;
  construct := construct engine;
  Symbol := Symbol_cls;
  symbol_token := None_;
  discover := discover engine;
  leaves := leaves_of;
  dshape_of := dshape_of engine;
  fields_of := fields_of engine;
  pprint := pprint engine;
  compute := fun _ _ _ _ => Raise e;
  resource := resource engine;
  all_formats := all_formats engine;
  bytes_str := bytes_str engine;
  type_str := type_str engine;
  profile_stats := profile_stats engine;
  write_profile := write_profile engine
|}.

(** A format that decodes two bodies and passes values through. *)
Definition leaf_sum : pyval :=
  op_tree "sum" [op_tree "Field" [PStr ":leaf"; PStr "amount"]].

Definition json : format := {|
  fmt_name := "json";
  loads := fun s =>
    if String.eqb s "sum" then Ok (PDict [(PStr "expr", leaf_sum)])
    else if String.eqb s "[]" then Ok (PList [])
    else Raise (ValueError "No JSON object could be decoded");
  dumps := fun v => Ok v;
  data_dumps := fun v => Ok v;
  materialize := fun v _ _ => Ok v
|}.

Definition accounts : pyval := PDict [(PStr "accounts", Prim (Obj 7))].

(** [Server({'accounts': df})], and the same with the profiler allowed
    and its output kept off the file system. *)
Definition plain_server : server := {|
  data := accounts;
  formats := [("json", json)];
  auth := fun _ => true;
  allow_profiler := false;
  default_profiler_output := PNone;
  profile_by_default := false
|}.

Definition profiling_server : server := {|
  data := accounts;
  formats := [("json", json)];
  auth := fun _ => true;
  allow_profiler := true;
  default_profiler_output := PStr ":response";
  profile_by_default := false
|}.

Definition t : pyval := PExpr Symbol_cls [PStr "t"; Prim (Obj 1); Prim None_].
Definition u : pyval := PExpr Symbol_cls [PStr "u"; Prim (Obj 1); Prim None_].

(** [t.amount.sum()] and the table of the docstrings, [{t: 't'}]. *)
Definition t_amount_sum : pyval :=
  PExpr sum_cls [PExpr Field_cls [t; PStr "amount"]].

Definition names_t : dict := [(t, PStr "t")].


(** The symbol [compserver] binds to [':leaf'], and the payloads
    [{'expr': sum(leaf.amount)}] and [{'expr': leaf + u}]. *)
Definition leaf : pyval := symbol engine (PStr "leaf") (Prim (Obj 0)).

Definition sum_payload : dict := [(PStr "expr", leaf_sum)].

(** A payload that binds [':leaf'] to a symbol of its own. *)
Definition own_leaf_payload : dict :=
  [(PStr "expr", leaf_sum); (PStr "namespace", PDict [(PStr ":leaf", u)])].

Definition two_leaves_payload : dict :=
  [(PStr "expr",
    op_tree "Add" [PStr ":leaf";
                   op_tree "Symbol" [PStr "u"; Prim (Obj 1); PNone]])].

Definition not_implemented : exn :=
  mkExn "NotImplementedError" ["RuntimeError"] "no backend for sum".

Definition typed (content_type body : string) : request :=
  mkRequest [("content-type", content_type)] body PNone.

End Example.

(** * More of the module *)

(** ** Shapes of values *)

(** The values of the wire, "strings, dicts, lists and base types": a
    scalar, a list of such values, a dict of such keys and values. *)
Fixpoint wire (v : pyval) {struct v} : bool :=
  match v with
  | Prim _ => true
  | PList l => forallb wire l
  | PDict d =>
      (fix items (d : list (pyval * pyval)) : bool :=
         match d with
         | [] => true
         | (k, w) :: d' => wire k && wire w && items d'
         end) d
  | _ => false
  end.

(** The values an expression is made of: scalars, tuples, slices of both
    kinds, symbols and nodes, and no list and no dict.  The data of an
    [InteractiveSymbol] may be anything. *)
Fixpoint expression (e : pyval) {struct e} : bool :=
  match e with
  | Prim _ => true
  | PTuple l => forallb expression l
  | PList _ => false
  | PDict _ => false
  | PySlice a b c => expression a && expression b && expression c
  | P_slice a b c => expression a && expression b && expression c
  | PInteractive name dshape _ => expression name && expression dshape
  | PExpr _ args => forallb expression args
  end.

Definition is_scalar (v : pyval) : bool :=
  match v with
  | Prim _ => true
  | _ => false
  end.

(** ** The third route *)

Section Shape.

Variable E : Engine.

(** The names the group of [mimetype_regex] is made of. *)
Definition pattern_names : list string :=
  match all_formats E with
  | [] => [""]
  | names => names
  end.

(** [shape()], the view of [/datashape]. *)
Definition shape (S : server) : result response :=
  ds <- discover E (data S) ;;
  text <- pprint E ds ;;
  Ok (reply_ok text).

Definition datashape_route (S : server) (req : request) : result response :=
  authorization S (fun _ => shape S) req.

(** The engine, with another way of writing a profile to a file. *)
Definition with_write_profile (write : pyval -> pyval -> result unit) : Engine :=
  mkEngine (blaze_attr E) (blaze_expr_attr E) (compute_up_funcs E)
    (construct E) (Symbol E) (symbol_token E) (discover E) (leaves E)
    (dshape_of E) (fields_of E) (pprint E) (compute E) (resource E)
    (all_formats E) (bytes_str E) (type_str E) (profile_stats E) write.

End Shape.

(** ** Registration *)

(** [options[option]] for each option of the blueprint: [None] when the
    key is absent.  [opt_authorization] holds [None] or a callable. *)
Record options : Type := mkOptions {
  opt_data : option pyval;
  opt_formats : option (list format);
  opt_authorization : option (option (pyval -> bool));
  opt_allow_profiler : option bool;
  opt_profiler_output : option pyval;
  opt_profile_by_default : option bool
}.

(** [_get_option(option, options, default)], with [name] for the option,
    [value] for [options[option]] and [None] for the default
    [_no_default]. *)
Definition _get_option {A : Type} (name : string) (value default : option A)
  : result A :=
  match value with
  | Some v => Ok v
  | None =>
      match default with
      | Some d => Ok d
      | None => Raise (TypeError ("The blaze api must be registered with " ++ name))
      end
  end.

(** The four caches [_get_data.cache], [_get_format.cache],
    [_get_auth.cache] and [_get_profiler_info.cache], keyed by the
    application. *)
Record caches : Type := mkCaches {
  data_cache : list (nat * pyval);
  format_cache : list (nat * list (string * format));
  auth_cache : list (nat * (pyval -> bool));
  profiler_info_cache : list (nat * (bool * pyval * bool))
}.

(** [cache[app]] and [cache[app] = v]. *)
Fixpoint cache_get {A : Type} (c : list (nat * A)) (app : nat) : result A :=
  match c with
  | [] => Raise (KeyError "app")
  | (a, v) :: c' => if Nat.eqb a app then Ok v else cache_get c' app
  end.

Fixpoint cache_set {A : Type} (c : list (nat * A)) (app : nat) (v : A)
  : list (nat * A) :=
  match c with
  | [] => [(app, v)]
  | (a, w) :: c' =>
      if Nat.eqb a app then (a, v) :: c' else (a, w) :: cache_set c' app v
  end.

(** [dict((f.name, f) for f in formats)]. *)
Fixpoint format_set (fs : list (string * format)) (f : format)
  : list (string * format) :=
  match fs with
  | [] => [(fmt_name f, f)]
  | (n, g) :: fs' =>
      if String.eqb n (fmt_name f) then (n, f) :: fs'
      else (n, g) :: format_set fs' f
  end.

Definition formats_by_name (l : list format) : list (string * format) :=
  fold_left format_set l [].

(** What the views of an application read from the caches. *)
Definition registered (cs : caches) (app : nat) : result server :=
  d <- cache_get (data_cache cs) app ;;
  fs <- cache_get (format_cache cs) app ;;
  a <- cache_get (auth_cache cs) app ;;
  info <- cache_get (profiler_info_cache cs) app ;;
  Ok (mkServer d fs a (fst (fst info)) (snd (fst info)) (snd info)).

Definition EEXIST : Z := 17.

Section Registration.

(** [os.makedirs(path)], [e.errno] of an [OSError], and the call
    [Blueprint.register(api, app, options, first_registration)] that ends
    [_register_api]. *)
Variable makedirs : pyval -> result unit.
Variable errno : exn -> Z.
Variable Blueprint_register : nat -> result unit.

(** [ensure_dir(path)]. *)
Definition ensure_dir (path : pyval) : result unit :=
  match makedirs path with
  | Ok _ => Ok tt
  | Raise e =>
      if isinstance_exn e "OSError" then
        if Z.eqb (errno e) EEXIST then Ok tt else Raise e
      else Raise e
  end.

(** The message of the [ValueError] of [_register_api]. *)
Definition profiler_options_message (profiler_output : pyval)
  (by_default : bool) : string :=
  "cannot set " ++
  (if truthy profiler_output then "profiler_output" else "") ++
  (if truthy profiler_output && by_default then " or " else "") ++
  (if by_default then "profile_by_default" else "") ++
  " when 'allow_profiler' is False".

(** Lines 78-97: the profiler triple that is stored. *)
Definition profiler_info (opts : options) : result (bool * pyval * bool) :=
  allow <- _get_option "allow_profiler" (opt_allow_profiler opts) (Some false) ;;
  output <- _get_option "profiler_output" (opt_profiler_output opts) (Some PNone) ;;
  by_default <- _get_option "profile_by_default" (opt_profile_by_default opts)
                  (Some false) ;;
  if negb allow && (truthy output || by_default) then
    Raise (ValueError (profiler_options_message output by_default))
  else if allow then
    let output' := if pyval_eqb output PNone then PStr "profiler_output" else output in
    _ <- (if pyval_eqb output' (PStr ":response") then Ok tt else ensure_dir output') ;;
    Ok (allow, output', by_default)
  else Ok (allow, output, by_default).

(** [_register_api(app, options, first_registration)]: the caches after
    the call, and its outcome.  The caches of the data, the formats and
    the authorization are filled as the options are read. *)
Definition _register_api (cs : caches) (app : nat) (opts : options)
  : caches * result unit :=
  match _get_option "data" (opt_data opts) None with
  | Raise e => (cs, Raise e)
  | Ok d =>
      let cs1 := mkCaches (cache_set (data_cache cs) app d) (format_cache cs)
                   (auth_cache cs) (profiler_info_cache cs) in
      match _get_option "formats" (opt_formats opts) None with
      | Raise e => (cs1, Raise e)
      | Ok fs =>
          let cs2 := mkCaches (data_cache cs1)
                       (cache_set (format_cache cs1) app (formats_by_name fs))
                       (auth_cache cs1) (profiler_info_cache cs1) in
          match _get_option "authorization" (opt_authorization opts) (Some None) with
          | Raise e => (cs2, Raise e)
          | Ok a =>
              let cs3 := mkCaches (data_cache cs2) (format_cache cs2)
                           (cache_set (auth_cache cs2) app
                              (match a with
                               | Some f => f
                               | None => fun _ => true
                               end))
                           (profiler_info_cache cs2) in
              match profiler_info opts with
              | Raise e => (cs3, Raise e)
              | Ok info =>
                  (mkCaches (data_cache cs3) (format_cache cs3) (auth_cache cs3)
                     (cache_set (profiler_info_cache cs3) app info),
                   Blueprint_register app)
              end
          end
      end
  end.

(** [Server.__init__], for the application [app] that [Flask(...)] makes:
    [None] stands for an argument left at its default, and [json] is the
    format of that name of the serialization module.  The data that is
    registered is also what [self.data] is bound to. *)
Variable json : format.

Definition Server_init (cs : caches) (app : nat)
  (data : option pyval) (formats : option (list format))
  (authorization : option (pyval -> bool))
  (allow_profiler : bool) (profiler_output : pyval) (profile_by_default : bool)
  : caches * result unit :=
  _register_api cs app
    (mkOptions
       (Some (match data with Some d => d | None => PDict [] end))
       (Some (match formats with Some fs => fs | None => [json] end))
       (Some authorization)
       (Some allow_profiler) (Some profiler_output) (Some profile_by_default)).

(** [Server.run(port, retry)]: [self.port] after the call, and its
    outcome.  [app_run port] is [self.app.run(port=port)], which returns
    when the server is shut down; [socket_error] is the name of the class
    [socket.error]; [depth] is how many calls the interpreter still
    allows.  The warning before a retry is taken to be shown, not
    raised. *)
Variable app_run : Z -> result unit.
Variable socket_error : string.

Fixpoint run (depth : nat) (self_port : option Z) (port : Z) (retry : bool)
  : option Z * result unit :=
  match depth with
  | O => (self_port, Raise (mkExn "RuntimeError" [] "maximum recursion depth exceeded"))
  | S depth' =>
      match app_run port with
      | Ok _ => (Some port, Ok tt)
      | Raise e =>
          if isinstance_exn e socket_error then
            if retry then run depth' (Some port) (port + 1)%Z retry
            else (Some port, Raise e)
          else (Some port, Raise e)
      end
  end.

End Registration.

(** ** The spider *)

(** A file tree, as [os.listdir], [os.path.islink] and [os.path.isdir]
    show it: a directory lists its entries by name, each a symbolic link
    or not, and each a directory (also through a link) or anything else.
    [Unlistable e] is a directory that [os.listdir] raises [e] on (one
    that may not be read, or that is gone).  The tree is finite: no link
    leads back into its own directory. *)
#[local] Unset Elimination Schemes.
Inductive fsnode : Type :=
| Regular
| Directory (entries : list (string * bool * fsnode))
| Unlistable (e : exn).
#[local] Set Elimination Schemes.

Section fsnode_induction.

Variable P : fsnode -> Prop.
Hypothesis HRegular : P Regular.
Hypothesis HDirectory :
  forall entries, Forall (fun entry => P (snd entry)) entries -> P (Directory entries).
Hypothesis HUnlistable : forall e, P (Unlistable e).

Fixpoint fsnode_ind (node : fsnode) : P node :=
  match node with
  | Regular => HRegular
  | Directory entries =>
      HDirectory entries
        ((fix all (entries : list (string * bool * fsnode))
            : Forall (fun entry => P (snd entry)) entries :=
            match entries with
            | [] => Forall_nil _
            | (x, link, child) :: rest =>
                Forall_cons (x, link, child) (fsnode_ind child) (all rest)
            end) entries)
  | Unlistable e => HUnlistable e
  end.

End fsnode_induction.

(** Every directory of the tree can be listed. *)
Fixpoint listable (node : fsnode) : bool :=
  match node with
  | Regular => true
  | Directory entries =>
      (fix all (entries : list (string * bool * fsnode)) : bool :=
         match entries with
         | [] => true
         | (_, _, child) :: rest => listable child && all rest
         end) entries
  | Unlistable _ => false
  end.

(** How many directories of the tree lie in one another, at most. *)
Fixpoint height (node : fsnode) : nat :=
  match node with
  | Regular => 0
  | Directory entries =>
      S ((fix tallest (entries : list (string * bool * fsnode)) : nat :=
            match entries with
            | [] => 0
            | (_, _, child) :: rest => Nat.max (height child) (tallest rest)
            end) entries)
  | Unlistable _ => 1
  end.

(** [os.path.join(a, b)] and [os.path.basename(p)] of [posixpath]. *)
Fixpoint has_slash (s : string) : bool :=
  match s with
  | EmptyString => false
  | String c s' => Ascii.eqb c "/" || has_slash s'
  end.

Fixpoint ends_with_slash (s : string) : bool :=
  match s with
  | EmptyString => false
  | String c EmptyString => Ascii.eqb c "/"
  | String _ s' => ends_with_slash s'
  end.

Definition path_join (a b : string) : string :=
  if String.prefix "/" b then b
  else if String.eqb a "" || ends_with_slash a then a ++ b
  else a ++ "/" ++ b.

Fixpoint basename (p : string) : string :=
  match p with
  | EmptyString => EmptyString
  | String c p' =>
      if has_slash p' then basename p'
      else if Ascii.eqb c "/" then p' else p
  end.

(** The keyword arguments of a call [f(..., **v)]: [v] must be a mapping,
    and its keys strings. *)
Definition kwargs_of (v : pyval) : result dict :=
  match v with
  | PDict d =>
      if forallb (fun kv => match fst kv with Prim (Str _) => true | _ => false end) d
      then Ok d
      else Raise (TypeError "keywords must be strings")
  | _ => Raise (TypeError "argument after ** must be a mapping")
  end.

(** [except classes:] catches [e].  Every exception is an instance of
    [Exception]. *)
Definition caught (classes : list string) (e : exn) : bool :=
  existsb (fun C => String.eqb C "Exception" || String.eqb C "BaseException" ||
                    isinstance_exn e C) classes.

Section Spider.

(** [odo.resource(uri, **kwargs)]. *)
Variable resource_kw : pyval -> dict -> result pyval.

Variable ignore : list string.
Variable followlinks : bool.
Variable hidden : bool.
Variable extra_kwargs : pyval.

(** The test of lines 32-33 that passes an entry over. *)
Definition skipped (basename : string) (link : bool) : bool :=
  (String.prefix "." basename && negb hidden) || (link && negb followlinks).

(** Line 44, in its [with ignoring( *ignore)]. *)
Definition load (filename : string) : result pyval :=
  kwargs <- kwargs_of (or_empty extra_kwargs) ;;
  resource_kw (PStr filename) kwargs.

(** The loop of lines 29-44 over the listing [entries] of
    [resource_path], with [spider] for [_spider] and [resources] for the
    dict that is being filled. *)
Definition spider_entries (spider : string -> fsnode -> result dict)
  (resource_path : string)
  : list (string * bool * fsnode) -> dict -> result dict :=
  fix each (entries : list (string * bool * fsnode)) (resources : dict)
    {struct entries} : result dict :=
    match entries with
    | [] => Ok resources
    | (x, link, child) :: rest =>
        let filename := path_join resource_path x in
        if skipped (basename filename) link then each rest resources
        else
          match child with
          | Regular =>
              match load filename with
              | Ok loaded =>
                  each rest (dict_set resources (PStr (basename filename)) loaded)
              | Raise e =>
                  if caught ignore e then each rest resources else Raise e
              end
          | _ =>
              new_resources <- spider filename child ;;
              if truthy (PDict new_resources) then
                each rest (dict_set resources (PStr (basename filename))
                             (PDict new_resources))
              else each rest resources
          end
    end.

(** [_spider(resource_path, ignore, followlinks, hidden, extra_kwargs)],
    with [node] for what the file system has at [resource_path], and
    [depth] for how many calls of [_spider] in one another the interpreter
    still allows.  [os.listdir] is called outside of [with ignoring]: what
    it raises leaves [_spider], and it raises on what is no directory. *)
Fixpoint _spider (depth : nat) (resource_path : string) (node : fsnode)
  {struct node} : result dict :=
  match depth with
  | O => Raise (mkExn "RuntimeError" [] "maximum recursion depth exceeded")
  | S depth' =>
      match node with
      | Regular => Raise (mkExn "OSError" [] "Not a directory")
      | Directory entries =>
          spider_entries (_spider depth') resource_path entries []
      | Unlistable e => Raise e
      end
  end.

(** The base name an entry [x] of the listing of [path] is filed under. *)
Definition entry_key (path x : string) : string := basename (path_join path x).

(** What an item [(k, v)] of a result has to do with the listing
    [entries] of [path]: it is filed under the base name of an entry that
    is not passed over, and holds what [load] gives for a file, and the
    result for a directory, which is not empty. *)
Definition comes_from (depth : nat) (path : string)
  (entries : list (string * bool * fsnode)) (k v : pyval) : Prop :=
  exists x link child,
    In (x, link, child) entries /\
    k = PStr (entry_key path x) /\
    skipped (entry_key path x) link = false /\
    match child with
    | Regular => load (path_join path x) = Ok v
    | _ =>
        exists new_resources,
          _spider depth (path_join path x) child = Ok new_resources /\
          new_resources <> [] /\ v = PDict new_resources
    end.

(** [data_spider(path, ignore, followlinks, hidden, extra_kwargs)]. *)
Definition data_spider (depth : nat) (path : string) (node : fsnode)
  : result dict :=
  resources <- _spider depth path node ;;
  Ok [(PStr (basename path), PDict resources)].

End Spider.

(** ** Resources from a YAML specification *)

(** [d] without the key [k], and [d.pop(k)]. *)
Definition dict_del (d : dict) (k : pyval) : dict :=
  filter (fun kv => negb (pyval_eqb (fst kv) k)) d.

Definition dict_pop (d : dict) (k : pyval) : option (pyval * dict) :=
  match dict_get d k with
  | Some v => Some (v, dict_del d k)
  | None => None
  end.

Section FromYaml.

Variable resource_kw : pyval -> dict -> result pyval.
Variable ignore : list string.
Variable followlinks : bool.
Variable hidden : bool.

(** [importlib.import_module(mod)], [os.path.isdir(source)],
    [os.path.expanduser(source)], what the file system has at a path,
    ['%r' % name], and the calls of [_spider] in one another that the
    interpreter allows. *)
Variable import_module : pyval -> result unit.
Variable isdir : pyval -> result bool.
Variable expanduser : string -> string.
Variable tree_at : string -> fsnode.
Variable repr : pyval -> string.
Variable depth : nat.

(** Lines 109-123, the body of the loop: the resource of one data source
    [name], described by [info]. *)
Definition load_source (name info : pyval) : result pyval :=
  match info with
  | PDict items =>
      match dict_pop items (PStr "source") with
      | None =>
          Raise (ValueError ("source key not found for data source named " ++
                             repr name))
      | Some (source, items') =>
          let imports :=
            match dict_pop items' (PStr "imports") with
            | Some (mods, _) => mods
            | None => PList []
            end in
          let kwargs := dict_del items' (PStr "imports") in
          mods <- iterate imports ;;
          _ <- mapM import_module mods ;;
          is_dir <- isdir source ;;
          if is_dir then
            match source with
            | Prim (Str s) =>
                resources <- data_spider resource_kw ignore followlinks hidden
                               (PDict kwargs) depth (expanduser s)
                               (tree_at (expanduser s)) ;;
                Ok (PDict resources)
            | _ => Raise (TypeError "expected str, bytes or os.PathLike object")
            end
          else
            kw <- kwargs_of (PDict kwargs) ;;
            resource_kw source kw
      end
  | PList _ => Raise (TypeError "'str' object cannot be interpreted as an integer")
  | _ => Raise (AttributeError "object has no attribute 'pop'")
  end.

(** [from_yaml(path, ignore, followlinks, hidden)], with [spec] for
    [yaml.load(path.read())]. *)
Fixpoint from_yaml_items (items resources : dict) : result dict :=
  match items with
  | [] => Ok resources
  | (name, info) :: rest =>
      loaded <- load_source name info ;;
      from_yaml_items rest (dict_set resources name loaded)
  end.

Definition from_yaml (spec : pyval) : result dict :=
  match spec with
  | PDict items => from_yaml_items items []
  | _ => Raise (AttributeError "object has no attribute 'items'")
  end.

End FromYaml.

(** ** More to run the definitions on *)

Module MoreExample.

Import Example.

(** A server that rejects every credential, and one that profiles by
    default into the response. *)
Definition closed_server : server := {|
  data := accounts;
  formats := [("json", json)];
  auth := fun _ => false;
  allow_profiler := false;
  default_profiler_output := PNone;
  profile_by_default := false
|}.

Definition always_profiling_server : server := {|
  data := accounts;
  formats := [("json", json)];
  auth := fun _ => true;
  allow_profiler := true;
  default_profiler_output := PStr ":response";
  profile_by_default := true
|}.

(** [t[0:5]], as the node [Slice(t, (_slice(0, 5, None),))] has it. *)
Definition first_five : pyval := P_slice (Prim (Int 0)) (Prim (Int 5)) PNone.

(** An operating system that makes every directory, and a flask that
    registers every blueprint. *)
Definition makedirs (path : pyval) : result unit := Ok tt.
Definition errno (e : exn) : Z := 0.
Definition Blueprint_register (app : nat) : result unit := Ok tt.

Definition no_caches : caches := mkCaches [] [] [] [].

(** A second format that calls itself [json]. *)
Definition other_json : format := {|
  fmt_name := "json";
  loads := fun _ => Raise (ValueError "not supported");
  dumps := fun v => Ok v;
  data_dumps := fun v => Ok v;
  materialize := fun v _ _ => Ok v
|}.

Definition options_of (output : option pyval) (by_default : option bool) : options := {|
  opt_data := Some accounts;
  opt_formats := Some [json; other_json];
  opt_authorization := None;
  opt_allow_profiler := None;
  opt_profiler_output := output;
  opt_profile_by_default := by_default
|}.

(** The ports 6363 and 6364 are taken. *)
Definition app_run (port : Z) : result unit :=
  if Z.ltb port 6365 then Raise (mkExn "error" ["IOError"] "Address already in use")
  else Ok tt.

(** A directory of two files, a hidden directory, a link, a directory
    with one file and an empty directory; [odo.resource] knows no
    [README].  In [locked_listing] the first directory may not be read. *)
Definition listing : list (string * bool * fsnode) :=
  [("iris.csv", false, Regular);
   (".git", false, Directory [("config", false, Regular)]);
   ("README", false, Regular);
   ("latest", true, Regular);
   ("2015", false, Directory [("accounts.json", false, Regular)]);
   ("empty", false, Directory [])].

Definition tree : fsnode := Directory listing.

Definition permission_denied : exn :=
  mkExn "PermissionError" ["OSError"] "[Errno 13] Permission denied".

Definition locked_listing : list (string * bool * fsnode) :=
  ("private", false, Unlistable permission_denied) :: listing.

Definition resource_kw (uri : pyval) (kwargs : dict) : result pyval :=
  match uri with
  | Prim (Str s) =>
      if String.eqb (basename s) "README"
      then Raise (mkExn "NotImplementedError" ["RuntimeError"]
                    "Unable to parse uri to data resource")
      else Ok (PTuple [uri; PDict kwargs])
  | _ => Raise (TypeError "expected a string")
  end.

Definition default_ignore : list string := ["ValueError"; "NotImplementedError"].

(** A [resource] that takes no keyword argument ['source']. *)
Definition strict_resource_kw (uri : pyval) (kwargs : dict) : result pyval :=
  match dict_get kwargs (PStr "source") with
  | Some _ => Raise (TypeError "got an unexpected keyword argument 'source'")
  | None => resource_kw uri kwargs
  end.

Definition import_module (module : pyval) : result unit := Ok tt.
Definition isdir (source : pyval) : result bool :=
  Ok (pyval_eqb source (PStr "/data")).
Definition expanduser (path : string) : string := path.
Definition tree_at (path : string) : fsnode :=
  if String.eqb path "/data" then tree else Regular.
Definition repr (v : pyval) : string :=
  match v with
  | Prim (Str s) => "'" ++ s ++ "'"
  | _ => "<object>"
  end.

(** Two data sources, the second without its source. *)
Definition yaml_spec : pyval :=
  PDict [(PStr "iris", PDict [(PStr "source", PStr "iris.csv");
                              (PStr "delimiter", PStr ",")]);
         (PStr "accounts", PDict [(PStr "imports", PList [])])].

(** A file that wants a module, and a directory. *)
Definition yaml_files : pyval :=
  PDict [(PStr "iris", PDict [(PStr "source", PStr "iris.csv");
                              (PStr "imports", PList [PStr "pandas"])]);
         (PStr "all", PDict [(PStr "source", PStr "/data")])].

End MoreExample.

(** * Properties *)

(** ** Equality *)

Lemma prim_eqb_canon (p q : prim) :
  prim_eqb p q = true <-> canon_prim p = canon_prim q.
Proof.
  destruct p as [|a|a|a|a], q as [|b|b|b|b]; cbn [prim_eqb canon_prim];
    try (split; [discriminate | intro H; discriminate H]).
  - split; reflexivity.
  - destruct a, b; simpl; split; intro H; try discriminate; reflexivity.
  - rewrite Z.eqb_eq. split; [intros -> | intro H; inversion H]; reflexivity.
  - rewrite Z.eqb_eq. split; [intros -> | intro H; inversion H]; reflexivity.
  - rewrite Z.eqb_eq. split; [intros -> | intro H; inversion H]; reflexivity.
  - rewrite String.eqb_eq. split; [intros -> | intro H; inversion H]; reflexivity.
  - rewrite Nat.eqb_eq. split; [intros -> | intro H; inversion H]; reflexivity.
Qed.

Lemma pyclass_eqb_eq (a b : pyclass) : pyclass_eqb a b = true <-> a = b.
Proof.
  destruct a as [m n], b as [m' n']. unfold pyclass_eqb. simpl.
  rewrite Bool.andb_true_iff, !String.eqb_eq. split.
  - intros [-> ->]. reflexivity.
  - intro H. inversion H. auto.
Qed.

Lemma list_eqb_canon (l : list pyval) :
  Forall (fun a => forall b, pyval_eqb a b = true <-> canon a = canon b) l ->
  forall m, list_eqb pyval_eqb l m = true <-> map canon l = map canon m.
Proof.
  induction 1 as [|a l Ha _ IH]; intros [|b m]; simpl;
    try (split; [discriminate | intro H; discriminate H]); try tauto.
  rewrite Bool.andb_true_iff, Ha, IH. split.
  - intros [-> ->]. reflexivity.
  - intro H0. inversion H0. auto.
Qed.

Lemma pyval_eqb_canon (x y : pyval) : pyval_eqb x y = true <-> canon x = canon y.
Proof.
  revert y. induction x using pyval_ind; intros y; destruct y;
    cbn [pyval_eqb canon];
    try (split; [discriminate | intro H0; discriminate H0]).
  - rewrite prim_eqb_canon. split; [intros -> | intro H; inversion H]; reflexivity.
  - rewrite (list_eqb_canon l H). split; [intros -> | intro H0; inversion H0]; reflexivity.
  - rewrite (list_eqb_canon l H). split; [intros -> | intro H0; inversion H0]; reflexivity.
  - match goal with
    | |- _ <-> PDict (?items d) = PDict (?items' d0) =>
        enough (Hitems : items_eqb pyval_eqb d d0 = true <-> items d = items d0)
    end.
    { rewrite Hitems. split; [intros -> | intro H0; inversion H0]; reflexivity. }
    revert d0. induction H as [|[k v] d [Hk Hv] _ IH]; intros [|[k' v'] d0]; simpl;
      try (split; [discriminate | intro H0; discriminate H0]); try tauto.
    simpl in Hk, Hv. rewrite !Bool.andb_true_iff, Hk, Hv, IH. split.
    + intros [[-> ->] ->]. reflexivity.
    + intro H0. inversion H0. auto.
  - rewrite !Bool.andb_true_iff, IHx1, IHx2, IHx3. split.
    + intros [[-> ->] ->]. reflexivity.
    + intro H. inversion H. auto.
  - rewrite !Bool.andb_true_iff, IHx1, IHx2, IHx3. split.
    + intros [[-> ->] ->]. reflexivity.
    + intro H. inversion H. auto.
  - rewrite !Bool.andb_true_iff, IHx1, IHx2, IHx3. split.
    + intros [[-> ->] ->]. reflexivity.
    + intro H. inversion H. auto.
  - rewrite Bool.andb_true_iff, pyclass_eqb_eq, (list_eqb_canon l H). split.
    + intros [-> ->]. reflexivity.
    + intro H0. inversion H0. auto.
Qed.

(** [==] is an equivalence. *)
Lemma pyval_eqb_refl (x : pyval) : pyval_eqb x x = true.
Proof. now apply pyval_eqb_canon. Qed.

Lemma pyval_eqb_sym (x y : pyval) : pyval_eqb x y = pyval_eqb y x.
Proof.
  destruct (pyval_eqb x y) eqn:Hxy, (pyval_eqb y x) eqn:Hyx; try reflexivity.
  - apply pyval_eqb_canon in Hxy. symmetry in Hxy.
    apply pyval_eqb_canon in Hxy. congruence.
  - apply pyval_eqb_canon in Hyx. symmetry in Hyx.
    apply pyval_eqb_canon in Hyx. congruence.
Qed.

Lemma pyval_eqb_congr (x y z : pyval) :
  pyval_eqb x y = true -> pyval_eqb x z = pyval_eqb y z.
Proof.
  intro Hxy. apply pyval_eqb_canon in Hxy.
  destruct (pyval_eqb x z) eqn:Hxz, (pyval_eqb y z) eqn:Hyz; try reflexivity.
  - apply pyval_eqb_canon in Hxz. rewrite Hxy in Hxz.
    apply pyval_eqb_canon in Hxz. congruence.
  - apply pyval_eqb_canon in Hyz. rewrite <- Hxy in Hyz.
    apply pyval_eqb_canon in Hyz. congruence.
Qed.

Lemma pyval_eqb_false_neq (x y : pyval) : pyval_eqb x y = false -> x <> y.
Proof. intros H ->. now rewrite pyval_eqb_refl in H. Qed.

(** A string is [==] to itself only. *)
Lemma pyval_eqb_Str (x : pyval) (s : string) :
  pyval_eqb x (PStr s) = true <-> x = PStr s.
Proof.
  split; [|intros ->; apply pyval_eqb_refl].
  destruct x as [[| | |s'|]| | | | | | |]; simpl; try discriminate.
  intro H. apply String.eqb_eq in H. now subst.
Qed.

Lemma pyval_eqb_Str_neq (x : pyval) (s : string) :
  x <> PStr s -> pyval_eqb x (PStr s) = false.
Proof.
  intro Hne. destruct (pyval_eqb x (PStr s)) eqn:H; [|reflexivity].
  apply pyval_eqb_Str in H. contradiction.
Qed.

Lemma pyval_eqb_Str_neq_l (x : pyval) (s : string) :
  x <> PStr s -> pyval_eqb (PStr s) x = false.
Proof. intro Hne. rewrite pyval_eqb_sym. now apply pyval_eqb_Str_neq. Qed.

(** ** The codec *)

Section CodecProperties.

Variable E : Engine.

Lemma mapM_ext {A B : Type} (f g : A -> result B) (l : list A) :
  (forall x, In x l -> f x = g x) -> mapM f l = mapM g l.
Proof.
  induction l as [|x l IH]; intro H; simpl; [reflexivity|].
  rewrite (H x (or_introl eq_refl)), IH; [reflexivity|].
  intros y Hy. apply H. now right.
Qed.

Lemma str_chars_prim (s : string) :
  Forall (fun v => exists p, v = Prim p) (str_chars s).
Proof.
  induction s; simpl; constructor; [eexists; reflexivity | assumption].
Qed.

(** [children] is the comprehension over [expr['args']]. *)
Lemma children_eq (decode : dict -> pyval -> result pyval) (ns : dict)
  (d : list (pyval * pyval)) :
  (forall p, decode ns (Prim p) = substitute ns (Prim p)) ->
  children decode ns d =
    (args <- dict_getitem d "args" ;;
     items <- iterate args ;;
     mapM (decode ns) items).
Proof.
  intro Hprim. unfold dict_getitem.
  induction d as [|[k args] d IH]; simpl; [reflexivity|].
  destruct (pyval_eqb k (PStr "args")); [|exact IH].
  destruct args as [p| | |d'| | | |]; simpl; try reflexivity.
  - destruct p; simpl; try reflexivity.
    apply mapM_ext. intros x Hx.
    pose proof (str_chars_prim s) as Hs. rewrite Forall_forall in Hs.
    destruct (Hs x Hx) as [q ->]. symmetry. apply Hprim.
  - induction d' as [|[k' v'] d' IH']; simpl; [reflexivity|].
    now rewrite IH'.
Qed.

(** The mapping branch of [from_tree], as the source reads. *)
Lemma from_tree_PDict (ns : dict) (d : list (pyval * pyval)) :
  from_tree E ns (PDict d) =
    (op <- dict_getitem d "op" ;;
     args <- dict_getitem d "args" ;;
     if pyval_eqb (PStr "slice") op then
       items <- iterate args ;;
       args' <- mapM (from_tree E ns) items ;;
       make_slice args'
     else
       cls <- class_of_op E op ;;
       sym <- symbol_like op ;;
       items <- iterate args ;;
       args' <- mapM (from_tree E (if sym then [] else ns)) items ;;
       construct E cls args').
Proof.
  cbn [from_tree]. rewrite !children_eq by reflexivity.
  destruct (dict_getitem d "op") as [op|]; cbn [bind]; [|reflexivity].
  destruct (dict_getitem d "args") as [args|]; cbn [bind].
  - destruct (iterate args) as [items|]; cbn [bind];
      destruct (pyval_eqb (PStr "slice") op); try reflexivity;
      destruct (class_of_op E op); cbn [bind]; try reflexivity;
      destruct (symbol_like op) as [[|]|]; reflexivity.
  - reflexivity.
Qed.

Lemma from_tree_op_tree (ns : dict) (op : string) (args : list pyval) :
  from_tree E ns (op_tree op args) =
    (if String.eqb "slice" op then
       args' <- mapM (from_tree E ns) args ;;
       make_slice args'
     else
       cls <- class_of_op E (PStr op) ;;
       args' <- mapM (from_tree E (if str_contains "Symbol" op then [] else ns)) args ;;
       construct E cls args').
Proof.
  unfold op_tree. rewrite from_tree_PDict. reflexivity.
Qed.

(** A [_slice] is encoded as its built-in [slice] is. *)
Lemma to_tree_P_slice (names : dict) (a b c : pyval) :
  to_tree E names (P_slice a b c) =
    (hit <- lookup names (P_slice a b c) ;;
     match hit with
     | Some alias => Ok alias
     | None => to_tree E names (PySlice a b c)
     end).
Proof.
  cbn [to_tree].
  destruct (lookup names (P_slice a b c)) as [[alias|]|]; reflexivity.
Qed.

(** An [InteractiveSymbol] is encoded as the plain symbol of its name and
    shape is. *)
Lemma to_tree_PInteractive (names : dict) (name dshape x : pyval) :
  to_tree E names (PInteractive name dshape x) =
    (hit <- lookup names (PInteractive name dshape x) ;;
     match hit with
     | Some alias => Ok alias
     | None => to_tree E names (symbol E name dshape)
     end).
Proof.
  cbn [to_tree].
  destruct (lookup names (PInteractive name dshape x)) as [[alias|]|];
    cbn [bind]; try reflexivity.
  unfold symbol, substitute. cbn [to_tree mapM].
  destruct (lookup names (PExpr (Symbol E) [name; dshape; Prim (symbol_token E)]))
    as [[alias|]|]; cbn [bind]; try reflexivity.
  destruct (to_tree E names name); cbn [bind]; [|reflexivity].
  destruct (to_tree E names dshape); cbn [bind]; [|reflexivity].
  destruct (lookup names (Prim (symbol_token E))) as [[alias|]|]; reflexivity.
Qed.

Lemma lookup_prim (m : dict) (p : prim) :
  lookup m (Prim p) = Ok (dict_get m (Prim p)).
Proof. destruct m; reflexivity. Qed.

(** A scalar is decoded to what the namespace binds to it, or to itself. *)
Lemma from_tree_Prim (ns : dict) (p : prim) :
  from_tree E ns (Prim p) = Ok (substituted ns p).
Proof.
  cbn [from_tree]. unfold substitute, substituted. rewrite lookup_prim. cbn [bind].
  destruct (dict_get ns (Prim p)); reflexivity.
Qed.

Lemma mapM_cons {A B : Type} (f : A -> result B) (x : A) (l : list A) :
  mapM f (x :: l) = (y <- f x ;; ys <- mapM f l ;; Ok (y :: ys)).
Proof. reflexivity. Qed.

Lemma from_tree_scalars (ns : dict) (args : list prim) :
  mapM (from_tree E ns) (map Prim args) = Ok (map (substituted ns) args).
Proof.
  induction args as [|a args IH]; [reflexivity|].
  cbn [map]. rewrite mapM_cons, from_tree_Prim, IH. reflexivity.
Qed.

Lemma substituted_empty (args : list prim) : map (substituted []) args = map Prim args.
Proof. apply map_ext. reflexivity. Qed.

(** C2: in a wire mapping whose tag contains ['Symbol'] the arguments are
    decoded with no namespace, so that the node does not depend on the
    namespace and a scalar argument is kept also when the namespace binds
    it; under every other tag, ['slice'] too, the arguments are decoded
    with the namespace of the call, so that a scalar argument that the
    namespace binds is replaced by what it is bound to. *)
Theorem from_tree_symbol_arguments (ns : dict) (op : string) (args : list prim) :
  (str_contains "Symbol" op = true ->
   (forall nested : list pyval,
      from_tree E ns (op_tree op nested) = from_tree E [] (op_tree op nested)) /\
   from_tree E ns (op_tree op (map Prim args)) =
     (cls <- class_of_op E (PStr op) ;; construct E cls (map Prim args))) /\
  (str_contains "Symbol" op = false ->
   (forall nested : list pyval,
      from_tree E ns (op_tree op nested) =
        (if String.eqb "slice" op then
           decoded <- mapM (from_tree E ns) nested ;; make_slice decoded
         else
           cls <- class_of_op E (PStr op) ;;
           decoded <- mapM (from_tree E ns) nested ;;
           construct E cls decoded)) /\
   from_tree E ns (op_tree op (map Prim args)) =
     (if String.eqb "slice" op then make_slice (map (substituted ns) args)
      else cls <- class_of_op E (PStr op) ;;
           construct E cls (map (substituted ns) args))).
Proof.
  split; intro Hsym.
  - assert (Hop : String.eqb "slice" op = false).
    { destruct (String.eqb "slice" op) eqn:Hop; [|reflexivity].
      apply String.eqb_eq in Hop. subst op. discriminate Hsym. }
    split.
    + intro nested. rewrite !from_tree_op_tree, Hop, Hsym. reflexivity.
    + rewrite from_tree_op_tree, Hop, Hsym, from_tree_scalars, substituted_empty.
      reflexivity.
  - split.
    + intro nested. rewrite from_tree_op_tree, Hsym. reflexivity.
    + rewrite from_tree_op_tree, Hsym, from_tree_scalars. reflexivity.
Qed.

(** ** The resolver *)

Lemma first_argument_named_found (name : string) (pre post : list (list pyclass))
  (t : pyclass) (ts : list pyclass) :
  Forall (first_is_not name) pre ->
  cls_name t = name ->
  first_argument_named name (pre ++ (t :: ts) :: post) = Ok t.
Proof.
  intros Hpre Ht. induction Hpre as [|sig pre (t' & ts' & -> & Hne) _ IH]; simpl.
  - apply String.eqb_eq in Ht. now rewrite Ht.
  - apply String.eqb_neq in Hne. now rewrite Hne.
Qed.

Lemma first_argument_named_none (name : string) (sigs : list (list pyclass)) :
  Forall (first_is_not name) sigs ->
  first_argument_named name sigs =
    Raise (ValueError (name ++ " not found in compute_up")).
Proof.
  induction 1 as [|sig sigs (t' & ts' & -> & Hne) _ IH]; simpl; [reflexivity|].
  apply String.eqb_neq in Hne. now rewrite Hne.
Qed.

(** C3, amended: [expression_from_name] asks the top-level namespace, then
    the expression module, then the first-argument types of the registered
    signatures, and fails naming the tag; but [from_tree] asks the
    expression module before it calls [expression_from_name]. *)
Theorem tag_resolution_order (name : string) :
  (forall c, blaze_attr E name = Some c -> expression_from_name E name = Ok c) /\
  (forall c, blaze_attr E name = None -> blaze_expr_attr E name = Some c ->
     expression_from_name E name = Ok c) /\
  (forall pre post t ts,
     blaze_attr E name = None -> blaze_expr_attr E name = None ->
     compute_up_funcs E = pre ++ (t :: ts) :: post ->
     Forall (first_is_not name) pre -> cls_name t = name ->
     expression_from_name E name = Ok t) /\
  (blaze_attr E name = None -> blaze_expr_attr E name = None ->
   Forall (first_is_not name) (compute_up_funcs E) ->
   expression_from_name E name =
     Raise (ValueError (name ++ " not found in compute_up"))) /\
  (forall c, blaze_expr_attr E name = Some c ->
     class_of_op E (PStr name) = Ok c) /\
  (blaze_expr_attr E name = None ->
   class_of_op E (PStr name) = expression_from_name E name) /\
  (name <> "slice" ->
   forall ns args,
     from_tree E ns (op_tree name args) =
       (cls <- class_of_op E (PStr name) ;;
        args' <- mapM (from_tree E (if str_contains "Symbol" name then [] else ns)) args ;;
        construct E cls args')).
Proof.
  repeat split.
  - intros c H. unfold expression_from_name. now rewrite H.
  - intros c H1 H2. unfold expression_from_name. now rewrite H1, H2.
  - intros pre post t ts H1 H2 Hsigs Hpre Ht.
    unfold expression_from_name. rewrite H1, H2, Hsigs.
    now apply first_argument_named_found.
  - intros H1 H2 Hall. unfold expression_from_name. rewrite H1, H2.
    now apply first_argument_named_none.
  - intros c H. unfold class_of_op, PStr. now rewrite H.
  - intros H. unfold class_of_op, PStr. now rewrite H.
  - intros Hne ns args. rewrite from_tree_op_tree.
    destruct (String.eqb "slice" name) eqn:Hs; [|reflexivity].
    apply String.eqb_eq in Hs. congruence.
Qed.

(** With names, a [_slice] that is no key of theirs is not encoded. *)
Lemma to_tree_P_slice_names (names : dict) (a b c : pyval) :
  names <> [] -> lookup names (P_slice a b c) = Ok None ->
  to_tree E names (P_slice a b c) = Raise (TypeError "unhashable type").
Proof.
  intros Hnames Hmiss. rewrite to_tree_P_slice, Hmiss. cbn [bind to_tree].
  destruct names; [contradiction | reflexivity].
Qed.

(** ** Round trips *)

Lemma dict_get_In (d : dict) (k v : pyval) :
  dict_get d k = Some v -> exists k', In (k', v) d /\ pyval_eqb k' k = true.
Proof.
  induction d as [|[k' v'] d IH]; simpl; [discriminate|].
  destruct (pyval_eqb k' k) eqn:Hk.
  - intro H. inversion H. subst. exists k'. split; [now left | assumption].
  - intro H. destruct (IH H) as [k0 [Hin Hk0]]. exists k0. split; [now right | assumption].
Qed.



Lemma lookup_hit (m : dict) (x v : pyval) :
  lookup m x = Ok (Some v) -> exists k, In (k, v) m /\ pyval_eqb k x = true.
Proof.
  unfold lookup. destruct m; [discriminate|].
  destruct (hashable x); [|discriminate].
  intro H. inversion H as [H1]. now apply dict_get_In.
Qed.





End CodecProperties.

(** ** Dicts *)

Lemma dict_get_set_same (d : dict) (k v : pyval) :
  dict_get (dict_set d k v) k = Some v.
Proof.
  induction d as [|[k' v'] d IH]; simpl.
  - now rewrite pyval_eqb_refl.
  - destruct (pyval_eqb k' k) eqn:Hk; simpl; rewrite Hk; [reflexivity | exact IH].
Qed.

Lemma dict_get_set_other (d : dict) (k k' v : pyval) :
  pyval_eqb k k' = false -> dict_get (dict_set d k v) k' = dict_get d k'.
Proof.
  intro Hne. induction d as [|[k0 v0] d IH]; simpl.
  - now rewrite Hne.
  - destruct (pyval_eqb k0 k) eqn:Hk; simpl.
    + rewrite (pyval_eqb_congr k0 k k' Hk), Hne. reflexivity.
    + now rewrite IH.
Qed.

Lemma dict_set_twice (d : dict) (k v w : pyval) :
  dict_set (dict_set d k v) k w = dict_set d k w.
Proof.
  induction d as [|[k' v'] d IH]; simpl.
  - now rewrite pyval_eqb_refl.
  - destruct (pyval_eqb k' k) eqn:Hk; simpl; rewrite Hk; [reflexivity|].
    now rewrite IH.
Qed.

Lemma dict_update_other (o d : dict) (k : pyval) :
  (forall k', In k' (map fst o) -> pyval_eqb k' k = false) ->
  dict_get (dict_update d o) k = dict_get d k.
Proof.
  unfold dict_update. revert d.
  induction o as [|[k0 v0] o IH]; intros d Hout; simpl; [reflexivity|].
  rewrite IH by (intros k' Hk'; apply Hout; now right).
  apply dict_get_set_other. apply Hout. now left.
Qed.

Lemma dict_update_In (o d : dict) (k v : pyval) :
  distinct (map fst o) -> In (k, v) o -> dict_get (dict_update d o) k = Some v.
Proof.
  unfold dict_update. revert d.
  induction o as [|[k0 v0] o IH]; intros d Hdistinct Hin; simpl; [contradiction|].
  simpl in Hdistinct. inversion Hdistinct as [|? ? Hout Hrest]. subst.
  destruct Hin as [Heq|Hin].
  - inversion Heq. subst k0 v0.
    change (dict_get (dict_update (dict_set d k v) o) k = Some v).
    rewrite dict_update_other; [apply dict_get_set_same|].
    intros k' Hk'. rewrite pyval_eqb_sym.
    rewrite Forall_forall in Hout. now apply Hout.
  - now apply IH.
Qed.

(** Strings that differ are keys that differ. *)
Lemma distinct_strings (l : list string) :
  NoDup l -> distinct (map PStr l).
Proof.
  induction 1 as [|x l Hout _ IH]; simpl; constructor; [|exact IH].
  apply Forall_forall. intros k Hk. apply in_map_iff in Hk.
  destruct Hk as [y [<- Hy]]. apply pyval_eqb_Str_neq_l.
  intro Heq. inversion Heq. now subst.
Qed.

Lemma valmap_Ok (f : pyval -> result pyval) (p resolved : dict) :
  valmap f p = Ok resolved ->
  Forall2 (fun kv kv' => fst kv' = fst kv /\ f (snd kv) = Ok (snd kv')) p resolved.
Proof.
  revert resolved. induction p as [|[k v] p IH]; simpl; intros resolved H.
  - inversion H. constructor.
  - destruct (f v) as [v'|] eqn:Hv; simpl in H; [|discriminate].
    destruct (valmap f p) as [rest|]; simpl in H; [|discriminate].
    inversion H. subst. constructor; [split; [reflexivity | exact Hv]|].
    now apply IH.
Qed.

Lemma valmap_keys (f : pyval -> result pyval) (p resolved : dict) :
  valmap f p = Ok resolved -> map fst resolved = map fst p.
Proof.
  intro H. apply valmap_Ok in H.
  induction H as [|[k v] [k' v'] p r [Hk _] _ IH]; simpl; [reflexivity|].
  simpl in Hk. now rewrite Hk, IH.
Qed.

(** The first value that does not resolve ends [valmap]. *)
Lemma valmap_Raise (f : pyval -> result pyval) (p : dict) (k v : pyval) (e : exn)
  (before after : dict) :
  p = before ++ (k, v) :: after ->
  Forall (fun kv => exists r, f (snd kv) = Ok r) before ->
  f v = Raise e ->
  valmap f p = Raise e.
Proof.
  intros -> Hbefore Hv.
  induction Hbefore as [|[k0 v0] before [r Hr] _ IH]; simpl.
  - now rewrite Hv.
  - simpl in Hr. rewrite Hr, IH. reflexivity.
Qed.

(** ** The handlers *)

Section HandlerProperties.

Variable E : Engine.

Lemma get_format_Raise (fs : list (string * format)) (name : string) (e : exn) :
  _get_format fs name = Raise e -> e = KeyError name.
Proof.
  induction fs as [|[n f] fs IH]; simpl.
  - intro H. now inversion H.
  - destruct (String.eqb n name); [discriminate | exact IH].
Qed.

(** The refusals of [check_request], for a request that has a
    content-type header: when the header does not match the pattern the
    answer is 415; when it names a format the server has not registered it
    is 415; and when [loads] raises a [ValueError] it is 400, with the
    request body in the text. *)
Theorem check_request_refusals (S : server)
  (f : pyval -> format -> result response) (req : request) (content_type : string) :
  header (headers req) "content-type" = Ok content_type ->
  (mimetype_regex E content_type = None ->
   check_request E S f req =
     Ok (reply ("Unsupported serialization format " ++ content_type) 415)) /\
  (forall name e,
     mimetype_regex E content_type = Some name ->
     _get_format (formats S) name = Raise e ->
     check_request E S f req =
       Ok (reply ("Unsupported serialization format '" ++ name ++ "'") 415)) /\
  (forall name serial e,
     mimetype_regex E content_type = Some name ->
     _get_format (formats S) name = Ok serial ->
     loads serial (req_data req) = Raise e ->
     isinstance_exn e "ValueError" = true ->
     check_request E S f req =
       Ok (reply ("Bad data.  Got " ++ bytes_str E (req_data req) ++ " ") 400)).
Proof.
  intro Hheader. unfold check_request, negotiate. rewrite Hheader. cbn [bind].
  repeat split.
  - intros ->. reflexivity.
  - intros name e -> Hformat. rewrite Hformat.
    apply get_format_Raise in Hformat. subst e. reflexivity.
  - intros name serial e -> -> -> ->. reflexivity.
Qed.

(** C7, amended: a truthy [profile] on a server that does not allow the
    profiler is answered 403; and so is a request that is to be profiled
    and asks for another output than [':response'] on a server whose own
    output is [':response']. *)
Theorem profiling_refusals (S : server) (p : dict) (serial : format) :
  (truthy (get p "profile" PNone) = true -> allow_profiler S = false ->
   compserver E S (PDict p) serial =
     Ok (reply "profiling is disabled on this server" 403)) /\
  (profiling S p = true ->
   default_profiler_output S = PStr ":response" ->
   requested_profiler_output S p <> PStr ":response" ->
   compserver E S (PDict p) serial =
     Ok (reply ("local filepaths are disabled on this server, only" ++
                " ':response' is allowed for the 'profiler_output' field") 403)).
Proof.
  split.
  - intros Hprofile Hallow. unfold compserver, profile_setup.
    now rewrite Hprofile, Hallow.
  - intros Hprofiling Hdefault Hrequested. unfold compserver, profile_setup.
    rewrite Hprofiling, Hdefault.
    apply pyval_eqb_Str_neq in Hrequested. rewrite Hrequested.
    unfold profiling in Hprofiling.
    apply Bool.andb_true_iff in Hprofiling. destruct Hprofiling as [-> _].
    rewrite Bool.andb_false_r. reflexivity.
Qed.

(** C4, amended: an expression that does not decode, or whose leaves are
    not exactly one, makes [compserver] raise: the exception of the
    decoder, or [AssertionError].  The view does not catch it. *)
Theorem leaf_count_assertion (S : server) (p : dict) (serial : format) :
  profile_setup S p = None ->
  (forall e, decode_expr E S p = Raise e ->
     compserver E S (PDict p) serial = Raise e) /\
  (forall expr ls,
     decode_expr E S p = Ok expr -> leaves E expr = Ok ls -> length ls <> 1%nat ->
     compserver E S (PDict p) serial = Raise AssertionError).
Proof.
  intro Hsetup. unfold compserver. rewrite Hsetup. split.
  - intros e ->. reflexivity.
  - intros expr ls Hdecode Hleaves Hlen.
    rewrite Hdecode. cbn [bind]. rewrite Hleaves. cbn [bind].
    destruct ls as [|leaf [|leaf' ls]]; try reflexivity.
    now contradiction Hlen.
Qed.

(** C5: when the computation fails, a [NotImplementedError] is answered
    501 with its message, and any other exception 500 with the name of its
    class and its message, and nothing else. *)
Theorem execute_failure_status (S : server) (p : dict) (serial : format)
  (expr leaf : pyval) (e : exn) :
  profile_setup S p = None ->
  decode_expr E S p = Ok expr ->
  leaves E expr = Ok [leaf] ->
  execute E S serial p expr leaf = Raise e ->
  compserver E S (PDict p) serial =
    Ok (if isinstance_exn e "NotImplementedError"
        then reply ("Computation not supported:" ++ newline ++ exn_str e) 501
        else reply ("Computation failed with message:" ++ newline ++
                    exn_name e ++ ": " ++ exn_str e) 500).
Proof.
  intros Hsetup Hdecode Hleaves Hexec. unfold compserver.
  rewrite Hsetup, Hdecode. cbn [bind]. rewrite Hleaves. cbn [bind].
  rewrite Hexec. destruct (isinstance_exn e "NotImplementedError"); reflexivity.
Qed.

Lemma get_set_same (p : dict) (key : string) (v default : pyval) :
  get (dict_set p (PStr key) v) key default = v.
Proof. unfold get. now rewrite dict_get_set_same. Qed.

Lemma get_set_other (p : dict) (k key : string) (v default : pyval) :
  k <> key -> get (dict_set p (PStr k) v) key default = get p key default.
Proof.
  intro Hne. unfold get. rewrite dict_get_set_other; [reflexivity|].
  apply pyval_eqb_Str_neq. unfold PStr. congruence.
Qed.

Lemma dict_getitem_set_other (p : dict) (k key : string) (v : pyval) :
  k <> key -> dict_getitem (dict_set p (PStr k) v) key = dict_getitem p key.
Proof.
  intro Hne. unfold dict_getitem. rewrite dict_get_set_other; [reflexivity|].
  apply pyval_eqb_Str_neq. unfold PStr. congruence.
Qed.

(** What [compserver] does with a payload depends on its namespace only
    through [leaf_namespace]. *)
Lemma compserver_namespace (S : server) (p : dict) (ns ns' : pyval) (serial : format) :
  leaf_namespace E S (dict_set p (PStr "namespace") ns) =
  leaf_namespace E S (dict_set p (PStr "namespace") ns') ->
  compserver E S (PDict (dict_set p (PStr "namespace") ns)) serial =
  compserver E S (PDict (dict_set p (PStr "namespace") ns')) serial.
Proof.
  intro Hns.
  unfold compserver, profile_setup, profiling, requested_profiler_output,
    decode_expr, execute, respond, profiling, requested_profiler_output.
  rewrite Hns.
  rewrite !(get_set_other p "namespace" "profile") by discriminate.
  rewrite !(get_set_other p "namespace" "profiler_output") by discriminate.
  rewrite !(get_set_other p "namespace" "compute_kwargs") by discriminate.
  rewrite !(get_set_other p "namespace" "odo_kwargs") by discriminate.
  rewrite !(dict_getitem_set_other p "namespace" "expr") by discriminate.
  reflexivity.
Qed.

(** C10: [compserver] decodes the expression of the payload in the
    namespace of the payload with [':leaf'] bound to
    [symbol('leaf', discover(data))] over whatever the payload bound to it.
    So the wire value [':leaf'] is that symbol; the decoder's exception
    leaves the view; the computation and the answer are those of the
    expression decoded in that namespace; and what the payload bound to
    [':leaf'] makes no difference to the answer. *)
Theorem leaf_alias_is_bound_by_the_server (S : server) (p client_ns ns : dict)
  (tree ds : pyval) (serial : format) :
  get p "namespace" (PDict []) = PDict client_ns ->
  dict_getitem p "expr" = Ok tree ->
  discover E (data S) = Ok ds ->
  ns = dict_set client_ns (PStr ":leaf") (symbol E (PStr "leaf") ds) ->
  dict_get ns (PStr ":leaf") = Some (symbol E (PStr "leaf") ds) /\
  (forall k, k <> PStr ":leaf" -> dict_get ns k = dict_get client_ns k) /\
  decode_expr E S p = from_tree E ns tree /\
  (tree = PStr ":leaf" -> decode_expr E S p = Ok (symbol E (PStr "leaf") ds)) /\
  (profile_setup S p = None ->
   (forall e, from_tree E ns tree = Raise e ->
      compserver E S (PDict p) serial = Raise e) /\
   (forall expr leaf computed,
      from_tree E ns tree = Ok expr ->
      leaves E expr = Ok [leaf] ->
      execute E S serial p expr leaf = Ok computed ->
      compserver E S (PDict p) serial = respond E S serial p expr computed)) /\
  (forall v,
     compserver E S
       (PDict (dict_set p (PStr "namespace")
                 (PDict (dict_set client_ns (PStr ":leaf") v)))) serial =
     compserver E S
       (PDict (dict_set p (PStr "namespace") (PDict client_ns))) serial).
Proof.
  intros Hclient Htree Hds ->.
  assert (Hdecode : decode_expr E S p =
            from_tree E (dict_set client_ns (PStr ":leaf") (symbol E (PStr "leaf") ds))
              tree).
  { unfold decode_expr, leaf_namespace. rewrite Hds, Hclient. cbn [bind setitem].
    now rewrite Htree. }
  split; [apply dict_get_set_same|].
  split.
  { intros k Hk. apply dict_get_set_other. now apply pyval_eqb_Str_neq_l. }
  split; [exact Hdecode|].
  split.
  { intros ->. rewrite Hdecode. change (PStr ":leaf") with (Prim (Str ":leaf")) at 2.
    rewrite from_tree_Prim. unfold substituted.
    change (Prim (Str ":leaf")) with (PStr ":leaf").
    now rewrite dict_get_set_same. }
  split.
  - intro Hsetup. unfold compserver. rewrite Hsetup, Hdecode. split.
    + intros e ->. reflexivity.
    + intros expr leaf computed -> Hleaves Hexecute. cbn [bind].
      rewrite Hleaves. cbn [bind]. now rewrite Hexecute.
  - intro v. apply compserver_namespace.
    unfold leaf_namespace. rewrite !get_set_same.
    destruct (discover E (data S)) as [ds'|]; cbn [bind]; [|reflexivity].
    unfold setitem. now rewrite dict_set_twice.
Qed.

(** C8, amended: [/add] answers 422 when the hosted data is no dict, and
    when the payload is none; and when every value of the payload
    resolves, it binds every name of the payload to its resource, keeps
    the other names, and answers ['OK'].  The names of a payload are
    [distinct], and another name is one that is [==] to none of them. *)
Theorem addserver_merges (S : server) (payload : pyval) (serial : format) :
  ((forall d, data S <> PDict d) ->
   exists text, addserver E S payload serial = (S, Ok (reply text 422))) /\
  (forall registry, data S = PDict registry -> (forall p, payload <> PDict p) ->
   exists text, addserver E S payload serial = (S, Ok (reply text 422))) /\
  (forall registry p resolved,
     data S = PDict registry -> payload = PDict p ->
     valmap (resource E) p = Ok resolved ->
     addserver E S payload serial =
       (with_data S (PDict (dict_update registry resolved)),
        Ok (reply_ok (PStr "OK"))) /\
     (distinct (map fst p) ->
      forall k v, In (k, v) p ->
        exists r, resource E v = Ok r /\
          dict_get (dict_update registry resolved) k = Some r) /\
     (forall k, (forall k', In k' (map fst p) -> pyval_eqb k' k = false) ->
        dict_get (dict_update registry resolved) k = dict_get registry k)).
Proof.
  split; [|split].
  - intro Hdata. unfold addserver.
    destruct (data S) as [| | |d| | | |]; try (eexists; reflexivity).
    now contradiction (Hdata d).
  - intros registry Hdata Hpayload. unfold addserver. rewrite Hdata.
    destruct payload as [| | |p| | | |]; try (eexists; reflexivity).
    now contradiction (Hpayload p).
  - intros registry p resolved Hdata Hpayload Hresolved.
    pose proof (valmap_keys _ _ _ Hresolved) as Hkeys.
    split; [|split].
    + unfold addserver. now rewrite Hdata, Hpayload, Hresolved.
    + intros Hdistinct k v Hin.
      pose proof (valmap_Ok _ _ _ Hresolved) as Hall.
      assert (Hr : exists r, resource E v = Ok r /\ In (k, r) resolved).
      { clear - Hall Hin.
        induction Hall as [|[k0 v0] [k1 v1] p0 r0 [Hk Hv] _ IH]; [contradiction|].
        simpl in Hk, Hv. destruct Hin as [Heq|Hin].
        - inversion Heq. subst. exists v1. split; [assumption | now left].
        - destruct (IH Hin) as [r [Hr Hin']].
          exists r. split; [assumption | now right]. }
      destruct Hr as [r [Hr Hin']]. exists r. split; [assumption|].
      apply dict_update_In; [now rewrite Hkeys | assumption].
    + intros k Hout. apply dict_update_other. now rewrite Hkeys.
Qed.

(** C9, amended: when a value of the payload does not resolve, [/add]
    merges nothing, not even the entries before it that resolve: the
    hosted data is as it was, and the exception leaves the view. *)
Theorem addserver_all_or_nothing (S : server) (serial : format)
  (registry before after : dict) (k v : pyval) (e : exn) :
  data S = PDict registry ->
  Forall (fun kv => exists r, resource E (snd kv) = Ok r) before ->
  resource E v = Raise e ->
  addserver E S (PDict (before ++ (k, v) :: after)) serial = (S, Raise e).
Proof.
  intros Hdata Hbefore Hv. unfold addserver. rewrite Hdata.
  now rewrite (valmap_Raise (resource E) _ k v e before after eq_refl Hbefore Hv).
Qed.

End HandlerProperties.

(** * More properties *)

(** ** The codec *)

Section MoreCodecProperties.

Variable E : Engine.

Lemma mapM_Ok_all {A B : Type} (f : A -> result B) (l : list A) :
  Forall (fun x => exists y, f x = Ok y) l -> exists ys, mapM f l = Ok ys.
Proof.
  induction 1 as [|x l [y Hy] _ [ys Hys]]; simpl.
  - exists []. reflexivity.
  - exists (y :: ys). now rewrite Hy, Hys.
Qed.

Lemma mapM_Ok_Forall2 {A B : Type} (f : A -> result B) (l : list A) (ys : list B) :
  mapM f l = Ok ys -> Forall2 (fun x y => f x = Ok y) l ys.
Proof.
  revert ys. induction l as [|x l IH]; simpl; intros ys H.
  - inversion H. constructor.
  - destruct (f x) as [y|] eqn:Hy; simpl in H; [|discriminate].
    destruct (mapM f l) as [ys'|]; simpl in H; [|discriminate].
    inversion H. subst. constructor; [assumption | now apply IH].
Qed.

Lemma wire_op_tree (op : string) (args : list pyval) :
  wire (op_tree op args) = forallb wire args.
Proof. unfold op_tree, PStr. cbn. now rewrite Bool.andb_true_r. Qed.

Lemma substitute_wire (names : dict) (p : prim) (w : pyval) :
  (forall k a, In (k, a) names -> wire a = true) ->
  substitute names (Prim p) = Ok w -> wire w = true.
Proof.
  intros Haliases. unfold substitute. rewrite lookup_prim. cbn [bind].
  destruct (dict_get names (Prim p)) as [a|] eqn:Hget; intro H; inversion H; subst.
  - apply dict_get_In in Hget. destruct Hget as [k [Hin _]]. eauto.
  - reflexivity.
Qed.

Lemma to_tree_all_wire (names : dict) (l ws : list pyval) :
  Forall (fun x => forall w, expression x = true ->
            to_tree E names x = Ok w -> wire w = true) l ->
  forallb expression l = true ->
  mapM (to_tree E names) l = Ok ws -> forallb wire ws = true.
Proof.
  intros Hall Hexpr Hws. apply mapM_Ok_Forall2 in Hws.
  induction Hws as [|x w l ws Hx _ IH]; [reflexivity|].
  simpl in Hexpr. apply Bool.andb_true_iff in Hexpr. destruct Hexpr as [Hex Hel].
  inversion Hall as [|? ? Hhead Htail]. subst. simpl.
  rewrite (Hhead w Hex Hx), (IH Htail Hel). reflexivity.
Qed.

(** X2: what [to_tree] makes of an expression is a value of the wire,
    under a name table whose aliases are values of the wire. *)
Theorem to_tree_wire (names : dict) (e w : pyval) :
  (forall k a, In (k, a) names -> wire a = true) ->
  expression e = true ->
  to_tree E names e = Ok w ->
  wire w = true.
Proof.
  intros Haliases. revert w.
  induction e using pyval_ind; intros w; cbn [to_tree expression];
    (destruct (lookup names _) as [[alias|]|] eqn:Hl at 1; cbn [bind];
     [ intros _ Hw; inversion Hw; subst; apply lookup_hit in Hl;
       destruct Hl as [k [Hin _]]; eauto
     | | discriminate ]).
  - intros _ Hw. inversion Hw. reflexivity.
  - intros Hexpr.
    destruct (mapM (to_tree E names) l) as [ws|] eqn:Hws; cbn [bind]; [|discriminate].
    intro Hw. inversion Hw. subst. cbn [wire].
    now apply (to_tree_all_wire names l ws).
  - discriminate.
  - discriminate.
  - intro Hexpr. apply Bool.andb_true_iff in Hexpr. destruct Hexpr as [Hexpr H3].
    apply Bool.andb_true_iff in Hexpr. destruct Hexpr as [H1 H2].
    destruct (to_tree E names e1) as [w1|] eqn:Hw1; cbn [bind]; [|discriminate].
    destruct (to_tree E names e2) as [w2|] eqn:Hw2; cbn [bind]; [|discriminate].
    destruct (to_tree E names e3) as [w3|] eqn:Hw3; cbn [bind]; [|discriminate].
    intro Hw. inversion Hw. subst. rewrite wire_op_tree. cbn [forallb].
    now rewrite (IHe1 w1 H1 eq_refl), (IHe2 w2 H2 eq_refl), (IHe3 w3 H3 eq_refl).
  - intro Hexpr. apply Bool.andb_true_iff in Hexpr. destruct Hexpr as [Hexpr H3].
    apply Bool.andb_true_iff in Hexpr. destruct Hexpr as [H1 H2].
    destruct (lookup names (PySlice e1 e2 e3)) as [[alias|]|] eqn:Hl';
      cbn [bind]; [| |discriminate].
    { intro Hw. inversion Hw. subst. apply lookup_hit in Hl'.
      destruct Hl' as [k [Hin _]]. eauto. }
    destruct (to_tree E names e1) as [w1|] eqn:Hw1; cbn [bind]; [|discriminate].
    destruct (to_tree E names e2) as [w2|] eqn:Hw2; cbn [bind]; [|discriminate].
    destruct (to_tree E names e3) as [w3|] eqn:Hw3; cbn [bind]; [|discriminate].
    intro Hw. inversion Hw. subst. rewrite wire_op_tree. cbn [forallb].
    now rewrite (IHe1 w1 H1 eq_refl), (IHe2 w2 H2 eq_refl), (IHe3 w3 H3 eq_refl).
  - intro Hexpr. apply Bool.andb_true_iff in Hexpr. destruct Hexpr as [H1 H2].
    destruct (lookup names (symbol E e1 e2)) as [[alias|]|] eqn:Hl';
      cbn [bind]; [| |discriminate].
    { intro Hw. inversion Hw. subst. apply lookup_hit in Hl'.
      destruct Hl' as [k [Hin _]]. eauto. }
    destruct (to_tree E names e1) as [w1|] eqn:Hw1; cbn [bind]; [|discriminate].
    destruct (to_tree E names e2) as [w2|] eqn:Hw2; cbn [bind]; [|discriminate].
    destruct (substitute names (Prim (symbol_token E))) as [w3|] eqn:Hw3;
      cbn [bind]; [|discriminate].
    intro Hw. inversion Hw. subst. rewrite wire_op_tree. cbn [forallb].
    now rewrite (IHe1 w1 H1 eq_refl), (IHe2 w2 H2 eq_refl),
      (substitute_wire names _ w3 Haliases Hw3).
  - intros Hexpr.
    destruct (mapM (to_tree E names) l) as [ws|] eqn:Hws; cbn [bind]; [|discriminate].
    intro Hw. inversion Hw. subst. rewrite wire_op_tree.
    now apply (to_tree_all_wire names l ws).
Qed.

(** X3: the tag ['slice'] is decoded without the engine: the mapping
    decodes exactly when it has three arguments that decode, and then to
    the [_slice] of the three, never to a built-in slice.  Without names a
    [_slice] and the built-in slice of its bounds are encoded alike. *)
Theorem from_tree_slice (ns : dict) (args : list pyval) (r : pyval) :
  (from_tree E ns (op_tree "slice" args) = Ok r <->
   exists a b c a' b' c',
     args = [a; b; c] /\
     from_tree E ns a = Ok a' /\ from_tree E ns b = Ok b' /\
     from_tree E ns c = Ok c' /\ r = P_slice a' b' c') /\
  (forall a b c, to_tree E [] (P_slice a b c) = to_tree E [] (PySlice a b c)).
Proof.
  split; [|intros a b c; now rewrite to_tree_P_slice].
  rewrite from_tree_op_tree.
  change (String.eqb "slice" "slice") with true. cbv iota. split.
  - destruct (mapM (from_tree E ns) args) as [l|] eqn:Hl; cbn [bind]; [|discriminate].
    apply mapM_Ok_Forall2 in Hl.
    destruct l as [|a' [|b' [|c' [|d' l]]]]; try discriminate.
    intro H. inversion H. subst r.
    inversion Hl as [|a ? args1 ? Ha Hl1]. subst.
    inversion Hl1 as [|b ? args2 ? Hb Hl2]. subst.
    inversion Hl2 as [|c ? args3 ? Hc Hl3]. subst.
    inversion Hl3. subst.
    exists a, b, c, a', b', c'. repeat split; assumption.
  - intros (a & b & c & a' & b' & c' & -> & Ha & Hb & Hc & ->).
    cbn [mapM bind]. rewrite Ha, Hb, Hc. reflexivity.
Qed.

(** X4: an [InteractiveSymbol] is encoded without its data, as the symbol
    of its name and shape, and the encoding decodes to that symbol in
    every namespace. *)
Theorem interactive_symbol_is_sent_as_symbol (name dshape : prim) (x : pyval)
  (ns : dict) :
  str_contains "Symbol" (cls_name (Symbol E)) = true ->
  class_of_op E (PStr (cls_name (Symbol E))) = Ok (Symbol E) ->
  construct E (Symbol E) [Prim name; Prim dshape; Prim (symbol_token E)] =
    Ok (symbol E (Prim name) (Prim dshape)) ->
  to_tree E [] (PInteractive (Prim name) (Prim dshape) x) =
    Ok (op_tree (cls_name (Symbol E))
          [Prim name; Prim dshape; Prim (symbol_token E)]) /\
  from_tree E ns
    (op_tree (cls_name (Symbol E))
       [Prim name; Prim dshape; Prim (symbol_token E)]) =
    Ok (symbol E (Prim name) (Prim dshape)).
Proof.
  intros Hsym Hcls Hbuild. split; [reflexivity|].
  rewrite from_tree_op_tree.
  destruct (String.eqb "slice" (cls_name (Symbol E))) eqn:Hslice.
  - apply String.eqb_eq in Hslice. rewrite <- Hslice in Hsym. discriminate.
  - rewrite Hcls, Hsym. cbn [bind mapM from_tree substitute lookup]. exact Hbuild.
Qed.

(** X5: a mapping whose tag is bound nowhere is not decoded: [from_tree]
    raises the [ValueError] that names the tag, whatever the arguments
    are. *)
Theorem from_tree_unknown_tag (ns : dict) (d : list (pyval * pyval))
  (tag : string) (args : pyval) :
  dict_get d (PStr "op") = Some (PStr tag) ->
  dict_get d (PStr "args") = Some args ->
  tag <> "slice" ->
  blaze_attr E tag = None ->
  blaze_expr_attr E tag = None ->
  Forall (first_is_not tag) (compute_up_funcs E) ->
  from_tree E ns (PDict d) = Raise (ValueError (tag ++ " not found in compute_up")).
Proof.
  intros Hop Hargs Hslice Htop Hexpr Hsigs.
  rewrite from_tree_PDict. unfold dict_getitem. rewrite Hop, Hargs. cbn [bind].
  assert (Hne : pyval_eqb (PStr "slice") (PStr tag) = false).
  { apply pyval_eqb_Str_neq_l. unfold PStr. congruence. }
  rewrite Hne. unfold class_of_op, PStr, expression_from_name.
  rewrite Hexpr, Htop, (first_argument_named_none tag _ Hsigs). reflexivity.
Qed.

Lemma mapM_Raise_at {A B : Type} (f : A -> result B) (before after : list A)
  (x : A) (e : exn) :
  Forall (fun y => exists w, f y = Ok w) before ->
  f x = Raise e ->
  mapM f (before ++ x :: after) = Raise e.
Proof.
  intros Hbefore Hx. induction Hbefore as [|y before [w Hw] _ IH]; simpl.
  - now rewrite Hx.
  - now rewrite Hw, IH.
Qed.

(** X6: under a name table that is not empty, a node that has a [_slice]
    among its arguments is not encoded: [to_tree] raises the [TypeError]
    of hashing a built-in slice, unless the node or the [_slice] is itself
    a key of the table. *)
Theorem to_tree_names_slice (names : dict) (cls : pyclass)
  (before after : list pyval) (a b c : pyval) :
  names <> [] ->
  lookup names (PExpr cls (before ++ P_slice a b c :: after)) = Ok None ->
  Forall (fun x => exists w, to_tree E names x = Ok w) before ->
  lookup names (P_slice a b c) = Ok None ->
  to_tree E names (PExpr cls (before ++ P_slice a b c :: after)) =
    Raise (TypeError "unhashable type").
Proof.
  intros Hnames Hnode Hbefore Hslice.
  cbn [to_tree]. rewrite Hnode. cbn [bind].
  rewrite (mapM_Raise_at (to_tree E names) before after (P_slice a b c)
             (TypeError "unhashable type") Hbefore
             (to_tree_P_slice_names E names a b c Hnames Hslice)).
  reflexivity.
Qed.

(** X7: a class that [expression_from_name] takes from the registered
    signatures, because neither namespace has the name, is the first type
    of a signature and is called as asked. *)
Theorem expression_from_name_catalogue (name : string) (c : pyclass) :
  blaze_attr E name = None ->
  blaze_expr_attr E name = None ->
  expression_from_name E name = Ok c ->
  cls_name c = name /\ exists ts, In (c :: ts) (compute_up_funcs E).
Proof.
  intros Htop Hexpr. unfold expression_from_name. rewrite Htop, Hexpr.
  induction (compute_up_funcs E) as [|sig sigs IH]; simpl; [discriminate|].
  destruct sig as [|t ts]; [discriminate|].
  destruct (String.eqb (cls_name t) name) eqn:Hname.
  - intro H. inversion H. subst. apply String.eqb_eq in Hname.
    split; [assumption|]. exists ts. now left.
  - intro H. destruct (IH H) as [Hc [ts' Hin]].
    split; [assumption|]. exists ts'. now right.
Qed.

End MoreCodecProperties.

(** ** Requests *)

Section MoreHandlerProperties.

Variable E : Engine.

Lemma strip_prefix_Some (p s rest : string) :
  strip_prefix p s = Some rest -> s = (p ++ rest)%string.
Proof.
  revert s. induction p as [|a p IH]; intros s; simpl.
  - intro H. now inversion H.
  - destruct s as [|b s]; [discriminate|].
    destruct (Ascii.eqb a b) eqn:Hab; [|discriminate].
    apply Ascii.eqb_eq in Hab. subst b. intro H. now rewrite (IH s H).
Qed.

Lemma strip_prefix_app (p s : string) : strip_prefix p (p ++ s) = Some s.
Proof.
  induction p as [|a p IH]; simpl; [reflexivity|].
  now rewrite Ascii.eqb_refl.
Qed.

Lemma first_alternative_Some (alts : list string) (rest a : string) :
  first_alternative alts rest = Some a ->
  In a alts /\ (rest = a \/ rest = (a ++ newline)%string).
Proof.
  induction alts as [|b alts IH]; simpl; [discriminate|].
  destruct (String.eqb rest b || String.eqb rest (b ++ newline)) eqn:Hb.
  - intro H. inversion H. subst b. split; [now left|].
    apply Bool.orb_true_iff in Hb. destruct Hb as [Hb|Hb];
      apply String.eqb_eq in Hb; auto.
  - intro H. destruct (IH H) as [Hin Hrest]. split; [now right | assumption].
Qed.

Lemma first_alternative_None (alts : list string) (rest : string) :
  (forall a, In a alts -> rest <> a /\ rest <> (a ++ newline)%string) ->
  first_alternative alts rest = None.
Proof.
  induction alts as [|b alts IH]; simpl; intro H; [reflexivity|].
  destruct (H b (or_introl eq_refl)) as [H1 H2].
  apply String.eqb_neq in H1, H2. rewrite H1, H2. simpl.
  apply IH. intros a Ha. apply H. now right.
Qed.

(** X8: [check_request] calls the view only with the payload that the
    format decodes from the body, for a format that the server has
    registered under a name of [all_formats], the name that the content
    type ends with (before a newline, if any). *)
Theorem negotiate_calls_the_view (S : server) (req : request)
  (payload : pyval) (serial : format) :
  negotiate E S req = Ok (inr (payload, serial)) ->
  exists content_type name,
    header (headers req) "content-type" = Ok content_type /\
    In name (pattern_names E) /\
    (content_type = ("application/vnd.blaze+" ++ name)%string \/
     content_type = ("application/vnd.blaze+" ++ name ++ newline)%string) /\
    _get_format (formats S) name = Ok serial /\
    loads serial (req_data req) = Ok payload.
Proof.
  unfold negotiate, mimetype_regex.
  destruct (header (headers req) "content-type") as [ct|] eqn:Hct;
    cbn [bind]; [|discriminate].
  destruct (strip_prefix "application/vnd.blaze+" ct) as [rest|] eqn:Hrest;
    [|discriminate].
  fold (pattern_names E).
  destruct (first_alternative (pattern_names E) rest) as [name|] eqn:Hname;
    [|discriminate].
  destruct (_get_format (formats S) name) as [serial'|e] eqn:Hformat.
  - destruct (loads serial' (req_data req)) as [payload'|e] eqn:Hloads.
    + intro H. inversion H. subst.
      apply strip_prefix_Some in Hrest.
      apply first_alternative_Some in Hname. destruct Hname as [Hin Hname].
      exists ct, name. repeat split; try assumption.
      destruct Hname as [-> | ->]; [now left | now right].
    + destruct (isinstance_exn e "ValueError"); discriminate.
  - destruct (isinstance_exn e "KeyError"); discriminate.
Qed.

(** X9: a format whose name is not among [all_formats] cannot be asked
    for, also when the server has registered it: the content type that
    names it is answered 415. *)
Theorem unlisted_format_is_refused (S : server)
  (f : pyval -> format -> result response) (req : request) (name : string) :
  header (headers req) "content-type" = Ok ("application/vnd.blaze+" ++ name)%string ->
  (forall a, In a (pattern_names E) -> name <> a /\ name <> (a ++ newline)%string) ->
  check_request E S f req =
    Ok (reply ("Unsupported serialization format application/vnd.blaze+" ++ name) 415).
Proof.
  intros Hheader Hname. unfold check_request, negotiate, mimetype_regex.
  rewrite Hheader. cbn [bind]. rewrite strip_prefix_app.
  fold (pattern_names E). rewrite (first_alternative_None _ _ Hname).
  reflexivity.
Qed.

(** X10: a request whose credentials the server rejects is answered 401
    with a [WWW-Authenticate] header on each of the three routes, before
    anything of the request is looked at, and [/add] leaves the server as
    it is. *)
Theorem rejected_credentials (S : server) (req : request) :
  auth S (authorization_header req) = false ->
  compute_route E S req = Ok unauthorized /\
  add_route E S req = (S, Ok unauthorized) /\
  datashape_route E S req = Ok unauthorized /\
  status unauthorized = 401%Z /\
  In "WWW-Authenticate" (map fst (resp_headers unauthorized)).
Proof.
  intro Hauth.
  unfold compute_route, add_route, datashape_route, authorization.
  rewrite Hauth. repeat split. now left.
Qed.

Lemma from_tree_with_write_profile (write : pyval -> pyval -> result unit)
  (ns : dict) (e : pyval) :
  from_tree (with_write_profile E write) ns e = from_tree E ns e.
Proof. reflexivity. Qed.

(** X11: on a server that does not allow the profiler, and on one whose
    profiler output is [':response'], [compserver] writes no profile to a
    file: its answer is the same however such a file would be written. *)
Theorem compserver_writes_no_file (S : server) (payload : pyval)
  (serial : format) (write : pyval -> pyval -> result unit) :
  allow_profiler S = false \/ default_profiler_output S = PStr ":response" ->
  compserver (with_write_profile E write) S payload serial =
  compserver E S payload serial.
Proof.
  intro Hserver. destruct payload as [| | |p| | | |]; try reflexivity.
  unfold compserver.
  destruct (profile_setup S p) as [refusal|] eqn:Hsetup; [reflexivity|].
  change (decode_expr (with_write_profile E write) S p) with (decode_expr E S p).
  destruct (decode_expr E S p) as [expr|]; cbn [bind]; [|reflexivity].
  change (leaves (with_write_profile E write) expr) with (leaves E expr).
  destruct (leaves E expr) as [[|leaf [|leaf' ls]]|]; cbn [bind]; try reflexivity.
  change (execute (with_write_profile E write) S serial p expr leaf)
    with (execute E S serial p expr leaf).
  destruct (execute E S serial p expr leaf) as [computed|]; [|reflexivity].
  unfold respond.
  change (dshape_of (with_write_profile E write)) with (dshape_of E).
  change (pprint (with_write_profile E write)) with (pprint E).
  change (fields_of (with_write_profile E write)) with (fields_of E).
  change (profile_stats (with_write_profile E write)) with (profile_stats E).
  change (write_profile (with_write_profile E write)) with write.
  destruct (dshape_of E expr) as [ds|]; cbn [bind]; [|reflexivity].
  destruct (pprint E ds) as [text|]; cbn [bind]; [|reflexivity].
  destruct (data_dumps serial computed) as [dumped|]; cbn [bind]; [|reflexivity].
  destruct (fields_of E expr) as [names|]; cbn [bind]; [|reflexivity].
  destruct (profiling S p) eqn:Hprofiling; [|reflexivity].
  destruct (pyval_eqb (requested_profiler_output S p) (PStr ":response"))
    eqn:Hrequested; [reflexivity|].
  exfalso. destruct Hserver as [Hallow | Hdefault].
  - unfold profiling in Hprofiling. rewrite Hallow in Hprofiling. discriminate.
  - unfold profile_setup in Hsetup.
    rewrite Hprofiling, Hdefault, Hrequested, pyval_eqb_refl in Hsetup.
    destruct (truthy (get p "profile" PNone) && negb (allow_profiler S));
      discriminate.
Qed.

(** X12: on a server that allows the profiler and profiles by default, a
    request is profiled whatever it sets ['profile'] to, also to false,
    when the output it asks for, or else the server's, is truthy. *)
Theorem profile_by_default_overrides (S : server) (p : dict) (v : pyval) :
  allow_profiler S = true ->
  profile_by_default S = true ->
  truthy (requested_profiler_output S p) = true ->
  profiling S (dict_set p (PStr "profile") v) = true.
Proof.
  intros Hallow Hdefault Hrequested.
  unfold profiling, requested_profiler_output in *.
  rewrite Hallow, Hdefault.
  rewrite (get_set_other p "profile" "profiler_output") by discriminate.
  rewrite Hrequested. now rewrite Bool.orb_true_r.
Qed.

Lemma get_set_unread (p : dict) (k v : pyval) (key : string) (default : pyval) :
  k <> PStr key -> get (dict_set p k v) key default = get p key default.
Proof.
  intro Hne. unfold get. rewrite dict_get_set_other; [reflexivity|].
  now apply pyval_eqb_Str_neq.
Qed.

(** X13: [compserver] reads six keys of the payload, and what the payload
    holds under any other key makes no difference to its answer. *)
Theorem compserver_reads_six_keys (S : server) (p : dict) (k v : pyval)
  (serial : format) :
  k <> PStr "expr" -> k <> PStr "namespace" ->
  k <> PStr "profile" -> k <> PStr "profiler_output" ->
  k <> PStr "compute_kwargs" -> k <> PStr "odo_kwargs" ->
  compserver E S (PDict (dict_set p k v)) serial =
  compserver E S (PDict p) serial.
Proof.
  intros Hexpr Hns Hprofile Houtput Hcompute Hodo.
  unfold compserver, profile_setup, profiling, requested_profiler_output,
    decode_expr, leaf_namespace, execute, respond, profiling,
    requested_profiler_output, dict_getitem.
  rewrite !(get_set_unread p k v "profile") by assumption.
  rewrite !(get_set_unread p k v "profiler_output") by assumption.
  rewrite !(get_set_unread p k v "namespace") by assumption.
  rewrite !(get_set_unread p k v "compute_kwargs") by assumption.
  rewrite !(get_set_unread p k v "odo_kwargs") by assumption.
  rewrite (dict_get_set_other p k (PStr "expr") v (pyval_eqb_Str_neq k "expr" Hexpr)).
  reflexivity.
Qed.

(** ** The registry *)

(** Keys that are [==] are one key. *)
Lemma dict_get_congr (d : dict) (k k' : pyval) :
  pyval_eqb k k' = true -> dict_get d k = dict_get d k'.
Proof.
  intro Hk. induction d as [|[k0 v0] d IH]; simpl; [reflexivity|].
  rewrite (pyval_eqb_sym k0 k), (pyval_eqb_congr k k' k0 Hk), (pyval_eqb_sym k' k0).
  now rewrite IH.
Qed.

Lemma dict_get_set_keeps (d : dict) (k v k' : pyval) :
  dict_get d k' <> None -> dict_get (dict_set d k v) k' <> None.
Proof.
  intro Hin. destruct (pyval_eqb k k') eqn:Hk.
  - rewrite <- (dict_get_congr _ k k' Hk), dict_get_set_same. discriminate.
  - now rewrite dict_get_set_other.
Qed.

Lemma dict_update_keeps (o d : dict) (k : pyval) :
  dict_get d k <> None -> dict_get (dict_update d o) k <> None.
Proof.
  unfold dict_update. revert d.
  induction o as [|[k0 v0] o IH]; intros d Hin; simpl; [assumption|].
  apply IH. now apply dict_get_set_keeps.
Qed.

Lemma dict_set_present (d : dict) (k v : pyval) :
  dict_get d k = Some v -> dict_set d k v = d.
Proof.
  induction d as [|[k' v'] d IH]; simpl; [discriminate|].
  destruct (pyval_eqb k' k) eqn:Hk.
  - intro H. now inversion H.
  - intro H. now rewrite IH.
Qed.

Lemma dict_update_present (o d : dict) :
  (forall k v, In (k, v) o -> dict_get d k = Some v) -> dict_update d o = d.
Proof.
  unfold dict_update.
  induction o as [|[k0 v0] o IH]; intro Hall; simpl; [reflexivity|].
  rewrite (dict_set_present d k0 v0) by (apply Hall; now left).
  apply IH. intros k v Hin. apply Hall. now right.
Qed.

Lemma with_data_data (S : server) : with_data S (data S) = S.
Proof. destruct S. reflexivity. Qed.

(** X14: [/add] removes nothing: every name the server hosts before the
    call it hosts after it, whatever the payload and the answer are. *)
Theorem addserver_keeps_names (S S' : server) (payload : pyval)
  (serial : format) (answer : result response) (registry : dict) :
  data S = PDict registry ->
  addserver E S payload serial = (S', answer) ->
  exists registry',
    data S' = PDict registry' /\
    forall k, dict_get registry k <> None -> dict_get registry' k <> None.
Proof.
  intros Hdata. unfold addserver. rewrite Hdata.
  destruct payload as [| | |p| | | |];
    try (intro H; inversion H; subst; exists registry; split; [assumption | auto]).
  destruct (valmap (resource E) p) as [resolved|];
    intro H; inversion H; subst.
  - exists (dict_update registry resolved). split; [reflexivity|].
    intros k. apply dict_update_keeps.
  - exists registry. split; [assumption | auto].
Qed.

(** X15: [/add] changes nothing of the server but the hosted data, and
    that only when it answers ['OK']. *)
Theorem add_route_changes_the_data_only (S : server) (req : request) :
  formats (fst (add_route E S req)) = formats S /\
  allow_profiler (fst (add_route E S req)) = allow_profiler S /\
  default_profiler_output (fst (add_route E S req)) = default_profiler_output S /\
  profile_by_default (fst (add_route E S req)) = profile_by_default S /\
  (forall credentials, auth (fst (add_route E S req)) credentials = auth S credentials) /\
  (fst (add_route E S req) = S \/
   snd (add_route E S req) = Ok (reply_ok (PStr "OK"))).
Proof.
  unfold add_route.
  destruct (auth S (authorization_header req)); [|simpl; tauto].
  destruct (negotiate E S req) as [[answer|[payload serial]]|]; try (simpl; tauto).
  unfold addserver.
  destruct (data S) as [| | |registry| | | |]; try (simpl; tauto).
  destruct payload as [| | |p| | | |]; try (simpl; tauto).
  destruct (valmap (resource E) p); simpl; tauto.
Qed.

(** X16: posting a payload to [/add] a second time changes nothing more:
    the server is as the first call left it and the answer is the same.
    The names of a payload are [distinct], as the keys of a dict are. *)
Theorem addserver_twice (S S' : server) (p : dict) (serial : format)
  (answer : response) :
  distinct (map fst p) ->
  addserver E S (PDict p) serial = (S', Ok answer) ->
  addserver E S' (PDict p) serial = (S', Ok answer).
Proof.
  intros Hnodup. unfold addserver.
  destruct (data S) as [| | |registry| | | |] eqn:Hdata;
    try (intro H; inversion H; subst; rewrite Hdata; reflexivity).
  destruct (valmap (resource E) p) as [resolved|] eqn:Hresolved; [|discriminate].
  intro H. inversion H. subst. unfold with_data. cbn.
  rewrite (dict_update_present resolved (dict_update registry resolved)).
  - reflexivity.
  - intros k v Hin. apply dict_update_In; [|assumption].
    now rewrite (valmap_keys _ _ _ Hresolved).
Qed.

End MoreHandlerProperties.

(** ** Registration *)

Section RegistrationProperties.

Variable makedirs : pyval -> result unit.
Variable errno : exn -> Z.
Variable Blueprint_register : nat -> result unit.

Lemma cache_get_set_same {A : Type} (c : list (nat * A)) (app : nat) (v : A) :
  cache_get (cache_set c app v) app = Ok v.
Proof.
  induction c as [|[a w] c IH]; simpl.
  - now rewrite Nat.eqb_refl.
  - destruct (Nat.eqb a app) eqn:Ha; simpl; rewrite Ha; [reflexivity | exact IH].
Qed.

Lemma cache_get_set_other {A : Type} (c : list (nat * A)) (app app' : nat) (v : A) :
  app' <> app -> cache_get (cache_set c app v) app' = cache_get c app'.
Proof.
  intro Hne. induction c as [|[a w] c IH]; simpl.
  - apply Nat.eqb_neq in Hne. rewrite Nat.eqb_sym in Hne. now rewrite Hne.
  - destruct (Nat.eqb a app) eqn:Ha; simpl.
    + apply Nat.eqb_eq in Ha. subst a.
      apply Nat.eqb_neq in Hne. rewrite Nat.eqb_sym in Hne. now rewrite Hne.
    + now rewrite IH.
Qed.

Lemma _get_option_default {A : Type} (name : string) (value : option A) (d : A) :
  _get_option name value (Some d) =
    Ok (match value with Some v => v | None => d end).
Proof. destruct value; reflexivity. Qed.

Lemma profiler_info_Ok (opts : options) (info : bool * pyval * bool) :
  profiler_info makedirs errno opts = Ok info ->
  (fst (fst info) = false ->
   truthy (snd (fst info)) = false /\ snd info = false) /\
  (fst (fst info) = true -> snd (fst info) <> PNone).
Proof.
  unfold profiler_info. rewrite !_get_option_default. cbn [bind].
  generalize (match opt_allow_profiler opts with Some v => v | None => false end).
  generalize (match opt_profiler_output opts with Some v => v | None => PNone end).
  generalize (match opt_profile_by_default opts with Some v => v | None => false end).
  intros by_default output allow.
  destruct allow; cbn [negb andb].
  - destruct (pyval_eqb output PNone) eqn:Hnone.
    + change (pyval_eqb (PStr "profiler_output") (PStr ":response")) with false.
      cbv iota.
      destruct (ensure_dir makedirs errno (PStr "profiler_output"));
        cbn [bind]; [|discriminate].
      intro H. inversion H. subst. cbn [fst snd].
      split; [discriminate | intros _; discriminate].
    + destruct (pyval_eqb output (PStr ":response")); cbn [bind].
      * intro H. inversion H. subst. cbn [fst snd].
        split; [discriminate | intros _; now apply pyval_eqb_false_neq].
      * destruct (ensure_dir makedirs errno output); cbn [bind]; [|discriminate].
        intro H. inversion H. subst. cbn [fst snd].
        split; [discriminate | intros _; now apply pyval_eqb_false_neq].
  - destruct (truthy output || by_default) eqn:Hset; [discriminate|].
    intro H. inversion H. subst. cbn [fst snd].
    apply Bool.orb_false_iff in Hset. split; [auto | discriminate].
Qed.

(** X17: when [_register_api] returns, the views of the application find
    the data and the formats of the options, by name, and a profiler triple
    that is consistent: without [allow_profiler] there is no output and no
    profiling by default, and with it the output is never [None]. *)
Theorem registered_server (cs cs' : caches) (app : nat) (opts : options) :
  _register_api makedirs errno Blueprint_register cs app opts = (cs', Ok tt) ->
  exists S d fs,
    opt_data opts = Some d /\ opt_formats opts = Some fs /\
    registered cs' app = Ok S /\
    data S = d /\ formats S = formats_by_name fs /\
    (allow_profiler S = false ->
     truthy (default_profiler_output S) = false /\ profile_by_default S = false) /\
    (allow_profiler S = true -> default_profiler_output S <> PNone).
Proof.
  unfold _register_api.
  destruct (opt_data opts) as [d|]; cbn [_get_option]; [|discriminate].
  destruct (opt_formats opts) as [fs|]; cbn [_get_option]; [|discriminate].
  rewrite _get_option_default.
  destruct (profiler_info makedirs errno opts) as [info|] eqn:Hinfo; [|discriminate].
  intro H. inversion H as [[Hcs Hregister]]. clear H.
  unfold registered. cbn [data_cache format_cache auth_cache profiler_info_cache].
  rewrite !cache_get_set_same. cbn [bind].
  eexists. exists d, fs. do 5 (split; [reflexivity|]).
  exact (profiler_info_Ok opts info Hinfo).
Qed.

(** X18: [_register_api] wants the options ['data'] and ['formats'], in
    this order, and raises the [TypeError] that names the missing one;
    every other option may be left out, and then every credential is
    accepted, the profiler is off and no directory is made. *)
Theorem required_options (cs : caches) (app : nat) (opts : options) :
  (opt_data opts = None ->
   _register_api makedirs errno Blueprint_register cs app opts =
     (cs, Raise (TypeError "The blaze api must be registered with data"))) /\
  (forall d, opt_data opts = Some d -> opt_formats opts = None ->
   snd (_register_api makedirs errno Blueprint_register cs app opts) =
     Raise (TypeError "The blaze api must be registered with formats")) /\
  (forall d fs,
     opt_data opts = Some d -> opt_formats opts = Some fs ->
     opt_authorization opts = None -> opt_allow_profiler opts = None ->
     opt_profiler_output opts = None -> opt_profile_by_default opts = None ->
     snd (_register_api makedirs errno Blueprint_register cs app opts) =
       Blueprint_register app /\
     registered (fst (_register_api makedirs errno Blueprint_register cs app opts)) app =
       Ok (mkServer d (formats_by_name fs) (fun _ => true) false PNone false)).
Proof.
  unfold _register_api, profiler_info. split; [|split].
  - intro Hdata. now rewrite Hdata.
  - intros d Hdata Hformats. now rewrite Hdata, Hformats.
  - intros d fs Hdata Hformats Hauth Hallow Houtput Hdefault.
    rewrite Hdata, Hformats, Hauth, Hallow, Houtput, Hdefault.
    split; [reflexivity|]. cbn.
    unfold registered. cbn [data_cache format_cache auth_cache profiler_info_cache].
    rewrite !cache_get_set_same. reflexivity.
Qed.

(** X19: registering an application changes nothing of what the views of
    another application read, whether the registration succeeds or not. *)
Theorem registration_of_another_app (cs : caches) (app app' : nat) (opts : options) :
  app' <> app ->
  registered (fst (_register_api makedirs errno Blueprint_register cs app opts)) app' =
  registered cs app'.
Proof.
  intro Hne. unfold _register_api.
  destruct (_get_option "data" (opt_data opts) None) as [d|]; [|reflexivity].
  destruct (_get_option "formats" (opt_formats opts) None) as [fs|];
    [|unfold registered; cbn [fst data_cache format_cache auth_cache
        profiler_info_cache]; now rewrite cache_get_set_other].
  destruct (_get_option "authorization" (opt_authorization opts) (Some None)) as [a|];
    [|unfold registered; cbn [fst data_cache format_cache auth_cache
        profiler_info_cache]; now rewrite !cache_get_set_other].
  destruct (profiler_info makedirs errno opts) as [info|];
    unfold registered; cbn [fst data_cache format_cache auth_cache
      profiler_info_cache]; now rewrite !cache_get_set_other.
Qed.

Lemma _get_format_set_same (fs : list (string * format)) (f : format) :
  _get_format (format_set fs f) (fmt_name f) = Ok f.
Proof.
  induction fs as [|[n g] fs IH]; simpl.
  - now rewrite String.eqb_refl.
  - destruct (String.eqb n (fmt_name f)) eqn:Hn; simpl; rewrite Hn;
      [reflexivity | exact IH].
Qed.

Lemma _get_format_set_other (fs : list (string * format)) (f : format)
  (name : string) :
  fmt_name f <> name ->
  _get_format (format_set fs f) name = _get_format fs name.
Proof.
  intro Hne. induction fs as [|[n g] fs IH]; simpl.
  - apply String.eqb_neq in Hne. now rewrite Hne.
  - destruct (String.eqb n (fmt_name f)) eqn:Hn; simpl.
    + apply String.eqb_eq in Hn. subst n.
      apply String.eqb_neq in Hne. now rewrite Hne.
    + now rewrite IH.
Qed.

Lemma _get_format_fold_others (l : list format) (fs : list (string * format))
  (name : string) :
  Forall (fun g => fmt_name g <> name) l ->
  _get_format (fold_left format_set l fs) name = _get_format fs name.
Proof.
  intro Hall. revert fs. induction Hall as [|g l Hg _ IH]; intro fs; simpl;
    [reflexivity|].
  rewrite IH. now apply _get_format_set_other.
Qed.

(** X20: the formats are found by name, and of two formats of one name
    the later one of the option is found; a name that no format has is not
    found. *)
Theorem last_format_of_a_name (before after : list format) (f : format)
  (name : string) :
  (Forall (fun g => fmt_name g <> fmt_name f) after ->
   _get_format (formats_by_name (before ++ f :: after)) (fmt_name f) = Ok f) /\
  (Forall (fun g => fmt_name g <> name) (before ++ f :: after) ->
   _get_format (formats_by_name (before ++ f :: after)) name = Raise (KeyError name)).
Proof.
  unfold formats_by_name. split.
  - intro Hafter. rewrite fold_left_app. simpl.
    rewrite (_get_format_fold_others after _ _ Hafter).
    apply _get_format_set_same.
  - intro Hall. now rewrite (_get_format_fold_others _ [] name Hall).
Qed.

(** X21: a profiler output or profiling by default without
    [allow_profiler] is refused: [_register_api] raises the [ValueError]
    that names what was set, and stores no profiler triple. *)
Theorem profiler_options_need_allow_profiler (cs : caches) (app : nat)
  (opts : options) (d : pyval) (fs : list format) (output : pyval)
  (by_default : bool) :
  opt_data opts = Some d -> opt_formats opts = Some fs ->
  _get_option "allow_profiler" (opt_allow_profiler opts) (Some false) = Ok false ->
  _get_option "profiler_output" (opt_profiler_output opts) (Some PNone) = Ok output ->
  _get_option "profile_by_default" (opt_profile_by_default opts) (Some false) =
    Ok by_default ->
  truthy output || by_default = true ->
  snd (_register_api makedirs errno Blueprint_register cs app opts) =
    Raise (ValueError (profiler_options_message output by_default)) /\
  profiler_info_cache (fst (_register_api makedirs errno Blueprint_register cs app opts)) =
    profiler_info_cache cs.
Proof.
  intros Hdata Hformats Hallow Houtput Hdefault Hset.
  unfold _register_api, profiler_info.
  rewrite Hdata, Hformats, Hallow, Houtput, Hdefault. cbn [_get_option bind negb andb].
  rewrite _get_option_default, Hset. split; reflexivity.
Qed.

(** X22: without [allow_profiler], and with the profiler output
    [':response'], registration makes no directory: it goes the same way
    whatever [os.makedirs] would do. *)
Theorem response_output_makes_no_directory (cs : caches) (app : nat)
  (opts : options) (makedirs' : pyval -> result unit) (errno' : exn -> Z) :
  _get_option "allow_profiler" (opt_allow_profiler opts) (Some false) = Ok false \/
  opt_profiler_output opts = Some (PStr ":response") ->
  _register_api makedirs errno Blueprint_register cs app opts =
  _register_api makedirs' errno' Blueprint_register cs app opts.
Proof.
  intro Hopts.
  assert (Hinfo : profiler_info makedirs errno opts = profiler_info makedirs' errno' opts).
  { unfold profiler_info. destruct Hopts as [Hallow | Houtput].
    - rewrite Hallow. cbn [bind negb andb]. reflexivity.
    - rewrite Houtput. cbn [_get_option bind]. reflexivity. }
  unfold _register_api. now rewrite Hinfo.
Qed.

(** X23: a server made without data hosts an empty dict, so that [/add]
    on it merges every payload whose values resolve and answers ['OK']. *)
Theorem server_without_data_accepts_add (E : Engine) (json : format)
  (cs : caches) (app : nat) (formats : option (list format))
  (authorization : option (pyval -> bool)) :
  Blueprint_register app = Ok tt ->
  exists cs' S,
    Server_init makedirs errno Blueprint_register json cs app None formats
      authorization false PNone false = (cs', Ok tt) /\
    registered cs' app = Ok S /\
    data S = PDict [] /\
    forall (p resolved : dict) (serial : format),
      valmap (resource E) p = Ok resolved ->
      addserver E S (PDict p) serial =
        (with_data S (PDict (dict_update [] resolved)), Ok (reply_ok (PStr "OK"))).
Proof.
  intro Hregister. unfold Server_init, _register_api, profiler_info.
  cbn [_get_option opt_data opt_formats opt_authorization opt_allow_profiler
       opt_profiler_output opt_profile_by_default bind negb andb orb truthy PNone].
  rewrite Hregister. eexists. eexists. split; [reflexivity|].
  unfold registered. cbn [data_cache format_cache auth_cache profiler_info_cache].
  rewrite !cache_get_set_same. cbn [bind]. split; [reflexivity|].
  split; [reflexivity|].
  intros p resolved serial Hresolved. unfold addserver. cbn [data].
  now rewrite Hresolved.
Qed.

End RegistrationProperties.

(** ** The server object *)

Section RunProperties.

Variable app_run : Z -> result unit.
Variable socket_error : string.

(** X24: with [retry], [run] serves on the first port from [port] on that
    is not busy, and [self.port] is that port, when the interpreter
    allows that many calls; without [retry], and for any other exception,
    the exception of the first attempt leaves [run]. *)
Theorem run_serves_on_the_first_free_port (depth k : nat) (self_port : option Z)
  (port : Z) :
  ((forall i, (i < k)%nat ->
      exists e, app_run (port + Z.of_nat i) = Raise e /\
                isinstance_exn e socket_error = true) ->
   app_run (port + Z.of_nat k) = Ok tt ->
   (k < depth)%nat ->
   run app_run socket_error depth self_port port true =
     (Some (port + Z.of_nat k)%Z, Ok tt)) /\
  (forall e retry,
     app_run port = Raise e ->
     retry = false \/ isinstance_exn e socket_error = false ->
     run app_run socket_error (S depth) self_port port retry = (Some port, Raise e)).
Proof.
  split.
  - revert depth self_port port.
    induction k as [|k IH]; intros depth self_port port Hbusy Hfree Hdepth.
    + destruct depth as [|depth]; [lia|]. simpl.
      rewrite Z.add_0_r in Hfree. rewrite Hfree. now rewrite Z.add_0_r.
    + destruct depth as [|depth]; [lia|]. simpl.
      destruct (Hbusy 0%nat ltac:(lia)) as [e [He Hsocket]].
      rewrite Z.add_0_r in He. rewrite He, Hsocket.
      rewrite (IH depth (Some port) (port + 1)%Z).
      * f_equal. f_equal. lia.
      * intros i Hi. destruct (Hbusy (S i) ltac:(lia)) as [e' [He' Hsocket']].
        exists e'. split; [|assumption].
        rewrite <- He'. f_equal. lia.
      * rewrite <- Hfree. f_equal. lia.
      * lia.
  - intros e retry He Hcase. simpl. rewrite He.
    destruct Hcase as [-> | ->]; [|reflexivity].
    destruct (isinstance_exn e socket_error); reflexivity.
Qed.

End RunProperties.

(** ** The spider *)

Lemma basename_no_slash (x : string) : has_slash x = false -> basename x = x.
Proof.
  destruct x as [|c x]; simpl; [reflexivity|].
  intro H. apply Bool.orb_false_iff in H. destruct H as [Hc Hx].
  now rewrite Hx, Hc.
Qed.

Lemma has_slash_app (a x : string) : has_slash (a ++ String "/" x) = true.
Proof.
  induction a as [|c a IH]; simpl; [reflexivity|].
  rewrite IH. apply Bool.orb_true_r.
Qed.

Lemma basename_app_slash (a x : string) :
  has_slash x = false -> basename (a ++ String "/" x) = x.
Proof.
  intro Hx. induction a as [|c a IH]; simpl.
  - now rewrite Hx.
  - now rewrite has_slash_app.
Qed.

Lemma ends_with_slash_app (a : string) :
  ends_with_slash a = true -> exists a', a = (a' ++ "/")%string.
Proof.
  induction a as [|c a IH]; [discriminate|].
  destruct a as [|c' a].
  - simpl. intro H. apply Ascii.eqb_eq in H. subst c. exists EmptyString. reflexivity.
  - intro H. destruct (IH H) as [a' Ha']. exists (String c a'). simpl. now rewrite <- Ha'.
Qed.

Lemma string_app_assoc (a b c : string) : ((a ++ b) ++ c = a ++ (b ++ c))%string.
Proof. induction a as [|x a IH]; simpl; [reflexivity | now rewrite IH]. Qed.

(** The name of a listed entry is the base name of its path. *)
Lemma basename_path_join (a x : string) :
  has_slash x = false -> basename (path_join a x) = x.
Proof.
  intro Hx. unfold path_join.
  destruct (String.prefix "/" x) eqn:Hprefix.
  - destruct x as [|c x]; [discriminate|].
    change (String.prefix "/" (String c x))
      with (if Ascii.ascii_dec "/" c then String.prefix "" x else false) in Hprefix.
    destruct (Ascii.ascii_dec "/" c) as [Heq|Hne]; [|discriminate].
    subst c. discriminate.
  - destruct (String.eqb a "") eqn:Ha.
    + apply String.eqb_eq in Ha. subst a. simpl. now apply basename_no_slash.
    + simpl. destruct (ends_with_slash a) eqn:Hends.
      * destruct (ends_with_slash_app a Hends) as [a' ->].
        rewrite string_app_assoc. now apply basename_app_slash.
      * now apply basename_app_slash.
Qed.

Lemma dict_set_In (d : dict) (k v k0 v0 : pyval) :
  In (k, v) (dict_set d k0 v0) ->
  (pyval_eqb k k0 = true /\ v = v0) \/ In (k, v) d.
Proof.
  induction d as [|[k' v'] d IH]; simpl.
  - intros [H|[]]. inversion H. left. split; [apply pyval_eqb_refl | reflexivity].
  - destruct (pyval_eqb k' k0) eqn:Hk; simpl.
    + intros [H|H]; [inversion H; subst; now left | right; now right].
    + intros [H|H]; [right; now left|].
      destruct (IH H) as [Hnew|Hold]; [now left | right; now right].
Qed.

Section SpiderProperties.

Variable resource_kw : pyval -> dict -> result pyval.
Variable ignore : list string.
Variable followlinks : bool.
Variable hidden : bool.
Variable extra_kwargs : pyval.

Local Abbreviation spider := (_spider resource_kw ignore followlinks hidden extra_kwargs).
Local Abbreviation each depth :=
  (spider_entries resource_kw ignore followlinks hidden extra_kwargs (spider depth)).
Local Abbreviation file := (load resource_kw extra_kwargs).
Local Abbreviation origin :=
  (comes_from resource_kw ignore followlinks hidden extra_kwargs).

Lemma spider_Directory (depth : nat) (path : string)
  (entries : list (string * bool * fsnode)) :
  spider (S depth) path (Directory entries) = each depth path entries [].
Proof. reflexivity. Qed.

Lemma spider_Regular (depth : nat) (path : string) :
  exists e, spider depth path Regular = Raise e.
Proof. destruct depth; eexists; reflexivity. Qed.

Lemma each_cons (depth : nat) (path x : string) (link : bool) (child : fsnode)
  (rest : list (string * bool * fsnode)) (resources : dict) :
  each depth path ((x, link, child) :: rest) resources =
    if skipped followlinks hidden (entry_key path x) link
    then each depth path rest resources
    else
      match child with
      | Regular =>
          match file (path_join path x) with
          | Ok loaded =>
              each depth path rest
                (dict_set resources (PStr (entry_key path x)) loaded)
          | Raise e =>
              if caught ignore e then each depth path rest resources else Raise e
          end
      | _ =>
          new_resources <- spider depth (path_join path x) child ;;
          if truthy (PDict new_resources) then
            each depth path rest
              (dict_set resources (PStr (entry_key path x)) (PDict new_resources))
          else each depth path rest resources
      end.
Proof. reflexivity. Qed.

Lemma each_sound (depth : nat) (path : string)
  (all entries : list (string * bool * fsnode)) (resources r : dict) :
  (forall entry, In entry entries -> In entry all) ->
  (forall k v, In (k, v) resources -> origin depth path all k v) ->
  each depth path entries resources = Ok r ->
  forall k v, In (k, v) r -> origin depth path all k v.
Proof.
  revert resources.
  induction entries as [|[[x link] child] rest IH]; intros resources Hincl Hres.
  - intro H. inversion H. subst. exact Hres.
  - rewrite each_cons.
    assert (Hrest : forall entry, In entry rest -> In entry all).
    { intros entry Hin. apply Hincl. now right. }
    assert (Hhere : In (x, link, child) all) by (apply Hincl; now left).
    destruct (skipped followlinks hidden (entry_key path x) link) eqn:Hskip;
      [now apply IH|].
    assert (Hdir :
      child <> Regular ->
      (new_resources <- spider depth (path_join path x) child ;;
       if truthy (PDict new_resources) then
         each depth path rest
           (dict_set resources (PStr (entry_key path x)) (PDict new_resources))
       else each depth path rest resources) = Ok r ->
      forall k v, In (k, v) r -> origin depth path all k v).
    { intro Hchild.
      destruct (spider depth (path_join path x) child) as [new|] eqn:Hnew;
        cbn [bind]; [|discriminate].
      destruct (truthy (PDict new)) eqn:Hnonempty; [|now apply IH].
      apply IH; [assumption|].
      intros k v Hin. apply dict_set_In in Hin.
      destruct Hin as [[Hk ->]|Hin]; [|now apply Hres].
      apply pyval_eqb_Str in Hk. subst k.
      exists x, link, child. repeat split; try assumption.
      assert (Hitem : exists new_resources,
                spider depth (path_join path x) child = Ok new_resources /\
                new_resources <> [] /\ PDict new = PDict new_resources).
      { exists new. repeat split; [assumption|]. intros ->. discriminate. }
      destruct child; [contradiction | exact Hitem | exact Hitem]. }
    destruct child as [|children|e].
    + destruct (file (path_join path x)) as [loaded|e] eqn:Hload.
      * apply IH; [assumption|].
        intros k v Hin. apply dict_set_In in Hin.
        destruct Hin as [[Hk ->]|Hin]; [|now apply Hres].
        apply pyval_eqb_Str in Hk. subst k.
        exists x, link, Regular. repeat split; assumption.
      * destruct (caught ignore e); [now apply IH | discriminate].
    + apply Hdir. discriminate.
    + apply Hdir. discriminate.
Qed.

(** X25: every item of what [_spider] returns is filed under the name of
    an entry of the listing: no hidden entry unless [hidden], no link
    unless [followlinks]; a file with what [resource] makes of its path, a
    directory with what [_spider] returns for it, which is never empty. *)
Theorem _spider_items (depth : nat) (path : string)
  (entries : list (string * bool * fsnode)) (r : dict) (k v : pyval) :
  Forall (fun entry => has_slash (fst (fst entry)) = false) entries ->
  spider (S depth) path (Directory entries) = Ok r ->
  In (k, v) r ->
  exists x link child,
    In (x, link, child) entries /\ k = PStr x /\
    (String.prefix "." x = true -> hidden = true) /\
    (link = true -> followlinks = true) /\
    match child with
    | Regular => file (path_join path x) = Ok v
    | _ =>
        exists new_resources,
          spider depth (path_join path x) child = Ok new_resources /\
          new_resources <> [] /\ v = PDict new_resources
    end.
Proof.
  intros Hnames Hspider Hin. rewrite spider_Directory in Hspider.
  destruct (each_sound depth path entries entries [] r (fun _ H => H)
              (fun _ _ H => match H with end) Hspider k v Hin)
    as (x & link & child & Hentry & Hk & Hskip & Hv).
  rewrite Forall_forall in Hnames.
  unfold entry_key in Hk, Hskip.
  rewrite (basename_path_join path x (Hnames _ Hentry)) in Hk, Hskip.
  exists x, link, child. split; [assumption|]. split; [assumption|].
  unfold skipped in Hskip. apply Bool.orb_false_iff in Hskip.
  destruct Hskip as [Hhidden Hlink].
  split; [|split; [|exact Hv]].
  - intro Hdot. rewrite Hdot in Hhidden. now destruct hidden.
  - intros ->. now destruct followlinks.
Qed.

Lemma each_total (depth : nat) (path : string)
  (entries : list (string * bool * fsnode)) (resources : dict) :
  (forall filename e, file filename = Raise e -> caught ignore e = true) ->
  Forall (fun entry =>
            snd entry = Regular \/
            forall path', exists r, spider depth path' (snd entry) = Ok r) entries ->
  exists r, each depth path entries resources = Ok r.
Proof.
  intros Hignored Hall. revert resources.
  induction Hall as [|[[x link] child] rest Hchild _ IH]; intro resources.
  - exists resources. reflexivity.
  - rewrite each_cons.
    destruct (skipped followlinks hidden (entry_key path x) link); [apply IH|].
    cbn [snd] in Hchild. destruct Hchild as [-> | Hchild].
    + destruct (file (path_join path x)) as [loaded|e] eqn:Hload; [apply IH|].
      rewrite (Hignored _ _ Hload). apply IH.
    + destruct (Hchild (path_join path x)) as [new Hnew].
      assert (Hdir : exists r,
                (new_resources <- spider depth (path_join path x) child ;;
                 if truthy (PDict new_resources) then
                   each depth path rest
                     (dict_set resources (PStr (entry_key path x))
                        (PDict new_resources))
                 else each depth path rest resources) = Ok r).
      { rewrite Hnew. cbn [bind]. destruct (truthy (PDict new)); apply IH. }
      destruct child as [|children|e]; [|exact Hdir|exact Hdir].
      destruct (spider_Regular depth (path_join path x)) as [e He].
      rewrite He in Hnew. discriminate.
Qed.

Lemma listable_entries (entries : list (string * bool * fsnode)) :
  listable (Directory entries) = true ->
  Forall (fun entry => listable (snd entry) = true) entries.
Proof.
  induction entries as [|[[x link] child] rest IH]; [constructor|].
  cbn [listable]. intro H. apply Bool.andb_true_iff in H. destruct H as [Hc Hr].
  constructor; [exact Hc | exact (IH Hr)].
Qed.

Lemma height_entries (entries : list (string * bool * fsnode)) (depth : nat) :
  height (Directory entries) <= S depth ->
  Forall (fun entry => height (snd entry) <= depth) entries.
Proof.
  induction entries as [|[[x link] child] rest IH]; [constructor|].
  cbn [height]. intro H. constructor; [cbn [snd]; lia|].
  apply IH. cbn [height]. lia.
Qed.

Lemma spider_total (node : fsnode) :
  (forall filename e, file filename = Raise e -> caught ignore e = true) ->
  forall depth path,
    listable node = true -> height node <= depth ->
    node = Regular \/ exists r, spider depth path node = Ok r.
Proof.
  intro Hignored.
  induction node as [|entries IH|e] using fsnode_ind; intros depth path Hlist Hheight.
  - now left.
  - right. destruct depth as [|depth]; [cbn [height] in Hheight; lia|].
    rewrite spider_Directory. apply each_total; [assumption|].
    pose proof (listable_entries entries Hlist) as Hlists.
    pose proof (height_entries entries depth Hheight) as Hheights.
    rewrite Forall_forall in *. intros entry Hin.
    destruct (snd entry) as [|children|e] eqn:Hchild; [now left| |].
    + right. intro path'.
      destruct (IH entry Hin depth path' (Hlists entry Hin) (Hheights entry Hin))
        as [Hreg|Hok].
      * rewrite Hchild in Hreg. discriminate.
      * rewrite Hchild in Hok. exact Hok.
    + pose proof (Hlists entry Hin) as Hfalse. rewrite Hchild in Hfalse.
      discriminate.
  - discriminate.
Qed.

(** X26: [_spider] returns, and leaves out the files that do not load,
    when [ignore] catches every exception that loading a file raises,
    every directory of the tree can be listed, and no more directories
    lie in one another than the interpreter allows calls.  What
    [os.listdir] raises is not ignored: a directory that cannot be listed
    and is not passed over makes [_spider] raise that exception, whatever
    [ignore] holds. *)
Theorem _spider_ignores (depth : nat) (path : string)
  (entries : list (string * bool * fsnode)) :
  ((forall filename e, file filename = Raise e -> caught ignore e = true) ->
   listable (Directory entries) = true ->
   height (Directory entries) <= depth ->
   exists r, spider depth path (Directory entries) = Ok r) /\
  (forall x link e,
     skipped followlinks hidden (entry_key path x) link = false ->
     spider (S (S depth)) path (Directory ((x, link, Unlistable e) :: entries)) =
       Raise e).
Proof.
  split.
  - intros Hignored Hlist Hheight.
    destruct (spider_total (Directory entries) Hignored depth path Hlist Hheight)
      as [Hreg|Hok]; [discriminate | exact Hok].
  - intros x link e Hskip. rewrite spider_Directory, each_cons, Hskip. reflexivity.
Qed.

Lemma each_untouched (depth : nat) (path : string)
  (entries : list (string * bool * fsnode)) (resources r : dict) (key : string) :
  ~ In key (map (fun entry => entry_key path (fst (fst entry))) entries) ->
  each depth path entries resources = Ok r ->
  dict_get r (PStr key) = dict_get resources (PStr key).
Proof.
  revert resources.
  induction entries as [|[[x link] child] rest IH]; intros resources Hout.
  - intro H. now inversion H.
  - rewrite each_cons. simpl in Hout.
    assert (Hne : pyval_eqb (PStr (entry_key path x)) (PStr key) = false).
    { apply pyval_eqb_Str_neq. unfold PStr. intro H. inversion H. tauto. }
    assert (Hrest : ~ In key (map (fun entry => entry_key path (fst (fst entry))) rest))
      by tauto.
    destruct (skipped followlinks hidden (entry_key path x) link); [now apply IH|].
    assert (Hdir :
      (new_resources <- spider depth (path_join path x) child ;;
       if truthy (PDict new_resources) then
         each depth path rest
           (dict_set resources (PStr (entry_key path x)) (PDict new_resources))
       else each depth path rest resources) = Ok r ->
      dict_get r (PStr key) = dict_get resources (PStr key)).
    { destruct (spider depth (path_join path x) child) as [new|];
        cbn [bind]; [|discriminate].
      destruct (truthy (PDict new)); [|now apply IH].
      intro H. rewrite (IH _ Hrest H). now apply dict_get_set_other. }
    destruct child as [|children|e]; [|exact Hdir|exact Hdir].
    destruct (file (path_join path x)) as [loaded|e].
    + intro H. rewrite (IH _ Hrest H). now apply dict_get_set_other.
    + destruct (caught ignore e); [now apply IH | discriminate].
Qed.

Lemma each_file (depth : nat) (path : string)
  (entries : list (string * bool * fsnode)) (resources r : dict)
  (x : string) (link : bool) :
  NoDup (map (fun entry => entry_key path (fst (fst entry))) entries) ->
  In (x, link, Regular) entries ->
  skipped followlinks hidden (entry_key path x) link = false ->
  dict_get resources (PStr (entry_key path x)) = None ->
  each depth path entries resources = Ok r ->
  dict_get r (PStr (entry_key path x)) =
    match file (path_join path x) with
    | Ok loaded => Some loaded
    | Raise _ => None
    end.
Proof.
  revert resources.
  induction entries as [|[[x' link'] child] rest IH];
    intros resources Hnodup Hin Hskip Hfresh; [contradiction|].
  simpl in Hnodup. inversion Hnodup as [|? ? Hout Hrest]. subst.
  rewrite each_cons. destruct Hin as [Heq|Hin].
  - inversion Heq. subst x' link' child. rewrite Hskip.
    destruct (file (path_join path x)) as [loaded|e].
    + intro H. rewrite (each_untouched depth path rest _ r _ Hout H).
      apply dict_get_set_same.
    + destruct (caught ignore e); [|discriminate].
      intro H. now rewrite (each_untouched depth path rest _ r _ Hout H).
  - assert (Hne : pyval_eqb (PStr (entry_key path x')) (PStr (entry_key path x)) = false).
    { apply pyval_eqb_Str_neq. unfold PStr. intro H. inversion H as [Hkey].
      apply Hout. rewrite Hkey.
      apply (in_map (fun entry => entry_key path (fst (fst entry))) rest
               (x, link, Regular) Hin). }
    destruct (skipped followlinks hidden (entry_key path x') link');
      [now apply IH|].
    assert (Hdir :
      (new_resources <- spider depth (path_join path x') child ;;
       if truthy (PDict new_resources) then
         each depth path rest
           (dict_set resources (PStr (entry_key path x')) (PDict new_resources))
       else each depth path rest resources) = Ok r ->
      dict_get r (PStr (entry_key path x)) =
        match file (path_join path x) with
        | Ok loaded => Some loaded
        | Raise _ => None
        end).
    { destruct (spider depth (path_join path x') child) as [new|];
        cbn [bind]; [|discriminate].
      destruct (truthy (PDict new)); [|now apply IH].
      apply IH; try assumption. now rewrite dict_get_set_other. }
    destruct child as [|children|e]; [|exact Hdir|exact Hdir].
    destruct (file (path_join path x')) as [loaded|e].
    + apply IH; try assumption. now rewrite dict_get_set_other.
    + destruct (caught ignore e); [now apply IH | discriminate].
Qed.

(** X27: in a listing of different names, a file that is not passed over
    is in what [_spider] returns exactly when it loads: under its name,
    with what [resource] makes of its path. *)
Theorem _spider_files (depth : nat) (path : string)
  (entries : list (string * bool * fsnode)) (r : dict) (x : string) (link : bool) :
  Forall (fun entry => has_slash (fst (fst entry)) = false) entries ->
  NoDup (map (fun entry => fst (fst entry)) entries) ->
  spider depth path (Directory entries) = Ok r ->
  In (x, link, Regular) entries ->
  skipped followlinks hidden x link = false ->
  dict_get r (PStr x) =
    match file (path_join path x) with
    | Ok loaded => Some loaded
    | Raise _ => None
    end.
Proof.
  intros Hnames Hnodup Hspider Hin Hskip.
  destruct depth as [|depth]; [discriminate|].
  assert (Hkeys : map (fun entry => entry_key path (fst (fst entry))) entries =
                  map (fun entry => fst (fst entry)) entries).
  { apply map_ext_in. intros entry Hentry. rewrite Forall_forall in Hnames.
    unfold entry_key. apply basename_path_join. now apply Hnames. }
  assert (Hkey : entry_key path x = x).
  { rewrite Forall_forall in Hnames. unfold entry_key.
    apply basename_path_join. exact (Hnames _ Hin). }
  rewrite <- Hkey at 1.
  apply (each_file depth path entries [] r x link); try assumption.
  - now rewrite Hkeys.
  - now rewrite Hkey.
  - reflexivity.
Qed.

(** X30: [data_spider] files what [_spider] returns under the base name of
    the path as it is written: for a path that ends with a slash that is
    the empty name, not the name of the directory. *)
Theorem data_spider_trailing_slash (depth : nat) (path : string) (node : fsnode)
  (r : dict) :
  ends_with_slash path = true ->
  data_spider resource_kw ignore followlinks hidden extra_kwargs depth path node =
    Ok r ->
  exists resources,
    spider depth path node = Ok resources /\ r = [(PStr "", PDict resources)].
Proof.
  intros Hends. unfold data_spider.
  destruct (spider depth path node) as [resources|e]; cbn [bind]; [|discriminate].
  intro H. inversion H. exists resources. split; [reflexivity|].
  destruct (ends_with_slash_app path Hends) as [a ->].
  now rewrite (basename_app_slash a "" eq_refl).
Qed.

End SpiderProperties.

(** ** Resources from a YAML specification *)

Lemma dict_get_del_same (d : dict) (k : pyval) : dict_get (dict_del d k) k = None.
Proof.
  unfold dict_del. induction d as [|[k' v'] d IH]; simpl; [reflexivity|].
  destruct (pyval_eqb k' k) eqn:Hk; simpl; [exact IH|]. now rewrite Hk.
Qed.

Lemma dict_get_del_None (d : dict) (k k' : pyval) :
  dict_get d k' = None -> dict_get (dict_del d k) k' = None.
Proof.
  unfold dict_del. induction d as [|[k0 v0] d IH]; simpl; [reflexivity|].
  destruct (pyval_eqb k0 k') eqn:Hk'; [discriminate|].
  intro H. destruct (pyval_eqb k0 k); simpl; [now apply IH|].
  rewrite Hk'. now apply IH.
Qed.

Section FromYamlProperties.

Variable ignore : list string.
Variable followlinks : bool.
Variable hidden : bool.
Variable import_module : pyval -> result unit.
Variable isdir : pyval -> result bool.
Variable expanduser : string -> string.
Variable tree_at : string -> fsnode.
Variable repr : pyval -> string.
Variable depth : nat.



Lemma _spider_ext (resource_kw resource_kw' : pyval -> dict -> result pyval)
  (extra_kwargs : pyval) :
  (forall filename,
     load resource_kw extra_kwargs filename = load resource_kw' extra_kwargs filename) ->
  forall node calls path,
    _spider resource_kw ignore followlinks hidden extra_kwargs calls path node =
    _spider resource_kw' ignore followlinks hidden extra_kwargs calls path node.
Proof.
  intro Hload.
  induction node as [|entries Hentries|e] using fsnode_ind; intros calls path;
    destruct calls as [|calls]; try reflexivity.
  rewrite !spider_Directory. generalize (@nil (pyval * pyval)) as resources.
  induction Hentries as [|[[x link] child] rest Hchild _ IH]; intro resources;
    [reflexivity|].
  rewrite !each_cons.
  destruct (skipped followlinks hidden (entry_key path x) link); [apply IH|].
  cbn [snd] in Hchild.
  assert (Hdir :
    (new_resources <- _spider resource_kw ignore followlinks hidden extra_kwargs
                        calls (path_join path x) child ;;
     if truthy (PDict new_resources) then
       spider_entries resource_kw ignore followlinks hidden extra_kwargs
         (_spider resource_kw ignore followlinks hidden extra_kwargs calls)
         path rest
         (dict_set resources (PStr (entry_key path x)) (PDict new_resources))
     else
       spider_entries resource_kw ignore followlinks hidden extra_kwargs
         (_spider resource_kw ignore followlinks hidden extra_kwargs calls)
         path rest resources) =
    (new_resources <- _spider resource_kw' ignore followlinks hidden extra_kwargs
                        calls (path_join path x) child ;;
     if truthy (PDict new_resources) then
       spider_entries resource_kw' ignore followlinks hidden extra_kwargs
         (_spider resource_kw' ignore followlinks hidden extra_kwargs calls)
         path rest
         (dict_set resources (PStr (entry_key path x)) (PDict new_resources))
     else
       spider_entries resource_kw' ignore followlinks hidden extra_kwargs
         (_spider resource_kw' ignore followlinks hidden extra_kwargs calls)
         path rest resources)).
  { rewrite Hchild.
    destruct (_spider resource_kw' ignore followlinks hidden extra_kwargs
                calls (path_join path x) child) as [new|];
      cbn [bind]; [|reflexivity].
    destruct (truthy (PDict new)); apply IH. }
  destruct child as [|children|e]; [|exact Hdir|exact Hdir].
  rewrite Hload. destruct (load resource_kw' extra_kwargs (path_join path x));
    [apply IH|]. destruct (caught ignore e); [apply IH | reflexivity].
Qed.

(** X29: [from_yaml] never passes the keys ['source'] and ['imports'] of a
    data source on to [resource]: it returns the same for every
    [resource] that does the same without these two keyword arguments. *)
Theorem from_yaml_keeps_two_keys
  (resource_kw resource_kw' : pyval -> dict -> result pyval) (spec : pyval) :
  (forall uri kwargs,
     dict_get kwargs (PStr "source") = None ->
     dict_get kwargs (PStr "imports") = None ->
     resource_kw uri kwargs = resource_kw' uri kwargs) ->
  from_yaml resource_kw ignore followlinks hidden import_module isdir
    expanduser tree_at repr depth spec =
  from_yaml resource_kw' ignore followlinks hidden import_module isdir
    expanduser tree_at repr depth spec.
Proof.
  intro Hagree. destruct spec as [| | |items| | | |]; try reflexivity.
  unfold from_yaml. generalize (@nil (pyval * pyval)) as resources.
  induction items as [|[name info] items IH]; intro resources; [reflexivity|].
  simpl.
  assert (Hsource :
    load_source resource_kw ignore followlinks hidden import_module isdir
      expanduser tree_at repr depth name info =
    load_source resource_kw' ignore followlinks hidden import_module isdir
      expanduser tree_at repr depth name info).
  { destruct info as [| | |d| | | |]; try reflexivity.
    unfold load_source.
    destruct (dict_pop d (PStr "source")) as [[source d']|] eqn:Hpop; [|reflexivity].
    unfold dict_pop in Hpop.
    destruct (dict_get d (PStr "source")); [|discriminate].
    inversion Hpop. subst.
    set (kwargs := dict_del (dict_del d (PStr "source")) (PStr "imports")).
    assert (H1 : dict_get kwargs (PStr "source") = None).
    { apply dict_get_del_None. apply dict_get_del_same. }
    assert (H2 : dict_get kwargs (PStr "imports") = None)
      by apply dict_get_del_same.
    destruct (iterate _) as [mods|]; cbn [bind]; [|reflexivity].
    destruct (mapM import_module mods); cbn [bind]; [|reflexivity].
    destruct (isdir source) as [[|]|]; cbn [bind]; try reflexivity.
    - destruct source as [[| | |s|]| | | | | | |]; try reflexivity.
      unfold data_spider.
      rewrite (_spider_ext resource_kw resource_kw' (PDict kwargs)); [reflexivity|].
      intro filename. unfold load, or_empty.
      destruct (truthy (PDict kwargs)) eqn:Hkwargs.
      + destruct (kwargs_of (PDict kwargs)) as [kw|] eqn:Hkw; cbn [bind];
          [|reflexivity].
        unfold kwargs_of in Hkw.
        destruct (forallb _ kwargs); inversion Hkw; subst. now apply Hagree.
      + cbn. now apply Hagree.
    - destruct (kwargs_of (PDict kwargs)) as [kw|] eqn:Hkw; cbn [bind];
        [|reflexivity].
      unfold kwargs_of in Hkw.
      destruct (forallb _ kwargs); inversion Hkw; subst. now apply Hagree. }
  rewrite Hsource.
  destruct (load_source resource_kw' ignore followlinks hidden import_module
              isdir expanduser tree_at repr depth name info); cbn [bind];
    [apply IH | reflexivity].
Qed.

End FromYamlProperties.

(** ** Runs on the example engine *)

Section Runs.

Import Example.

(** The examples of the docstrings of [to_tree] and [from_tree]. *)
Example to_tree_symbol :
  to_tree engine [] t = Ok (op_tree "Symbol" [PStr "t"; Prim (Obj 1); PNone]).
Proof. reflexivity. Qed.

Example to_tree_names :
  to_tree engine names_t (PExpr Field_cls [t; PStr "x"]) =
    Ok (op_tree "Field" [PStr "t"; PStr "x"]).
Proof. reflexivity. Qed.

Example from_tree_namespace :
  from_tree engine [(PStr "t", t)] (op_tree "Field" [PStr "t"; PStr "x"]) =
    Ok (PExpr Field_cls [t; PStr "x"]).
Proof. reflexivity. Qed.

(** [t[0:5]] goes through without names, and raises under [{t: 't'}]. *)
Example to_tree_slice :
  to_tree engine [] (P_slice (Prim (Int 0)) (Prim (Int 5)) PNone) =
    Ok (op_tree "slice" [Prim (Int 0); Prim (Int 5); PNone]).
Proof. reflexivity. Qed.

Example to_tree_slice_names :
  to_tree engine names_t (P_slice (Prim (Int 0)) (Prim (Int 5)) PNone) =
    Raise (TypeError "unhashable type").
Proof. reflexivity. Qed.

Example mimetype_regex_json :
  mimetype_regex engine "application/vnd.blaze+json" = Some "json" /\
  mimetype_regex engine "application/vnd.blaze+yaml" = None /\
  mimetype_regex engine "text/plain" = None /\
  mimetype_regex engine "" = None.
Proof. repeat split. Qed.

(** A request for [sum(leaf.amount)] is answered. *)
Example compute_route_sum :
  compute_route engine plain_server (typed "application/vnd.blaze+json" "sum") =
    Ok (reply_ok (PDict [(PStr "datashape", PStr "int64");
                         (PStr "data", Prim (Int 42));
                         (PStr "names", PList [])])).
Proof. reflexivity. Qed.

(** [True] is [1]: under [{t: 1}] the argument [True] of a node is kept by
    [to_tree] and decoded as [t]. *)
Example true_is_one :
  to_tree engine [(t, Prim (Int 1))] (PExpr Add_cls [t; Prim (Bool true)]) =
    Ok (op_tree "Add" [Prim (Int 1); Prim (Bool true)]) /\
  from_tree engine (inverse [(t, Prim (Int 1))])
    (op_tree "Add" [Prim (Int 1); Prim (Bool true)]) = Ok (PExpr Add_cls [t; t]) /\
  ~ faithful engine [(t, Prim (Int 1))] (PExpr Add_cls [t; Prim (Bool true)]).
Proof.
  split; [reflexivity|]. split; [reflexivity|].
  simpl. intros (_ & _ & _ & _ & Hflag & _). discriminate Hflag.
Qed.




(** Under [{'t': t}] the name ['t'] of a symbol stays, and the argument
    ['t'] of a field is replaced by [t]. *)
Lemma from_tree_symbol_arguments_witness :
  from_tree engine [(PStr "t", t)]
    (op_tree "Symbol" [PStr "t"; Prim (Obj 1); PNone]) = Ok t /\
  from_tree engine [(PStr "t", t)] (op_tree "Field" [PStr "t"; PStr "x"]) =
    Ok (PExpr Field_cls [t; PStr "x"]).
Proof.
  split.
  - exact (proj2 (proj1 (from_tree_symbol_arguments engine [(PStr "t", t)]
                           "Symbol" [Str "t"; Obj 1; None_]) eq_refl)).
  - exact (proj2 (proj2 (from_tree_symbol_arguments engine [(PStr "t", t)]
                           "Field" [Str "t"; Str "x"]) eq_refl)).
Defined.

(** C3 fails for a tag that the top-level namespace and the expression
    module bind to different objects: the first match in the order of
    [expression_from_name] is the top-level one, and [from_tree] takes the
    one of the expression module. *)
Lemma decoding_prefers_expression_module :
  blaze_attr engine "utils" = Some blaze_utils /\
  blaze_expr_attr engine "utils" = Some blaze_expr_utils /\
  expression_from_name engine "utils" = Ok blaze_utils /\
  class_of_op engine (PStr "utils") = Ok blaze_expr_utils /\
  (forall ns args,
     from_tree engine ns (op_tree "utils" args) =
       (args' <- mapM (from_tree engine ns) args ;;
        construct engine blaze_expr_utils args')) /\
  blaze_utils <> blaze_expr_utils.
Proof.
  repeat split; try reflexivity. discriminate.
Qed.

Lemma tag_resolution_order_witness :
  blaze_attr engine "DataFrame" = None /\
  blaze_expr_attr engine "DataFrame" = None /\
  expression_from_name engine "DataFrame" = Ok DataFrame_cls.
Proof.
  split; [reflexivity|]. split; [reflexivity|].
  apply (proj1 (proj2 (proj2 (tag_resolution_order engine "DataFrame")))
           [[Field_cls; DataFrame_cls]] [] DataFrame_cls []);
    try reflexivity.
  repeat constructor. exists Field_cls, [DataFrame_cls].
  split; [reflexivity | discriminate].
Defined.

(** C4 fails on [leaf + u]: two leaves, and [compserver] raises
    [AssertionError] instead of answering. *)
Lemma two_leaves_raise :
  (exists expr, decode_expr engine plain_server two_leaves_payload = Ok expr /\
                leaves engine expr = Ok [leaf; u]) /\
  compserver engine plain_server (PDict two_leaves_payload) json =
    Raise AssertionError.
Proof.
  split; [|reflexivity]. eexists. split; reflexivity.
Qed.

Lemma leaf_count_assertion_witness :
  profile_setup plain_server two_leaves_payload = None /\
  compserver engine plain_server (PDict two_leaves_payload) json =
    Raise AssertionError.
Proof.
  split; [reflexivity|].
  apply (proj2 (leaf_count_assertion engine plain_server two_leaves_payload
                  json eq_refl)
           (PExpr Add_cls [leaf; u]) [leaf; u]); try reflexivity.
  simpl. lia.
Defined.

Lemma execute_failure_status_witness :
  compserver (failing_engine not_implemented) plain_server (PDict sum_payload) json =
    Ok (reply ("Computation not supported:" ++ newline ++ "no backend for sum") 501).
Proof.
  apply (execute_failure_status (failing_engine not_implemented) plain_server
           sum_payload json
           (PExpr sum_cls [PExpr Field_cls [leaf; PStr "amount"]]) leaf
           not_implemented); reflexivity.
Defined.

(** C6: a request without a content-type header is not answered 415:
    the subscript [request.headers['content-type']] raises [KeyError]
    before any answer is built, where a header that is present and empty
    is answered 415. *)
Lemma missing_content_type_raises :
  check_request engine plain_server (compserver engine plain_server)
    (mkRequest [] "sum" PNone) = Raise (KeyError "content-type") /\
  check_request engine plain_server (compserver engine plain_server)
    (typed "" "sum") = Ok (reply "Unsupported serialization format " 415).
Proof. split; reflexivity. Qed.

Lemma check_request_refusals_witness :
  check_request engine plain_server (compserver engine plain_server)
    (typed "text/plain" "sum") =
    Ok (reply "Unsupported serialization format text/plain" 415) /\
  check_request engine plain_server (compserver engine plain_server)
    (typed "application/vnd.blaze+pickle" "sum") =
    Ok (reply "Unsupported serialization format 'pickle'" 415) /\
  check_request engine plain_server (compserver engine plain_server)
    (typed "application/vnd.blaze+json" "{") =
    Ok (reply "Bad data.  Got { " 400).
Proof.
  split; [|split].
  - apply (proj1 (check_request_refusals engine plain_server
                    (compserver engine plain_server)
                    (typed "text/plain" "sum") "text/plain" eq_refl)).
    reflexivity.
  - apply (proj1 (proj2 (check_request_refusals engine plain_server
                           (compserver engine plain_server)
                           (typed "application/vnd.blaze+pickle" "sum")
                           "application/vnd.blaze+pickle" eq_refl))
             "pickle" (KeyError "pickle")); reflexivity.
  - apply (proj2 (proj2 (check_request_refusals engine plain_server
                           (compserver engine plain_server)
                           (typed "application/vnd.blaze+json" "{")
                           "application/vnd.blaze+json" eq_refl))
             "json" json (ValueError "No JSON object could be decoded"));
      reflexivity.
Defined.

(** C7 fails on a request that names a path and is not profiled: the
    server keeps its profiler output off the file system, the request asks
    for [/tmp/x], and it is served. *)
Lemma unprofiled_request_is_served :
  default_profiler_output profiling_server = PStr ":response" /\
  requested_profiler_output profiling_server
    ((PStr "profiler_output", PStr "/tmp/x") :: sum_payload) = PStr "/tmp/x" /\
  exists answer,
    compserver engine profiling_server
      (PDict ((PStr "profiler_output", PStr "/tmp/x") :: sum_payload)) json =
      Ok answer /\
    status answer = 200%Z.
Proof.
  split; [reflexivity|]. split; [reflexivity|].
  eexists. split; reflexivity.
Qed.

Lemma profiling_refusals_witness :
  compserver engine plain_server
    (PDict ((PStr "profile", Prim (Bool true)) :: sum_payload)) json =
    Ok (reply "profiling is disabled on this server" 403) /\
  compserver engine profiling_server
    (PDict ((PStr "profile", Prim (Bool true)) ::
            (PStr "profiler_output", PStr "/tmp/x") :: sum_payload)) json =
    Ok (reply ("local filepaths are disabled on this server, only" ++
               " ':response' is allowed for the 'profiler_output' field") 403).
Proof.
  split.
  - apply (proj1 (profiling_refusals engine plain_server
                    ((PStr "profile", Prim (Bool true)) :: sum_payload) json));
      reflexivity.
  - apply (proj2 (profiling_refusals engine profiling_server
                    ((PStr "profile", Prim (Bool true)) ::
                     (PStr "profiler_output", PStr "/tmp/x") :: sum_payload) json));
      try reflexivity.
    discriminate.
Defined.

(** C8 fails on [{'x': 5}]: [resource(5)] raises, and so does the view. *)
Lemma add_unresolvable_raises :
  data plain_server = PDict [(PStr "accounts", Prim (Obj 7))] /\
  exists e,
    resource engine (Prim (Int 5)) = Raise e /\
    addserver engine plain_server (PDict [(PStr "x", Prim (Int 5))]) json =
      (plain_server, Raise e).
Proof. split; [reflexivity|]. eexists. split; reflexivity. Qed.

Lemma addserver_merges_witness :
  exists r,
    resource engine (PStr "iris.csv") = Ok r /\
    dict_get
      (dict_update [(PStr "accounts", Prim (Obj 7))]
         [(PStr "accounts", Prim (Obj 8))])
      (PStr "accounts") = Some r.
Proof.
  apply (proj1 (proj2 (proj2 (proj2 (addserver_merges engine plain_server
           (PDict [(PStr "accounts", PStr "iris.csv")]) json))
         [(PStr "accounts", Prim (Obj 7))]
         [(PStr "accounts", PStr "iris.csv")]
         [(PStr "accounts", Prim (Obj 8))] eq_refl eq_refl eq_refl))).
  - repeat constructor.
  - now left.
Defined.

(** C9 fails on [{'iris': 'iris.csv', 'x': 5}]: the first entry resolves
    and is not merged. *)
Lemma add_merges_nothing :
  data plain_server = PDict [(PStr "accounts", Prim (Obj 7))] /\
  (exists r, resource engine (PStr "iris.csv") = Ok r) /\
  exists e,
    resource engine (Prim (Int 5)) = Raise e /\
    addserver engine plain_server
      (PDict [(PStr "iris", PStr "iris.csv"); (PStr "x", Prim (Int 5))]) json =
      (plain_server, Raise e) /\
    dict_get [(PStr "accounts", Prim (Obj 7))] (PStr "iris") = None.
Proof.
  split; [reflexivity|]. split; [eexists; reflexivity|].
  eexists. repeat split.
Qed.

Lemma addserver_all_or_nothing_witness :
  addserver engine plain_server
    (PDict ([(PStr "iris", PStr "iris.csv")] ++ (PStr "x", Prim (Int 5)) :: []))
    json =
    (plain_server,
     Raise (mkExn "NotImplementedError" ["RuntimeError"]
              "Unable to parse uri to data resource")).
Proof.
  apply (addserver_all_or_nothing engine plain_server json
           [(PStr "accounts", Prim (Obj 7))]).
  - reflexivity.
  - repeat constructor. eexists. reflexivity.
  - reflexivity.
Defined.

(** A payload that binds [':leaf'] itself is computed on the server's
    symbol all the same. *)
Lemma leaf_alias_is_bound_by_the_server_witness :
  compserver engine plain_server (PDict own_leaf_payload) json =
    respond engine plain_server json own_leaf_payload
      (PExpr sum_cls [PExpr Field_cls [leaf; PStr "amount"]]) (Prim (Int 42)).
Proof.
  apply (proj1 (proj2 (proj2 (proj2 (proj2
           (leaf_alias_is_bound_by_the_server engine plain_server own_leaf_payload
              [(PStr ":leaf", u)]
              [(PStr ":leaf", leaf)]
              leaf_sum (Prim (Obj 0)) json eq_refl eq_refl eq_refl eq_refl)))))
           eq_refl) with (leaf := leaf); reflexivity.
Defined.

End Runs.

(** ** More runs on the example engine *)

Section MoreRuns.

Import Example.
Import MoreExample.

Lemma to_tree_wire_witness :
  wire (op_tree "sum" [op_tree "Field" [PStr "t"; PStr "amount"]]) = true.
Proof.
  apply (to_tree_wire engine names_t t_amount_sum).
  - intros k a [H|[]]. inversion H. reflexivity.
  - reflexivity.
  - reflexivity.
Defined.

Lemma from_tree_slice_witness :
  from_tree engine names_t (op_tree "slice" [Prim (Int 0); Prim (Int 5); PNone]) =
    Ok first_five.
Proof.
  apply (proj1 (from_tree_slice engine names_t
                  [Prim (Int 0); Prim (Int 5); PNone] first_five)).
  exists (Prim (Int 0)), (Prim (Int 5)), PNone, (Prim (Int 0)), (Prim (Int 5)), PNone.
  repeat split.
Defined.

Lemma interactive_symbol_is_sent_as_symbol_witness :
  to_tree engine [] (PInteractive (PStr "accounts") (Prim (Obj 1)) (Prim (Obj 7))) =
    Ok (op_tree "Symbol" [PStr "accounts"; Prim (Obj 1); PNone]) /\
  from_tree engine names_t (op_tree "Symbol" [PStr "accounts"; Prim (Obj 1); PNone]) =
    Ok (symbol engine (PStr "accounts") (Prim (Obj 1))).
Proof.
  apply (interactive_symbol_is_sent_as_symbol engine (Str "accounts") (Obj 1)
           (Prim (Obj 7)) names_t); reflexivity.
Defined.

Lemma from_tree_unknown_tag_witness :
  from_tree engine []
    (PDict [(PStr "op", PStr "Frobnicate"); (PStr "args", Prim (Int 3))]) =
    Raise (ValueError "Frobnicate not found in compute_up").
Proof.
  apply (from_tree_unknown_tag engine []
           [(PStr "op", PStr "Frobnicate"); (PStr "args", Prim (Int 3))]
           "Frobnicate" (Prim (Int 3))); try reflexivity.
  - discriminate.
  - repeat constructor; eexists; eexists; (split; [reflexivity | discriminate]).
Defined.

Lemma to_tree_names_slice_witness :
  to_tree engine names_t (PExpr Add_cls ([t] ++ first_five :: [])) =
    Raise (TypeError "unhashable type").
Proof.
  apply (to_tree_names_slice engine names_t Add_cls [t] []
           (Prim (Int 0)) (Prim (Int 5)) PNone).
  - discriminate.
  - reflexivity.
  - repeat constructor. eexists. reflexivity.
  - reflexivity.
Defined.

Lemma expression_from_name_catalogue_witness :
  cls_name DataFrame_cls = "DataFrame" /\
  exists ts, In (DataFrame_cls :: ts) (compute_up_funcs engine).
Proof.
  apply (expression_from_name_catalogue engine "DataFrame" DataFrame_cls);
    reflexivity.
Defined.

Lemma negotiate_calls_the_view_witness :
  exists content_type name,
    header (headers (typed "application/vnd.blaze+json" "sum")) "content-type" =
      Ok content_type /\
    In name (pattern_names engine) /\
    (content_type = ("application/vnd.blaze+" ++ name)%string \/
     content_type = ("application/vnd.blaze+" ++ name ++ newline)%string) /\
    _get_format (formats plain_server) name = Ok json /\
    loads json (req_data (typed "application/vnd.blaze+json" "sum")) =
      Ok (PDict sum_payload).
Proof.
  apply (negotiate_calls_the_view engine plain_server
           (typed "application/vnd.blaze+json" "sum") (PDict sum_payload) json).
  reflexivity.
Defined.

Lemma unlisted_format_is_refused_witness :
  check_request engine plain_server (compserver engine plain_server)
    (typed "application/vnd.blaze+yaml" "sum") =
    Ok (reply "Unsupported serialization format application/vnd.blaze+yaml" 415).
Proof.
  apply (unlisted_format_is_refused engine plain_server
           (compserver engine plain_server)
           (typed "application/vnd.blaze+yaml" "sum") "yaml").
  - reflexivity.
  - intros a [<-|[<-|[]]]; split; discriminate.
Defined.

Lemma rejected_credentials_witness :
  compute_route engine closed_server (typed "application/vnd.blaze+json" "sum") =
    Ok unauthorized /\
  add_route engine closed_server (typed "application/vnd.blaze+json" "sum") =
    (closed_server, Ok unauthorized) /\
  datashape_route engine closed_server (typed "application/vnd.blaze+json" "sum") =
    Ok unauthorized /\
  status unauthorized = 401%Z /\
  In "WWW-Authenticate" (map fst (resp_headers unauthorized)).
Proof.
  apply (rejected_credentials engine closed_server
           (typed "application/vnd.blaze+json" "sum")).
  reflexivity.
Defined.

Lemma compserver_writes_no_file_witness :
  compserver
    (with_write_profile engine (fun _ _ => Raise (mkExn "IOError" [] "disk full")))
    profiling_server
    (PDict [(PStr "expr", leaf_sum); (PStr "profile", Prim (Bool true));
            (PStr "profiler_output", PStr ":response")]) json =
  compserver engine profiling_server
    (PDict [(PStr "expr", leaf_sum); (PStr "profile", Prim (Bool true));
            (PStr "profiler_output", PStr ":response")]) json.
Proof.
  apply (compserver_writes_no_file engine profiling_server).
  right. reflexivity.
Defined.

Lemma profile_by_default_overrides_witness :
  profiling always_profiling_server
    (dict_set sum_payload (PStr "profile") (Prim (Bool false))) = true.
Proof.
  apply (profile_by_default_overrides always_profiling_server sum_payload
           (Prim (Bool false))); reflexivity.
Defined.

Lemma compserver_reads_six_keys_witness :
  compserver engine plain_server
    (PDict (dict_set sum_payload (PStr "extra") (Prim (Int 1)))) json =
  compserver engine plain_server (PDict sum_payload) json.
Proof.
  apply (compserver_reads_six_keys engine plain_server sum_payload
           (PStr "extra") (Prim (Int 1)) json); discriminate.
Defined.

Lemma addserver_keeps_names_witness :
  exists registry',
    data (fst (addserver engine plain_server
                 (PDict [(PStr "iris", PStr "iris.csv")]) json)) = PDict registry' /\
    forall k, dict_get [(PStr "accounts", Prim (Obj 7))] k <> None ->
              dict_get registry' k <> None.
Proof.
  apply (addserver_keeps_names engine plain_server _
           (PDict [(PStr "iris", PStr "iris.csv")]) json
           (snd (addserver engine plain_server
                   (PDict [(PStr "iris", PStr "iris.csv")]) json))
           [(PStr "accounts", Prim (Obj 7))]); reflexivity.
Defined.

Lemma addserver_twice_witness :
  addserver engine
    (with_data plain_server
       (PDict [(PStr "accounts", Prim (Obj 7)); (PStr "iris", Prim (Obj 8))]))
    (PDict [(PStr "iris", PStr "iris.csv")]) json =
    (with_data plain_server
       (PDict [(PStr "accounts", Prim (Obj 7)); (PStr "iris", Prim (Obj 8))]),
     Ok (reply_ok (PStr "OK"))).
Proof.
  apply (addserver_twice engine plain_server).
  - repeat constructor.
  - reflexivity.
Defined.

Lemma registered_server_witness :
  exists S d fs,
    opt_data (options_of None None) = Some d /\
    opt_formats (options_of None None) = Some fs /\
    registered
      (fst (_register_api makedirs errno Blueprint_register no_caches 1
              (options_of None None))) 1 = Ok S /\
    data S = d /\ formats S = formats_by_name fs /\
    (allow_profiler S = false ->
     truthy (default_profiler_output S) = false /\ profile_by_default S = false) /\
    (allow_profiler S = true -> default_profiler_output S <> PNone).
Proof.
  apply (registered_server makedirs errno Blueprint_register no_caches).
  reflexivity.
Defined.

Lemma required_options_witness :
  snd (_register_api makedirs errno Blueprint_register no_caches 1
         (options_of None None)) = Blueprint_register 1 /\
  registered
    (fst (_register_api makedirs errno Blueprint_register no_caches 1
            (options_of None None))) 1 =
    Ok (mkServer accounts (formats_by_name [json; other_json]) (fun _ => true)
          false PNone false).
Proof.
  apply (proj2 (proj2 (required_options makedirs errno Blueprint_register
                         no_caches 1 (options_of None None))));
    reflexivity.
Defined.

Lemma registration_of_another_app_witness :
  registered
    (fst (_register_api makedirs errno Blueprint_register
            (fst (_register_api makedirs errno Blueprint_register no_caches 2
                    (options_of None None)))
            1 (options_of (Some (PStr "out")) None))) 2 =
  registered
    (fst (_register_api makedirs errno Blueprint_register no_caches 2
            (options_of None None))) 2.
Proof.
  apply (registration_of_another_app makedirs errno Blueprint_register).
  discriminate.
Defined.

Lemma last_format_of_a_name_witness :
  _get_format (formats_by_name ([json] ++ other_json :: [])) (fmt_name other_json) =
    Ok other_json.
Proof.
  apply (proj1 (last_format_of_a_name [json] [] other_json "json")).
  constructor.
Defined.

Lemma profiler_options_need_allow_profiler_witness :
  snd (_register_api makedirs errno Blueprint_register no_caches 1
         (options_of (Some (PStr "out")) None)) =
    Raise (ValueError "cannot set profiler_output when 'allow_profiler' is False") /\
  profiler_info_cache
    (fst (_register_api makedirs errno Blueprint_register no_caches 1
            (options_of (Some (PStr "out")) None))) = [].
Proof.
  apply (profiler_options_need_allow_profiler makedirs errno Blueprint_register
           no_caches 1 (options_of (Some (PStr "out")) None)
           accounts [json; other_json] (PStr "out") false);
    reflexivity.
Defined.

Lemma response_output_makes_no_directory_witness :
  _register_api makedirs errno Blueprint_register no_caches 1 (options_of None None) =
  _register_api (fun _ => Raise (mkExn "OSError" [] "Permission denied"))
    (fun _ => 13%Z) Blueprint_register no_caches 1 (options_of None None).
Proof.
  apply (response_output_makes_no_directory makedirs errno Blueprint_register).
  left. reflexivity.
Defined.

Lemma server_without_data_accepts_add_witness :
  exists cs' S,
    Server_init makedirs errno Blueprint_register json no_caches 1 None None
      None false PNone false = (cs', Ok tt) /\
    registered cs' 1 = Ok S /\
    data S = PDict [] /\
    forall (p resolved : dict) (serial : format),
      valmap (resource engine) p = Ok resolved ->
      addserver engine S (PDict p) serial =
        (with_data S (PDict (dict_update [] resolved)), Ok (reply_ok (PStr "OK"))).
Proof.
  apply (server_without_data_accepts_add makedirs errno Blueprint_register
           engine json no_caches 1 None None).
  reflexivity.
Defined.

Lemma run_serves_on_the_first_free_port_witness :
  run app_run "error" 10 None 6363 true = (Some (6363 + Z.of_nat 2)%Z, Ok tt).
Proof.
  apply (proj1 (run_serves_on_the_first_free_port app_run "error" 10 2 None 6363)).
  - intros i Hi. destruct i as [|[|i]].
    + eexists. split; reflexivity.
    + eexists. split; reflexivity.
    + lia.
  - reflexivity.
  - lia.
Defined.

Lemma _spider_items_witness :
  exists x link child,
    In (x, link, child) listing /\ PStr "2015" = PStr x /\
    (String.prefix "." x = true -> false = true) /\
    (link = true -> true = true) /\
    match child with
    | Regular =>
        load resource_kw PNone (path_join "/data" x) =
          Ok (PDict [(PStr "accounts.json",
                      PTuple [PStr "/data/2015/accounts.json"; PDict []])])
    | _ =>
        exists new_resources,
          _spider resource_kw default_ignore true false PNone 9
            (path_join "/data" x) child = Ok new_resources /\
          new_resources <> [] /\
          PDict [(PStr "accounts.json",
                  PTuple [PStr "/data/2015/accounts.json"; PDict []])] =
            PDict new_resources
    end.
Proof.
  apply (_spider_items resource_kw default_ignore true false PNone 9 "/data" listing
           [(PStr "iris.csv", PTuple [PStr "/data/iris.csv"; PDict []]);
            (PStr "latest", PTuple [PStr "/data/latest"; PDict []]);
            (PStr "2015",
             PDict [(PStr "accounts.json",
                     PTuple [PStr "/data/2015/accounts.json"; PDict []])])]).
  - repeat constructor.
  - reflexivity.
  - simpl. auto.
Defined.

Lemma _spider_ignores_witness :
  exists r,
    _spider resource_kw default_ignore false true PNone 10 "/data" (Directory listing) =
      Ok r.
Proof.
  apply (proj1 (_spider_ignores resource_kw default_ignore false true PNone 10
                  "/data" listing)).
  - intros filename e. unfold load, resource_kw. cbn [or_empty kwargs_of bind].
    simpl. destruct (String.eqb (basename filename) "README"); [|discriminate].
    intro H. inversion H. reflexivity.
  - reflexivity.
  - simpl. lia.
Defined.

(** A directory that may not be read ends the walk, also when [ignore]
    holds [OSError]. *)
Example locked_directory_raises :
  _spider resource_kw ["OSError"] true false PNone 10 "/data"
    (Directory locked_listing) = Raise permission_denied.
Proof. reflexivity. Qed.

Lemma _spider_files_witness :
  dict_get
    [(PStr "iris.csv", PTuple [PStr "/data/iris.csv"; PDict []]);
     (PStr "latest", PTuple [PStr "/data/latest"; PDict []]);
     (PStr "2015",
      PDict [(PStr "accounts.json",
              PTuple [PStr "/data/2015/accounts.json"; PDict []])])]
    (PStr "README") =
    match load resource_kw PNone (path_join "/data" "README") with
    | Ok loaded => Some loaded
    | Raise _ => None
    end.
Proof.
  apply (_spider_files resource_kw default_ignore true false PNone 10 "/data" listing
           _ "README" false).
  - repeat constructor.
  - repeat constructor; simpl; intuition discriminate.
  - reflexivity.
  - simpl. auto.
  - reflexivity.
Defined.

Lemma data_spider_trailing_slash_witness :
  exists resources,
    _spider resource_kw default_ignore true false PNone 10 "/data/" tree =
      Ok resources /\
    [(PStr "",
      PDict [(PStr "iris.csv", PTuple [PStr "/data/iris.csv"; PDict []]);
             (PStr "latest", PTuple [PStr "/data/latest"; PDict []]);
             (PStr "2015",
              PDict [(PStr "accounts.json",
                      PTuple [PStr "/data/2015/accounts.json"; PDict []])])])] =
      [(PStr "", PDict resources)].
Proof.
  apply (data_spider_trailing_slash resource_kw default_ignore true false PNone
           10 "/data/" tree); reflexivity.
Defined.


Lemma from_yaml_keeps_two_keys_witness :
  from_yaml resource_kw default_ignore true false import_module isdir expanduser
    tree_at repr 10 yaml_files =
  from_yaml strict_resource_kw default_ignore true false import_module isdir
    expanduser tree_at repr 10 yaml_files.
Proof.
  apply (from_yaml_keeps_two_keys default_ignore true false import_module isdir
           expanduser tree_at repr 10 resource_kw strict_resource_kw yaml_files).
  intros uri kwargs Hsource _. unfold strict_resource_kw.
  rewrite Hsource. reflexivity.
Defined.

End MoreRuns.
